(** * JobMatch AI: the generation workflow, its validators and its save path

    A shallow embedding of the parts of the repository that decide the
    specification's testable properties:

    - [Js]: the JavaScript values, strings and exceptions the code works on;
    - [Dashboard]: the workflow controller of [src/components/Dashboard.tsx],
      with its step indicator, its Next button and its list of generations;
    - [JobAnalysis]: [validateJobUrl], [parseJobDataFlexibly],
      [analyzeJobVacancy], [handleAnalyze] and the editor of the job-analysis
      component;
    - [ResumeUpload]: [validateFile] and [extractDisplayData] of
      [src/components/ResumeUpload.tsx], with the server-side
      [validateFileMetadata] of the upload function beside it;
    - [ResumeUploadComponent]: [parseResumeAPI], [handleFileUpload],
      [removeFile] and the editor of the same component;
    - [CoverLetterGenerator]: the settings, the editor and
      [generateCoverLetter] of the letter component;
    - [MatchingResults]: [validateScoringData], [performScoringAnalysis] and
      [startAnalysis];
    - [FinalResults]: [handleSaveGeneration] and [generateScoringText];
    - [SaveGeneration]: the edge function [supabase/functions/save-generation];
    - [Generation]: [validateCreateGenerationData] of [src/types/generation.ts];
    - [Spec] and [Scenario]: the notions the properties are stated with and
      the concrete runs they are tried on.

    The properties follow the definitions, component by component.

    Strings are Rocq strings holding the UTF-8 bytes of the JavaScript string.
    Numbers are rationals: every value [JSON.parse] yields for a number in
    range is one, and the code only compares them. What the platform and the
    services do ([new URL], [Number::toString], [fetch], the session, the
    database) enters as a variable of the section that uses it. *)

From Stdlib Require Import String Ascii List ZArith QArith Bool Lia DecimalString.
Import ListNotations.
Close Scope Q_scope.
Local Open Scope string_scope.
Set Warnings "-register-all".

(* ================================================================== *)
(** * JavaScript values *)
(* ================================================================== *)

Module Js.

(** What [JSON.parse] and object literals build, plus [undefined]. An object is
    the list of its own properties; a key is looked up from the front. *)
Inductive value : Type :=
| VUndef
| VNull
| VBool (b : bool)
| VNum (q : Q)
| VStr (s : string)
| VArr (items : list value)
| VObj (fields : list (string * value)).

(** A thrown [Error] object: its [name] and its [message]. *)
Record exn : Type := mkExn { name : string; message : string }.

Definition Error (msg : string) : exn := mkExn "Error" msg.
Definition TypeError (msg : string) : exn := mkExn "TypeError" msg.
Definition SyntaxError (msg : string) : exn := mkExn "SyntaxError" msg.

(** A computation that returns or throws. *)
Inductive result (A : Type) : Type :=
| Ok (a : A)
| Throw (e : exn).
Arguments Ok {A} a.
Arguments Throw {A} e.

Definition bind {A B : Type} (m : result A) (f : A -> result B) : result B :=
  match m with
  | Ok a => f a
  | Throw e => Throw e
  end.

(** [try { m } catch (e) { h e }] *)
Definition try_catch {A : Type} (m : result A) (h : exn -> result A) : result A :=
  match m with
  | Ok a => Ok a
  | Throw e => h e
  end.

(** ** Strings *)

Definition byte (n : nat) : ascii := ascii_of_nat n.

Fixpoint of_bytes (l : list nat) : string :=
  match l with
  | [] => EmptyString
  | n :: r => String (byte n) (of_bytes r)
  end.

Fixpoint rev_string_onto (s acc : string) : string :=
  match s with
  | EmptyString => acc
  | String c r => rev_string_onto r (String c acc)
  end.

Definition rev_string (s : string) : string := rev_string_onto s EmptyString.

(** [s.startsWith(p)] *)
Definition startsWith (s p : string) : bool := String.prefix p s.

(** [s.endsWith(p)] *)
Definition endsWith (s p : string) : bool :=
  String.prefix (rev_string p) (rev_string s).

(** [s.includes(p)] *)
Fixpoint includes (s p : string) : bool :=
  String.prefix p s ||
  match s with
  | EmptyString => false
  | String _ r => includes r p
  end.

(** [s.length]: the number of UTF-16 code units of the string whose UTF-8
    bytes are [s]. A byte that starts a code point counts one, the lead byte of
    a four-byte sequence (a surrogate pair) counts two, a continuation byte
    nothing. *)
Fixpoint length (s : string) : nat :=
  match s with
  | EmptyString => 0
  | String c r =>
      let n := nat_of_ascii c in
      ((if Nat.ltb n 128 then 1 else if Nat.ltb n 192 then 0
        else if Nat.ltb n 240 then 1 else 2) + length r)%nat
  end.

(** [s.toLowerCase()] on the letters A to Z. The strings the program lowers are
    compared with ASCII literals only (file extensions, host names); no
    non-ASCII character lowers to a letter of those literals except for host
    names, which the URL parser hands over in ASCII. *)
Definition lower_ascii (c : ascii) : ascii :=
  let n := nat_of_ascii c in
  if Nat.leb 65 n && Nat.leb n 90 then ascii_of_nat (n + 32) else c.

Fixpoint toLowerCase (s : string) : string :=
  match s with
  | EmptyString => EmptyString
  | String c r => String (lower_ascii c) (toLowerCase r)
  end.

(** The white space and line terminators of ECMAScript, as UTF-8: U+0009 to
    U+000D, U+0020, U+00A0, U+1680, U+2000 to U+200A, U+2028, U+2029, U+202F,
    U+205F, U+3000, U+FEFF. *)
Definition white_space : list string :=
  map of_bytes
    [ [9]; [10]; [11]; [12]; [13]; [32]; [194; 160]; [225; 154; 128];
      [226; 128; 128]; [226; 128; 129]; [226; 128; 130]; [226; 128; 131];
      [226; 128; 132]; [226; 128; 133]; [226; 128; 134]; [226; 128; 135];
      [226; 128; 136]; [226; 128; 137]; [226; 128; 138]; [226; 128; 168];
      [226; 128; 169]; [226; 128; 175]; [226; 129; 159]; [227; 128; 128];
      [239; 187; 191] ].

(** [Some rest] when [s] is [p] followed by [rest]. *)
Fixpoint strip_prefix (p s : string) : option string :=
  match p, s with
  | EmptyString, _ => Some s
  | String a p', String b s' => if Ascii.eqb a b then strip_prefix p' s' else None
  | String _ _, EmptyString => None
  end.

Fixpoint strip_any (ps : list string) (s : string) : option string :=
  match ps with
  | [] => None
  | p :: r =>
      match strip_prefix p s with
      | Some rest => Some rest
      | None => strip_any r s
      end
  end.

(** Drops leading members of [ps]; [fuel] bounds the number of members
    dropped, and the length of the string is enough since each has a byte. *)
Fixpoint drop_leading (ps : list string) (fuel : nat) (s : string) : string :=
  match fuel with
  | O => s
  | S fuel' =>
      match strip_any ps s with
      | Some rest => drop_leading ps fuel' rest
      | None => s
      end
  end.

Definition trimStart (s : string) : string :=
  drop_leading white_space (String.length s) s.

Definition trimEnd (s : string) : string :=
  let r := rev_string s in
  rev_string (drop_leading (map rev_string white_space) (String.length r) r).

(** [s.trim()] *)
Definition trim (s : string) : string := trimEnd (trimStart s).

(** [s.split(sep)] for a one-character separator: never empty. *)
Fixpoint split_onto (sep : ascii) (s cur : string) : list string :=
  match s with
  | EmptyString => [rev_string cur]
  | String c r =>
      if Ascii.eqb c sep then rev_string cur :: split_onto sep r EmptyString
      else split_onto sep r (String c cur)
  end.

Definition split (sep : ascii) (s : string) : list string :=
  split_onto sep s EmptyString.

(** [a.pop()]: the last element, [undefined] on the empty array. *)
Fixpoint pop (l : list string) : option string :=
  match l with
  | [] => None
  | [x] => Some x
  | _ :: r => pop r
  end.

(** [a.join(sep)] *)
Fixpoint join (sep : string) (l : list string) : string :=
  match l with
  | [] => EmptyString
  | [x] => x
  | x :: r => x ++ sep ++ join sep r
  end.

(** An integer in a template literal. *)
Definition Z_toString (z : Z) : string := NilZero.string_of_int (Z.to_int z).

(** ** Values *)

(** [!!v] *)
Definition truthy (v : value) : bool :=
  match v with
  | VUndef | VNull => false
  | VBool b => b
  | VNum q => negb (Qeq_bool q 0%Q)
  | VStr s => negb (String.eqb s EmptyString)
  | VArr _ | VObj _ => true
  end.

Definition is_undefined (v : value) : bool :=
  match v with VUndef => true | _ => false end.

(** [v === undefined || v === null] *)
Definition nullish (v : value) : bool :=
  match v with VUndef | VNull => true | _ => false end.

Inductive type_tag : Type :=
| TUndefined | TObject | TBoolean | TNumber | TString.

(** [typeof v] *)
Definition typeof (v : value) : type_tag :=
  match v with
  | VUndef => TUndefined
  | VNull | VArr _ | VObj _ => TObject
  | VBool _ => TBoolean
  | VNum _ => TNumber
  | VStr _ => TString
  end.

Definition type_tag_eqb (a b : type_tag) : bool :=
  match a, b with
  | TUndefined, TUndefined | TObject, TObject | TBoolean, TBoolean
  | TNumber, TNumber | TString, TString => true
  | _, _ => false
  end.

Definition isArray (v : value) : bool :=
  match v with VArr _ => true | _ => false end.

Fixpoint lookup (k : string) (fields : list (string * value)) : value :=
  match fields with
  | [] => VUndef
  | (k', v) :: r => if String.eqb k k' then v else lookup k r
  end.

Definition of_nat (n : nat) : value := VNum (inject_Z (Z.of_nat n)).

(** What V8 reports when a property of [undefined] or [null] is read. *)
Definition cannot_read (v : value) (k : string) : exn :=
  TypeError ("Cannot read properties of "
             ++ (match v with VNull => "null" | _ => "undefined" end)
             ++ " (reading '" ++ k ++ "')").

(** [v.k] and [v[k]] for a key [k] that is a name: reading a property of
    [undefined] or [null] throws a TypeError, a missing property is
    [undefined]. Of the built-in properties only [length] is modelled; the
    names the program reads are none of the others. *)
Definition get (v : value) (k : string) : result value :=
  match v with
  | VUndef | VNull => Throw (cannot_read v k)
  | VObj fields => Ok (lookup k fields)
  | VStr s => Ok (if String.eqb k "length" then of_nat (length s) else VUndef)
  | VArr l => Ok (if String.eqb k "length" then of_nat (List.length l) else VUndef)
  | VBool _ | VNum _ => Ok VUndef
  end.

(** [v?.k] *)
Definition opt (v : value) (k : string) : result value :=
  if nullish v then Ok VUndef else get v k.

(** [v?.k1?.k2 ...] *)
Fixpoint opt_path (v : value) (ks : list string) : result value :=
  match ks with
  | [] => Ok v
  | k :: r => bind (opt v k) (fun x => opt_path x r)
  end.

(** [if (cond) errors.push(msg)] on an array of messages. *)
Definition push_if (cond : bool) (msg : string) (errors : list string)
  : list string :=
  if cond then (errors ++ [msg])%list else errors.

(** The property [k] of [v] as a value: [undefined] when [v] has none. *)
Definition field (v : value) (k : string) : value :=
  match get v k with
  | Ok x => x
  | Throw _ => VUndef
  end.

(** [a || b], where [b] is only evaluated when [a] is falsy. *)
Definition or_else (a b : result value) : result value :=
  bind a (fun x => if truthy x then Ok x else b).

(** [0 <= v && v <= 100] for a number. *)
Definition in_0_100 (q : Q) : bool := Qle_bool 0%Q q && Qle_bool q 100%Q.

(** [v.k1.k2 ...] *)
Fixpoint get_path (v : value) (ks : list string) : result value :=
  match ks with
  | [] => Ok v
  | k :: r => bind (get v k) (fun x => get_path x r)
  end.

(** [v.trim()]: the method exists on strings only. *)
Definition call_trim (v : value) : result string :=
  match v with
  | VStr s => Ok (trim s)
  | VUndef | VNull => Throw (cannot_read v "trim")
  | _ => Throw (TypeError "trim is not a function")
  end.

(** [!v || v.trim().length === 0] *)
Definition blank (v : value) : result bool :=
  if negb (truthy v) then Ok true
  else bind (call_trim v) (fun t => Ok (Nat.eqb (length t) 0)).

(** [v === 0] *)
Definition is_zero (v : value) : bool :=
  match v with VNum q => Qeq_bool q 0%Q | _ => false end.

(** The code points of a string, each as a string: what spreading a string
    into an array yields. A byte from 128 to 191 continues a code point. *)
Definition continuation (c : ascii) : bool :=
  let n := nat_of_ascii c in Nat.leb 128 n && Nat.leb n 191.

Definition flush (cur : string) : list string :=
  match cur with
  | EmptyString => []
  | _ => [rev_string cur]
  end.

Fixpoint code_points_onto (s cur : string) : list string :=
  match s with
  | EmptyString => flush cur
  | String c r =>
      if continuation c then code_points_onto r (String c cur)
      else (flush cur ++ code_points_onto r (String c EmptyString))%list
  end.

Definition code_points (s : string) : list string :=
  code_points_onto s EmptyString.

(** [...v] inside an array literal: arrays and strings are iterable. *)
Definition spread (v : value) : result (list value) :=
  match v with
  | VArr l => Ok l
  | VStr s => Ok (map VStr (code_points s))
  | _ => Throw (TypeError "value is not iterable")
  end.

(** [a.filter(f)] where [f] may throw: the method exists on arrays only. *)
Fixpoint filter_list (f : value -> result bool) (l : list value)
  : result (list value) :=
  match l with
  | [] => Ok []
  | x :: r =>
      bind (f x) (fun keep =>
      bind (filter_list f r) (fun r' =>
      Ok (if keep then x :: r' else r')))
  end.

Definition call_filter (v : value) (f : value -> result bool)
  : result (list value) :=
  match v with
  | VArr l => filter_list f l
  | VUndef | VNull => Throw (cannot_read v "filter")
  | _ => Throw (TypeError "filter is not a function")
  end.

(** ** Object literals with a spread *)

(** The keys ["0"], ["1"], ... of the elements of an array, from [start]. *)
Fixpoint indexed (start : nat) (l : list value) : list (string * value) :=
  match l with
  | [] => []
  | x :: r => (Z_toString (Z.of_nat start), x) :: indexed (S start) r
  end.

(** The own enumerable properties [{...v}] copies: those of an object, the
    elements of an array under their indices, nothing for [undefined],
    [null], a boolean or a number. A string spreads into its characters
    under their indices (one that is outside the basic plane would come as
    its two surrogates, which a string of UTF-8 bytes cannot hold: it comes
    whole here; the program spreads no string into an object). *)
Definition own_properties (v : value) : list (string * value) :=
  match v with
  | VObj fields => fields
  | VArr l => indexed 0 l
  | VStr s => indexed 0 (map VStr (code_points s))
  | VUndef | VNull | VBool _ | VNum _ => []
  end.

(** A property written in an object literal after others: it replaces the
    value of a property of the same name where that one stands, and comes
    last otherwise. *)
Fixpoint set_field (k : string) (v : value) (fields : list (string * value))
  : list (string * value) :=
  match fields with
  | [] => [(k, v)]
  | (k', v') :: r =>
      if String.eqb k k' then (k, v) :: r else (k', v') :: set_field k v r
  end.

(** [{...fields, k1: v1, k2: v2, ...}] *)
Definition assign (fields props : list (string * value)) : list (string * value) :=
  fold_left (fun acc kv => set_field (fst kv) (snd kv) acc) props fields.

(** The object whose own properties are [fields] has one named [k]. *)
Definition has_own (k : string) (fields : list (string * value)) : bool :=
  existsb (fun kv => String.eqb k (fst kv)) fields.

(** What V8 reports when neither [toString] nor [valueOf] of an object leads
    to a primitive. *)
Definition cannot_convert : exn :=
  TypeError "Cannot convert object to primitive value".

Section Stringify.

(** [Number::toString] of the platform: the shortest decimal that reads back
    as the number. *)
Variable Number_toString : Q -> string.

(** [String(v)], as a template literal and [new Error(v)] apply it. An array
    joins its elements, [undefined] and [null] among them as empty strings.
    An object is one that [JSON.parse] or an object literal built, so none of
    its own properties is a function: with an own [toString] that property is
    found and cannot be called, and the [valueOf] tried next is an own one,
    which cannot be called either, or the inherited one, which returns the
    object, so the conversion throws a TypeError; without an own [toString]
    the inherited one yields the fixed text. *)
Fixpoint ToString (v : value) : result string :=
  match v with
  | VUndef => Ok "undefined"
  | VNull => Ok "null"
  | VBool b => Ok (if b then "true" else "false")
  | VNum q => Ok (Number_toString q)
  | VStr s => Ok s
  | VArr l =>
      bind
        ((fix elements (l : list value) : result (list string) :=
            match l with
            | [] => Ok []
            | x :: r =>
                bind (if nullish x then Ok EmptyString else ToString x)
                  (fun s => bind (elements r) (fun t => Ok (s :: t)))
            end) l)
        (fun parts => Ok (join "," parts))
  | VObj fields =>
      if has_own "toString" fields then Throw cannot_convert
      else Ok "[object Object]"
  end.

End Stringify.

(** The numeral of an integral number below 10^21 in magnitude, which is what
    [Number::toString] yields there; on other numbers the numeral of the
    floor, which is not. It serves to run the functions on concrete inputs. *)
Definition integral_toString (q : Q) : string :=
  Z_toString (Qnum q / Zpos (Qden q)).

End Js.

Notation "x <- m ;; k" := (Js.bind m (fun x => k))
  (at level 61, m at next level, right associativity).
Notation "a <||> b" := (Js.or_else a b) (at level 51, right associativity).

(* ================================================================== *)
(** * Computations that write to [console.warn] *)
(* ================================================================== *)

Module Console.
Import Js.

(** The lines written to [console.warn], oldest first, and the outcome. *)
Definition M (A : Type) : Type := (list string * result A)%type.

Definition ret {A : Type} (a : A) : M A := ([], Ok a).
Definition throw {A : Type} (e : exn) : M A := ([], Throw e).
Definition lift {A : Type} (r : result A) : M A := ([], r).
Definition warn (line : string) : M unit := ([line], Ok tt).

Definition bind {A B : Type} (m : M A) (f : A -> M B) : M B :=
  match m with
  | (w, Ok a) => let '(w', r) := f a in ((w ++ w')%list, r)
  | (w, Throw e) => (w, Throw e)
  end.

Definition try_catch {A : Type} (m : M A) (h : exn -> M A) : M A :=
  match m with
  | (w, Ok a) => (w, Ok a)
  | (w, Throw e) => let '(w', r) := h e in ((w ++ w')%list, r)
  end.

Definition warnings {A : Type} (m : M A) : list string := fst m.
Definition outcome {A : Type} (m : M A) : result A := snd m.

End Console.

Notation "x <~ m ;; k" := (Console.bind m (fun x => k))
  (at level 61, m at next level, right associativity).

(** A browser [File]: the three attributes the program reads. *)
Record File : Type := mkFile {
  file_name : string;
  file_size : Z;
  file_type : string
}.

(* ================================================================== *)
(** * The workflow controller ([src/components/Dashboard.tsx]) *)
(* ================================================================== *)

Module Dashboard.
Import Js.

Inductive Step : Type :=
| dashboard | upload | analyze | generate | scoring | final.

(** [interface SavedData]: the artifact of each step. [resumeData],
    [jobAnalysis] and [matchingResults] are [null] until their step is done. *)
Record SavedData : Type := mkSavedData {
  resume : option File;
  resumeData : value;
  jobAnalysis : value;
  coverLetter : string;
  matchingResults : value
}.

(** The [useState] cells of the component that the workflow reads and writes
    (the cells of the list of saved generations are left out). *)
Record State : Type := mkState {
  currentStep : Step;
  resumeUploaded : bool;
  jobAnalyzed : bool;
  letterGenerated : bool;
  scoringCompleted : bool;
  isCoverLetterEditing : bool;
  hasUnsavedCoverLetterChanges : bool;
  savedData : SavedData
}.

(** The setters. A functional update [setSavedData(prev => ...)] is an
    updater applied to the cell; React applies the queued updaters in order. *)
Definition setCurrentStep (x : Step) (s : State) : State :=
  mkState x (resumeUploaded s) (jobAnalyzed s) (letterGenerated s)
    (scoringCompleted s) (isCoverLetterEditing s)
    (hasUnsavedCoverLetterChanges s) (savedData s).

Definition setResumeUploaded (b : bool) (s : State) : State :=
  mkState (currentStep s) b (jobAnalyzed s) (letterGenerated s)
    (scoringCompleted s) (isCoverLetterEditing s)
    (hasUnsavedCoverLetterChanges s) (savedData s).

Definition setJobAnalyzed (b : bool) (s : State) : State :=
  mkState (currentStep s) (resumeUploaded s) b (letterGenerated s)
    (scoringCompleted s) (isCoverLetterEditing s)
    (hasUnsavedCoverLetterChanges s) (savedData s).

Definition setLetterGenerated (b : bool) (s : State) : State :=
  mkState (currentStep s) (resumeUploaded s) (jobAnalyzed s) b
    (scoringCompleted s) (isCoverLetterEditing s)
    (hasUnsavedCoverLetterChanges s) (savedData s).

Definition setScoringCompleted (b : bool) (s : State) : State :=
  mkState (currentStep s) (resumeUploaded s) (jobAnalyzed s)
    (letterGenerated s) b (isCoverLetterEditing s)
    (hasUnsavedCoverLetterChanges s) (savedData s).

Definition setIsCoverLetterEditing (b : bool) (s : State) : State :=
  mkState (currentStep s) (resumeUploaded s) (jobAnalyzed s)
    (letterGenerated s) (scoringCompleted s) b
    (hasUnsavedCoverLetterChanges s) (savedData s).

Definition setHasUnsavedCoverLetterChanges (b : bool) (s : State) : State :=
  mkState (currentStep s) (resumeUploaded s) (jobAnalyzed s)
    (letterGenerated s) (scoringCompleted s) (isCoverLetterEditing s) b
    (savedData s).

Definition setSavedData (f : SavedData -> SavedData) (s : State) : State :=
  mkState (currentStep s) (resumeUploaded s) (jobAnalyzed s)
    (letterGenerated s) (scoringCompleted s) (isCoverLetterEditing s)
    (hasUnsavedCoverLetterChanges s) (f (savedData s)).

Definition emptySavedData : SavedData := mkSavedData None VNull VNull "" VNull.

Definition initialState : State :=
  mkState dashboard false false false false false false emptySavedData.

Definition startNewGeneration (s : State) : State :=
  let s := setResumeUploaded false s in
  let s := setJobAnalyzed false s in
  let s := setLetterGenerated false s in
  let s := setScoringCompleted false s in
  let s := setIsCoverLetterEditing false s in
  let s := setHasUnsavedCoverLetterChanges false s in
  let s := setSavedData (fun _ => emptySavedData) s in
  setCurrentStep upload s.

Definition handleResumeUpload (file : File) (data : value) (s : State) : State :=
  let s := setSavedData (fun prev =>
             mkSavedData (Some file) data (jobAnalysis prev)
               (coverLetter prev) (matchingResults prev)) s in
  setResumeUploaded true s.

Definition handleJobAnalysis (analysisData : value) (s : State) : State :=
  let s := setSavedData (fun prev =>
             mkSavedData (resume prev) (resumeData prev) analysisData
               (coverLetter prev) (matchingResults prev)) s in
  match analysisData with
  | VNull =>
      let s := setJobAnalyzed false s in
      let s := setLetterGenerated false s in
      let s := setScoringCompleted false s in
      setSavedData (fun prev =>
        mkSavedData (resume prev) (resumeData prev) VNull "" VNull) s
  | _ => setJobAnalyzed true s
  end.

Definition handleLetterGeneration (letter : string) (s : State) : State :=
  let s := setSavedData (fun prev =>
             mkSavedData (resume prev) (resumeData prev) (jobAnalysis prev)
               letter (matchingResults prev)) s in
  setLetterGenerated true s.

Definition handleCoverLetterEditingStateChange
    (isEditing hasUnsavedChanges : bool) (s : State) : State :=
  setHasUnsavedCoverLetterChanges hasUnsavedChanges
    (setIsCoverLetterEditing isEditing s).

Definition handleScoringComplete (scoringData : value) (s : State) : State :=
  let s := setSavedData (fun prev =>
             mkSavedData (resume prev) (resumeData prev) (jobAnalysis prev)
               (coverLetter prev) scoringData) s in
  setScoringCompleted true s.

(** [returnToDashboard], up to the reload of the list of saved generations. *)
Definition returnToDashboard (s : State) : State := setCurrentStep dashboard s.

Definition handleGenerationSaved (s : State) : State := returnToDashboard s.

Definition stepOrder : list Step :=
  [dashboard; upload; analyze; generate; scoring; final].

Definition Step_eqb (a b : Step) : bool :=
  match a, b with
  | dashboard, dashboard | upload, upload | analyze, analyze
  | generate, generate | scoring, scoring | final, final => true
  | _, _ => false
  end.

(** [stepOrder.indexOf(x)]; every step is in [stepOrder]. *)
Fixpoint indexOf (x : Step) (l : list Step) : nat :=
  match l with
  | [] => 0
  | y :: r => if Step_eqb x y then 0 else S (indexOf x r)
  end.

Definition goToNextStep (s : State) : State :=
  let currentIndex := indexOf (currentStep s) stepOrder in
  if Nat.ltb currentIndex (List.length stepOrder - 1) then
    match nth_error stepOrder (currentIndex + 1) with
    | Some next => setCurrentStep next s
    | None => s
    end
  else s.

Definition canProceedToNext (s : State) : bool :=
  match currentStep s with
  | dashboard => false
  | upload => resumeUploaded s
  | analyze => jobAnalyzed s
  | generate =>
      letterGenerated s && negb (isCoverLetterEditing s)
      && negb (hasUnsavedCoverLetterChanges s)
  | scoring => scoringCompleted s
  | final => false
  end.

(** ** The list of saved generations *)

(** [interface GenerationSummary]: a row of the list. [overall_score] is a
    number or [null], [title] a string or [null]. *)
Record GenerationSummary : Type := mkGenerationSummary {
  id : string;
  created_at : string;
  job_title : string;
  company_name : string;
  overall_score : value;
  title : value;
  status : string
}.

(** The cells [savedGenerations] and [selectedGeneration]; of the generation
    whose details are open only the [id] is read. *)
Record Library : Type := mkLibrary {
  savedGenerations : list GenerationSummary;
  selectedGeneration : option string
}.

(** [deleteGeneration(generationId)], given the answer to [confirm] and what
    the database answers to the deletion ([Some] the message of an error).
    It yields the cells and the text of the [alert], if there is one. *)
Definition deleteGeneration (confirmed : bool) (deleteError : option string)
    (generationId : string) (l : Library) : Library * option string :=
  if negb confirmed then (l, None)
  else
    match deleteError with
    | Some message => (l, Some ("Не удалось удалить генерацию: " ++ message))
    | None =>
        (mkLibrary
           (filter (fun gen => negb (String.eqb (id gen) generationId))
              (savedGenerations l))
           (match selectedGeneration l with
            | Some selected =>
                if String.eqb selected generationId then None else Some selected
            | None => None
            end),
         None)
    end.

(** ** The step indicator and the Next button *)

(** The [stepOrder] of the step indicator, which has no [dashboard]. *)
Definition indicatorStepOrder : list Step :=
  [upload; analyze; generate; scoring; final].

(** [l.indexOf(x)] as JavaScript has it: -1 when [x] is not in [l]. *)
Fixpoint indexOfZ (x : Step) (l : list Step) : Z :=
  match l with
  | [] => (-1)%Z
  | y :: r =>
      if Step_eqb x y then 0%Z
      else let i := indexOfZ x r in if (i <? 0)%Z then (-1)%Z else (i + 1)%Z
  end.

(** [isCompleted] of a button of the step indicator. *)
Definition isCompleted (step : Step) (s : State) : bool :=
  match step with
  | upload => resumeUploaded s
  | analyze => jobAnalyzed s
  | generate => letterGenerated s
  | scoring => scoringCompleted s
  | dashboard | final => false
  end.

(** The [onClick] of the button of [step] in the step indicator. *)
Definition clickStep (step : Step) (s : State) : State :=
  let targetIndex := indexOfZ step indicatorStepOrder in
  let currentIndex := indexOfZ (currentStep s) indicatorStepOrder in
  if (targetIndex <=? currentIndex)%Z || isCompleted step s then
    setCurrentStep step s
  else s.

(** A click on the Next button, which is [disabled] unless
    [canProceedToNext()]. *)
Definition clickNext (s : State) : State :=
  if canProceedToNext s then goToNextStep s else s.

(** ** What can happen to the controller: a click on one of its buttons, or a
    callback called by the component of a step, named by the prop it is
    passed as. *)
Inductive Action : Type :=
| StartNewGeneration
| ReturnToDashboard
| ClickStep (step : Step)
| ClickNext
| OnUploadComplete (file : File) (data : value)
| OnAnalysisComplete (analysisData : value)
| OnGenerationComplete (letter : string)
| OnEditingStateChange (isEditing hasUnsavedChanges : bool)
| OnScoringComplete (scoringData : value)
| OnGenerationSaved.

Definition act (a : Action) (s : State) : State :=
  match a with
  | StartNewGeneration => startNewGeneration s
  | ReturnToDashboard => returnToDashboard s
  | ClickStep step => clickStep step s
  | ClickNext => clickNext s
  | OnUploadComplete file data => handleResumeUpload file data s
  | OnAnalysisComplete analysisData => handleJobAnalysis analysisData s
  | OnGenerationComplete letter => handleLetterGeneration letter s
  | OnEditingStateChange isEditing hasUnsavedChanges =>
      handleCoverLetterEditingStateChange isEditing hasUnsavedChanges s
  | OnScoringComplete scoringData => handleScoringComplete scoringData s
  | OnGenerationSaved => handleGenerationSaved s
  end.

(** The actions of [l] in order, the first one first. *)
Definition run (l : list Action) (s : State) : State :=
  fold_left (fun s a => act a s) l s.

End Dashboard.

(* ================================================================== *)
(** * What [fetch] hands back *)
(* ================================================================== *)

Module Http.
Import Js.

(** A [Response]: its status line, and what [text()] and [json()] resolve to
    (or reject with: [json()] rejects with a SyntaxError on a body that is no
    JSON). *)
Record Response : Type := mkResponse {
  status : Z;
  statusText : string;
  text : result string;
  json : result value
}.

(** [response.ok]: the status is in the range 200 to 299. *)
Definition ok (r : Response) : bool :=
  (200 <=? status r)%Z && (status r <=? 299)%Z.

(** [await fetch(...)]: rejects (network failure) or resolves to a response
    of any status. *)
Definition fetched : Type := result Response.

End Http.

(* ================================================================== *)
(** * The job-analysis component *)
(* ================================================================== *)

Module JobAnalysis.
Import Js.

(** ** Regular expressions of the shape the site table uses: literal
    characters and [\d+], searched anywhere in the subject ([test] of a
    pattern with no anchor and no flag). *)
Inductive atom : Type :=
| Chr (c : ascii)
| Digits.

Fixpoint lit (s : string) : list atom :=
  match s with
  | EmptyString => []
  | String c r => Chr c :: lit r
  end.

Definition is_digit (c : ascii) : bool :=
  let n := nat_of_ascii c in Nat.leb 48 n && Nat.leb n 57.

Fixpoint match_here (p : list atom) (s : string) {struct s} : bool :=
  match p with
  | [] => true
  | Chr c :: p' =>
      match s with
      | EmptyString => false
      | String a r => Ascii.eqb a c && match_here p' r
      end
  | Digits :: p' =>
      match s with
      | EmptyString => false
      | String a r => is_digit a && (match_here p' r || match_here p r)
      end
  end.

Fixpoint test (p : list atom) (s : string) : bool :=
  match_here p s ||
  match s with
  | EmptyString => false
  | String _ r => test p r
  end.

(** ** [validateJobUrl] *)

Record Site : Type := mkSite {
  domains : list string;
  name : string;
  pathPattern : list atom
}.

Definition supportedSites : list Site :=
  [ mkSite ["hh.ru"; "hh.kz"; "hh.by"; "hh.uz"; "hh.kg"] "HeadHunter"
      (lit "/vacancy/" ++ [Digits]);
    mkSite ["linkedin.com"; "www.linkedin.com"] "LinkedIn"
      (lit "/jobs/view/" ++ [Digits]);
    mkSite ["djinni.co"; "www.djinni.co"] "Djinni"
      (lit "/jobs/" ++ [Digits]);
    mkSite ["career.habr.com"] "Habr Career"
      (lit "/vacancies/" ++ [Digits]);
    mkSite ["superjob.ru"; "www.superjob.ru"] "SuperJob"
      (lit "/vakansii/");
    mkSite ["work.ua"; "www.work.ua"] "Work.ua"
      (lit "/jobs/" ++ [Digits]);
    mkSite ["rabota.ua"; "www.rabota.ua"] "Rabota.ua"
      (lit "/company" ++ [Digits] ++ lit "/vacancy" ++ [Digits]);
    mkSite ["jobs.ua"; "www.jobs.ua"] "Jobs.ua"
      (lit "/vacancy/") ].

(** The three components of a parsed [URL] that the validator reads. *)
Record URL : Type := mkURL {
  protocol : string;
  hostname : string;
  pathname : string
}.

Record UrlValidation : Type := mkUrlValidation {
  isValid : bool;
  error : option string;
  detectedSite : option string
}.

Definition quote : string := String (byte 34) EmptyString.

(** [site.domains.some(domain => hostname === domain ||
    hostname.endsWith(`.${domain}`))] *)
Definition site_matches (host : string) (site : Site) : bool :=
  existsb (fun domain => String.eqb host domain || endsWith host ("." ++ domain))
    (domains site).

(** The body of [validateJobUrl] from the parsed URL on. *)
Definition validateParsedUrl (parsedUrl : URL) : UrlValidation :=
  let host := toLowerCase (hostname parsedUrl) in
  match find (site_matches host) supportedSites with
  | None =>
      mkUrlValidation false
        (Some ("Сайт " ++ quote ++ host ++ quote
               ++ " не поддерживается. Используйте один из поддерживаемых сайтов."))
        None
  | Some matchedSite =>
      if negb (test (pathPattern matchedSite) (pathname parsedUrl)) then
        mkUrlValidation false
          (Some ("Некорректный формат ссылки для " ++ name matchedSite
                 ++ ". Убедитесь, что это прямая ссылка на вакансию."))
          None
      else if negb (String.eqb (protocol parsedUrl) "https:")
              && negb (String.eqb (protocol parsedUrl) "http:") then
        mkUrlValidation false
          (Some "URL должен использовать протокол HTTP или HTTPS") None
      else mkUrlValidation true None (Some (name matchedSite))
  end.

(** What [validateJobUrl] hands to [new URL]. *)
Definition urlToCheck (trimmedUrl : string) : string :=
  if startsWith trimmedUrl "http" then trimmedUrl else "https://" ++ trimmedUrl.

Section WithUrlParser.

(** [new URL(s)] of the platform: [None] when it throws. *)
Variable URL_parse : string -> option URL.

Definition validateJobUrl (url : string) : UrlValidation :=
  if String.eqb url EmptyString || Nat.eqb (length (trim url)) 0 then
    mkUrlValidation false (Some "Введите URL вакансии") None
  else
    let trimmedUrl := trim url in
    match URL_parse (urlToCheck trimmedUrl) with
    | None =>
        mkUrlValidation false
          (Some "Некорректный формат URL. Пример: https://hh.ru/vacancy/123456")
          None
    | Some parsedUrl => validateParsedUrl parsedUrl
    end.

End WithUrlParser.

(** A reference instance of the platform's parser, to run [validateJobUrl] on
    concrete inputs. It accepts the URLs written [scheme://host/path] where
    the scheme is made of lower-case letters (and is not [file]), the host of
    labels of letters separated by single dots, and the path of letters,
    digits, slashes, hyphens and underscores; on those [new URL] yields the
    scheme with its colon, the host (in lower case under the special schemes
    [http], [https], [ws], [wss] and [ftp], as written under another one) and
    the path from its first slash on. It is [None] on every other string,
    also where the platform would parse one. *)
Fixpoint until_char (sep : ascii) (s : string) : string * option string :=
  match s with
  | EmptyString => (EmptyString, None)
  | String c r =>
      if Ascii.eqb c sep then (EmptyString, Some r)
      else let '(a, b) := until_char sep r in (String c a, b)
  end.

Fixpoint all_chars (f : ascii -> bool) (s : string) : bool :=
  match s with
  | EmptyString => true
  | String c r => f c && all_chars f r
  end.

Definition is_lower (c : ascii) : bool :=
  let n := nat_of_ascii c in Nat.leb 97 n && Nat.leb n 122.

Definition is_letter (c : ascii) : bool :=
  let n := nat_of_ascii c in is_lower c || (Nat.leb 65 n && Nat.leb n 90).

Definition is_path_char (c : ascii) : bool :=
  is_letter c || is_digit c
  || existsb (Ascii.eqb c) ["/"; "-"; "_"]%char.

Definition is_label (s : string) : bool :=
  negb (String.eqb s EmptyString) && all_chars is_letter s.

Definition special_schemes : list string := [ "http"; "https"; "ws"; "wss"; "ftp" ].

Definition simple_URL_parse (s : string) : option URL :=
  match until_char ":" s with
  | (scheme, Some rest) =>
      match strip_prefix "//" rest with
      | Some hostpath =>
          match until_char "/" hostpath with
          | (host, Some path) =>
              if negb (String.eqb scheme EmptyString)
                 && all_chars is_lower scheme
                 && negb (String.eqb scheme "file")
                 && forallb is_label (split "." host)
                 && all_chars is_path_char path
              then
                Some (mkURL (scheme ++ ":")
                        (if existsb (String.eqb scheme) special_schemes
                         then toLowerCase host else host)
                        ("/" ++ path))
              else None
          | (_, None) => None
          end
      | None => None
      end
  | (_, None) => None
  end.

(** ** [parseJobDataFlexibly] *)

Definition parseJobDataFlexibly (rawData : value) : result value :=
  actualJobData <- (opt rawData "job_data" <||> Ok rawData) ;;
  title <- (opt actualJobData "job_title" <||> opt actualJobData "title"
            <||> Ok (VStr "")) ;;
  hs <- opt_path actualJobData ["skills"; "hard_skills"] ;;
  hard_skills <-
    (if isArray hs then
       (sk <- get actualJobData "skills" ;; get sk "hard_skills")
     else
       rs <- opt actualJobData "required_skills" ;;
       if isArray rs then get actualJobData "required_skills"
       else Ok (VArr [])) ;;
  ss <- opt_path actualJobData ["skills"; "soft_skills"] ;;
  soft_skills <-
    (if isArray ss then
       (sk <- get actualJobData "skills" ;; get sk "soft_skills")
     else Ok (VArr [])) ;;
  ls <- opt_path actualJobData ["skills"; "languages"] ;;
  languages <-
    (if isArray ls then
       (sk <- get actualJobData "skills" ;; get sk "languages")
     else Ok (VArr [])) ;;
  company_name <- (opt actualJobData "company_name" <||> Ok (VStr "")) ;;
  location <- (opt actualJobData "location" <||> Ok (VObj [])) ;;
  employment_type <- (opt actualJobData "employment_type" <||> Ok (VStr "")) ;;
  experience_level <- (opt actualJobData "experience_level" <||> Ok (VStr "")) ;;
  industry <- (opt actualJobData "industry" <||> Ok (VStr "")) ;;
  description <- (opt actualJobData "description" <||> Ok (VStr "")) ;;
  Ok (VObj
        [ ("job_title", title);
          ("title", title);
          ("skills", VObj [ ("hard_skills", hard_skills);
                            ("soft_skills", soft_skills);
                            ("languages", languages) ]);
          ("company_name", company_name);
          ("location", location);
          ("employment_type", employment_type);
          ("experience_level", experience_level);
          ("industry", industry);
          ("description", description);
          ("required_skills", hard_skills) ]).

(** ** The component and [analyzeJobVacancy] *)

Record EditableData : Type := mkEditableData {
  title : value;
  hard_skills : value;
  soft_skills : value;
  languages : value
}.

(** The [useState] cells [analyzeJobVacancy] writes. *)
Record State : Type := mkState {
  isAnalyzing : bool;
  analysisResult : value;
  errorMessage : option string;
  isEditing : bool;
  editableData : EditableData
}.

Definition setError (e : option string) (s : State) : State :=
  mkState (isAnalyzing s) (analysisResult s) e (isEditing s) (editableData s).
Definition setIsAnalyzing (b : bool) (s : State) : State :=
  mkState b (analysisResult s) (errorMessage s) (isEditing s) (editableData s).
Definition setAnalysisResult (v : value) (s : State) : State :=
  mkState (isAnalyzing s) v (errorMessage s) (isEditing s) (editableData s).
Definition setIsEditing (b : bool) (s : State) : State :=
  mkState (isAnalyzing s) (analysisResult s) (errorMessage s) b (editableData s).
Definition setEditableData (d : EditableData) (s : State) : State :=
  mkState (isAnalyzing s) (analysisResult s) (errorMessage s) (isEditing s) d.

(** The object the [catch] branch builds for manual entry. *)
Definition emptyData : value :=
  VObj [ ("job_title", VStr "");
         ("title", VStr "");
         ("company_name", VStr "");
         ("skills", VObj [ ("hard_skills", VArr []);
                           ("soft_skills", VArr []);
                           ("languages", VArr []) ]);
         ("location", VObj []);
         ("employment_type", VStr "");
         ("experience_level", VStr "");
         ("industry", VStr "");
         ("description", VStr "");
         ("required_skills", VArr []) ].

(** The state after the call, and the argument of [onAnalysisComplete] when
    the parent was notified. *)
Definition Outcome : Type := (State * option value)%type.

(** The body of the POST request. *)
Definition requestBody (url userId : string) : value :=
  VObj [ ("vacancy_url", VStr (trim url)); ("user_id", VStr userId) ].

Section WithFetch.

(** The job-extraction service: what [fetch] resolves to for a request body. *)
Variable fetch : value -> Http.fetched.

(** The [try] block: from [fetch] to [onAnalysisComplete]. *)
Definition analyzeJobVacancy_try (url userId : string) (s : State)
  : result Outcome :=
  response <- fetch (requestBody url userId) ;;
  _ <- (if negb (Http.ok response) then
          errorText <- Http.text response ;;
          Throw (Error ("Ошибка API: " ++ Z_toString (Http.status response)
                        ++ " - " ++ errorText))
        else Ok tt) ;;
  data <- Http.json response ;;
  parsedData <- parseJobDataFlexibly data ;;
  let s := setAnalysisResult parsedData s in
  t <- (get parsedData "job_title" <||> Ok (VStr "")) ;;
  h <- ((sk <- get parsedData "skills" ;; opt sk "hard_skills")
        <||> Ok (VArr [])) ;;
  so <- ((sk <- get parsedData "skills" ;; opt sk "soft_skills")
         <||> Ok (VArr [])) ;;
  l <- ((sk <- get parsedData "skills" ;; opt sk "languages")
        <||> Ok (VArr [])) ;;
  let s := setEditableData (mkEditableData t h so l) s in
  let s := setIsAnalyzing false s in
  Ok (s, Some parsedData).

(** [analyzeJobVacancy(url, userId)]. The [catch] branch sets every cell the
    [try] block may have set before the throw. *)
Definition analyzeJobVacancy (url userId : string) (s : State) : result Outcome :=
  let s := setError None s in
  let s := setIsAnalyzing true s in
  try_catch (analyzeJobVacancy_try url userId s) (fun err =>
    let userError := "Не удалось проанализировать вакансию: " ++ message err in
    let s := setError (Some userError) s in
    let s := setIsAnalyzing false s in
    let s := setAnalysisResult emptyData s in
    let s := setEditableData
               (mkEditableData (VStr "") (VArr []) (VArr []) (VArr [])) s in
    let s := setIsEditing true s in
    Ok (s, None)).

End WithFetch.

(** ** The handlers of the component *)

(** The cells at the first render: [analysisResult] starts as
    [savedAnalysis]. *)
Definition initialState (savedAnalysis : value) : State :=
  mkState false savedAnalysis None false
    (mkEditableData (VStr "") (VArr []) (VArr []) (VArr [])).

(** The effect that restores the saved analysis:
    [if (savedAnalysis && !analysisResult)]. *)
Definition restoreSavedAnalysis (savedAnalysis : value) (s : State)
  : result State :=
  if truthy savedAnalysis && negb (truthy (analysisResult s)) then
    t <- (get savedAnalysis "job_title" <||> get savedAnalysis "title"
          <||> Ok (VStr "")) ;;
    h <- ((sk <- get savedAnalysis "skills" ;; opt sk "hard_skills")
          <||> get savedAnalysis "required_skills" <||> Ok (VArr [])) ;;
    so <- ((sk <- get savedAnalysis "skills" ;; opt sk "soft_skills")
           <||> Ok (VArr [])) ;;
    l <- ((sk <- get savedAnalysis "skills" ;; opt sk "languages")
          <||> Ok (VArr [])) ;;
    Ok (setEditableData (mkEditableData t h so l)
          (setAnalysisResult savedAnalysis s))
  else Ok s.

Inductive Category : Type :=
| HardSkills | SoftSkills | Languages.

(** [prev[category]] *)
Definition category_of (category : Category) (d : EditableData) : value :=
  match category with
  | HardSkills => hard_skills d
  | SoftSkills => soft_skills d
  | Languages => languages d
  end.

(** [{ ...prev, [category]: v }] *)
Definition with_category (category : Category) (v : value) (d : EditableData)
  : EditableData :=
  match category with
  | HardSkills => mkEditableData (title d) v (soft_skills d) (languages d)
  | SoftSkills => mkEditableData (title d) (hard_skills d) v (languages d)
  | Languages => mkEditableData (title d) (hard_skills d) (soft_skills d) v
  end.

(** [a.filter((_, i) => i !== index)], the indices counted from [start]. *)
Fixpoint remove_index (index start : nat) (l : list value) : list value :=
  match l with
  | [] => []
  | x :: r =>
      if Nat.eqb start index then remove_index index (S start) r
      else x :: remove_index index (S start) r
  end.

(** The updater of [addSkill] throws when [prev[category]] is not
    iterable. *)
Definition addSkill (category : Category) (skill : string) (s : State)
  : result State :=
  if negb (String.eqb (trim skill) "") then
    items <- spread (category_of category (editableData s)) ;;
    Ok (setEditableData
          (with_category category (VArr (items ++ [VStr (trim skill)]))
             (editableData s)) s)
  else Ok s.

(** The updater of [removeSkill] throws when [prev[category]] has no
    [filter]. *)
Definition removeSkill (category : Category) (index : nat) (s : State)
  : result State :=
  match category_of category (editableData s) with
  | VArr l =>
      Ok (setEditableData
            (with_category category (VArr (remove_index index 0 l))
               (editableData s)) s)
  | VUndef | VNull =>
      Throw (cannot_read (category_of category (editableData s)) "filter")
  | _ => Throw (TypeError "filter is not a function")
  end.

(** The [onChange] of the title input. *)
Definition changeTitle (value : string) (s : State) : State :=
  setEditableData
    (mkEditableData (VStr value) (hard_skills (editableData s))
       (soft_skills (editableData s)) (languages (editableData s))) s.

(** The [onClick] of the button that opens and closes the editor. *)
Definition toggleEditing (s : State) : State :=
  setIsEditing (negb (isEditing s)) s.

(** [handleSaveEdits]: the state, and the argument of
    [onAnalysisComplete]. *)
Definition handleSaveEdits (s : State) : State * value :=
  let d := editableData s in
  let updatedData :=
    VObj (assign (own_properties (analysisResult s))
            [ ("job_title", title d);
              ("title", title d);
              ("skills", VObj [ ("hard_skills", hard_skills d);
                                ("soft_skills", soft_skills d);
                                ("languages", languages d) ]);
              ("required_skills", hard_skills d) ]) in
  (setIsEditing false (setAnalysisResult updatedData s), updatedData).

(** [resetAnalysis]: the state, and the argument of [onAnalysisComplete]. *)
Definition resetAnalysis (s : State) : State * value :=
  (mkState false VNull None false
     (mkEditableData (VStr "") (VArr []) (VArr []) (VArr [])),
   VNull).

(** What the user does in the editor. *)
Inductive Edit : Type :=
| ChangeTitle (value : string)
| AddSkill (category : Category) (skill : string)
| RemoveSkill (category : Category) (index : nat)
| ToggleEditing.

Definition edit (e : Edit) (s : State) : result State :=
  match e with
  | ChangeTitle value => Ok (changeTitle value s)
  | AddSkill category skill => addSkill category skill s
  | RemoveSkill category index => removeSkill category index s
  | ToggleEditing => Ok (toggleEditing s)
  end.

(** The edits of [l] in order, the first one first. *)
Fixpoint edit_all (l : list Edit) (s : State) : result State :=
  match l with
  | [] => Ok s
  | e :: r => s' <- edit e s ;; edit_all r s'
  end.

Section Component.

Variable URL_parse : string -> option URL.
Variable fetch : value -> Http.fetched.

(** [handleAnalyze], for the text [jobUrl] of the input. A request is only
    made by [analyzeJobVacancy]. *)
Definition handleAnalyze (jobUrl currentUserId : string) (s : State)
  : result Outcome :=
  if String.eqb (trim jobUrl) "" then Ok (s, None)
  else
    let validation := validateJobUrl URL_parse jobUrl in
    if negb (isValid validation) then
      Ok (setError
            (Some (match error validation with
                   | Some e =>
                       if String.eqb e "" then "Некорректный URL вакансии" else e
                   | None => "Некорректный URL вакансии"
                   end)) s,
          None)
    else analyzeJobVacancy fetch (trim jobUrl) currentUserId s.

End Component.

End JobAnalysis.

(* ================================================================== *)
(** * The resume upload component ([src/components/ResumeUpload.tsx]) *)
(* ================================================================== *)

Module ResumeUpload.
Import Js.

Record FileValidation : Type := mkFileValidation {
  isValid : bool;
  error : option string
}.

Definition MAX_FILE_SIZE : Z := 10 * 1024 * 1024.

Definition ALLOWED_TYPES : list string :=
  [ "application/pdf";
    "application/vnd.openxmlformats-officedocument.wordprocessingml.document" ].

Definition ALLOWED_EXTENSIONS : list string := [ ".pdf"; ".docx" ].

(** [a.includes(x)] on an array of strings. *)
Definition array_includes (a : list string) (x : string) : bool :=
  existsb (String.eqb x) a.

(** ['.' + name.split('.').pop()?.toLowerCase()] *)
Definition fileExtension (name : string) : string :=
  "." ++ match pop (split "." name) with
         | Some last => toLowerCase last
         | None => "undefined"
         end.

Definition validateFile (file : File) : FileValidation :=
  if (file_size file >? MAX_FILE_SIZE)%Z then
    mkFileValidation false
      (Some ("Файл слишком большой. Максимальный размер: "
             ++ Z_toString (MAX_FILE_SIZE / 1024 / 1024) ++ "MB"))
  else if negb (array_includes ALLOWED_TYPES (file_type file)) then
    mkFileValidation false
      (Some "Неподдерживаемый тип файла. Используйте PDF или DOCX")
  else if negb (array_includes ALLOWED_EXTENSIONS (fileExtension (file_name file))) then
    mkFileValidation false
      (Some "Неподдерживаемое расширение файла. Используйте .pdf или .docx")
  else mkFileValidation true None.

(** ** [extractDisplayData] *)

Record PersonalInfo : Type := mkPersonalInfo {
  first_name : value;
  last_name : value
}.

Record Skills : Type := mkSkills {
  hard_skills : value;
  soft_skills : value;
  languages : value
}.

Record DisplayData : Type := mkDisplayData {
  desired_position : value;
  personal_info : PersonalInfo;
  skills : Skills;
  summary : value
}.

Definition extractDisplayData (rawData : value) : result DisplayData :=
  desired_position <-
    (opt rawData "desired_position" <||> opt rawData "desiredPosition"
     <||> Ok (VStr "")) ;;
  first_name <-
    (opt_path rawData ["personal_info"; "first_name"]
     <||> opt_path rawData ["personalInfo"; "first_name"]
     <||> opt rawData "first_name"
     <||> opt rawData "firstName"
     <||> Ok (VStr "")) ;;
  last_name <-
    (opt_path rawData ["personal_info"; "last_name"]
     <||> opt_path rawData ["personalInfo"; "last_name"]
     <||> opt rawData "last_name"
     <||> opt rawData "lastName"
     <||> Ok (VStr "")) ;;
  hard_skills <-
    (opt_path rawData ["skills"; "hard_skills"]
     <||> opt_path rawData ["skills"; "hardSkills"]
     <||> opt rawData "hardSkills"
     <||> Ok (VArr [])) ;;
  soft_skills <-
    (opt_path rawData ["skills"; "soft_skills"]
     <||> opt_path rawData ["skills"; "softSkills"]
     <||> opt rawData "softSkills"
     <||> Ok (VArr [])) ;;
  languages <-
    (opt_path rawData ["skills"; "languages"]
     <||> opt rawData "languages"
     <||> Ok (VArr [])) ;;
  summary <-
    (opt rawData "summary" <||> opt rawData "description" <||> Ok (VStr "")) ;;
  Ok (mkDisplayData desired_position
        (mkPersonalInfo first_name last_name)
        (mkSkills hard_skills soft_skills languages)
        summary).

End ResumeUpload.

(* ================================================================== *)
(** * The upload edge function: [validateFileMetadata] *)
(* ================================================================== *)

Module UploadResume.
Import Js.

Definition MAX_FILE_SIZE : Z := 10 * 1024 * 1024.

Definition ALLOWED_MIME_TYPES : list string :=
  [ "application/pdf";
    "application/vnd.openxmlformats-officedocument.wordprocessingml.document" ].

Definition ALLOWED_EXTENSIONS : list string := [ ".pdf"; ".docx" ].

(** The character class of the [dangerousChars] pattern, by code: the
    control characters 0 to 31 and the nine characters less-than,
    greater-than, colon, double quote, slash, backslash, bar, question mark
    and star. *)
Definition dangerous (c : ascii) : bool :=
  let n := nat_of_ascii c in
  Nat.leb n 31 || existsb (Nat.eqb n) [60; 62; 58; 34; 47; 92; 124; 63; 42].

(** [dangerousChars.test(fileName)] *)
Fixpoint dangerousChars_test (s : string) : bool :=
  match s with
  | EmptyString => false
  | String c r => dangerous c || dangerousChars_test r
  end.

Definition validateFileMetadata (fileName : string) (fileSize : Z)
    (contentType : string) : ResumeUpload.FileValidation :=
  if (fileSize >? MAX_FILE_SIZE)%Z then
    ResumeUpload.mkFileValidation false
      (Some ("Файл слишком большой. Максимальный размер: "
             ++ Z_toString (MAX_FILE_SIZE / 1024 / 1024) ++ "MB"))
  else if negb (ResumeUpload.array_includes ALLOWED_MIME_TYPES contentType) then
    ResumeUpload.mkFileValidation false
      (Some "Неподдерживаемый тип файла. Разрешены только PDF и DOCX")
  else if negb (ResumeUpload.array_includes ALLOWED_EXTENSIONS
                  (ResumeUpload.fileExtension fileName)) then
    ResumeUpload.mkFileValidation false
      (Some "Неподдерживаемое расширение файла. Используйте .pdf или .docx")
  else if dangerousChars_test fileName then
    ResumeUpload.mkFileValidation false
      (Some "Имя файла содержит недопустимые символы")
  else ResumeUpload.mkFileValidation true None.

(** The first check of the handler on the parameters it takes from the body
    of the request: [!fileName || !fileSize || !contentType]. *)
Definition missingParameters (fileName fileSize contentType : value) : bool :=
  negb (truthy fileName) || negb (truthy fileSize) || negb (truthy contentType).

(** The two checks of the handler between reading the body and making the
    unique name, for a body that holds the name, the size and the type of a
    file as a string, a number and a string: what decides whether the
    handler answers 400, and the [error] of that answer. *)
Definition checkParameters (fileName : string) (fileSize : Z)
    (contentType : string) : ResumeUpload.FileValidation :=
  if missingParameters (VStr fileName) (VNum (inject_Z fileSize))
       (VStr contentType) then
    ResumeUpload.mkFileValidation false
      (Some "Отсутствуют обязательные параметры: fileName, fileSize, contentType")
  else validateFileMetadata fileName fileSize contentType.

End UploadResume.

(* ================================================================== *)
(** * The resume upload component: [parseResumeAPI], [handleFileUpload]
      and the editor of the parsed resume *)
(* ================================================================== *)

Module ResumeUploadComponent.
Import Js.

(** The [useState] cells of the component that the upload and the editor
    read and write. *)
Record State : Type := mkState {
  isParsing : bool;
  uploadedFile : option File;
  resumeData : value;
  displayData : option ResumeUpload.DisplayData;
  error : option string;
  isEditing : bool;
  editableData : value;
  hasUnsavedChanges : bool;
  showSaveSuccess : bool
}.

Definition setIsParsing (x : bool) (s : State) : State :=
  mkState x (uploadedFile s) (resumeData s) (displayData s) (error s)
    (isEditing s) (editableData s) (hasUnsavedChanges s) (showSaveSuccess s).

Definition setUploadedFile (x : option File) (s : State) : State :=
  mkState (isParsing s) x (resumeData s) (displayData s) (error s)
    (isEditing s) (editableData s) (hasUnsavedChanges s) (showSaveSuccess s).

Definition setResumeData (x : value) (s : State) : State :=
  mkState (isParsing s) (uploadedFile s) x (displayData s) (error s)
    (isEditing s) (editableData s) (hasUnsavedChanges s) (showSaveSuccess s).

Definition setDisplayData (x : option ResumeUpload.DisplayData) (s : State)
  : State :=
  mkState (isParsing s) (uploadedFile s) (resumeData s) x (error s)
    (isEditing s) (editableData s) (hasUnsavedChanges s) (showSaveSuccess s).

Definition setError (x : option string) (s : State) : State :=
  mkState (isParsing s) (uploadedFile s) (resumeData s) (displayData s) x
    (isEditing s) (editableData s) (hasUnsavedChanges s) (showSaveSuccess s).

Definition setIsEditing (x : bool) (s : State) : State :=
  mkState (isParsing s) (uploadedFile s) (resumeData s) (displayData s)
    (error s) x (editableData s) (hasUnsavedChanges s) (showSaveSuccess s).

Definition setEditableData (x : value) (s : State) : State :=
  mkState (isParsing s) (uploadedFile s) (resumeData s) (displayData s)
    (error s) (isEditing s) x (hasUnsavedChanges s) (showSaveSuccess s).

Definition setHasUnsavedChanges (x : bool) (s : State) : State :=
  mkState (isParsing s) (uploadedFile s) (resumeData s) (displayData s)
    (error s) (isEditing s) (editableData s) x (showSaveSuccess s).

Definition setShowSaveSuccess (x : bool) (s : State) : State :=
  mkState (isParsing s) (uploadedFile s) (resumeData s) (displayData s)
    (error s) (isEditing s) (editableData s) (hasUnsavedChanges s) x.

(** The cells at the first render, for the props [savedFile] and
    [savedResumeData]. *)
Definition initialState (savedFile : option File) (savedResumeData : value)
  : State :=
  mkState false savedFile savedResumeData None None false VNull false false.

(** The effect that restores the saved file and the saved data. *)
Definition restoreSaved (savedFile : option File) (savedResumeData : value)
    (s : State) : State :=
  let s' :=
    match savedFile, uploadedFile s with
    | Some _, None => setUploadedFile savedFile s
    | _, _ => s
    end in
  if truthy savedResumeData && negb (truthy (resumeData s)) then
    setResumeData savedResumeData s'
  else s'.

Definition removeFile (s : State) : State :=
  mkState (isParsing s) None VNull None None false VNull false false.

(** The [onClick] of the button that opens the editor or cancels it. *)
Definition toggleEditing (s : State) : State :=
  if isEditing s then
    setHasUnsavedChanges false
      (setError None (setIsEditing false (setEditableData (resumeData s) s)))
  else setIsEditing true (setEditableData (resumeData s) s).

(** ** The pattern of [emailRegex]: anchored at both ends, made of single
    characters and of classes repeated once or more. The subject is the
    list of its characters. *)
Inductive token : Type :=
| Exactly (c : string)
| OneOrMore (class : string -> bool).

Fixpoint full_match (p : list token) (subject : list string) {struct subject}
  : bool :=
  match subject with
  | [] => match p with [] => true | _ :: _ => false end
  | a :: r =>
      match p with
      | [] => false
      | Exactly c :: p' => String.eqb a c && full_match p' r
      | OneOrMore class :: p' =>
          class a && (full_match p' r || full_match p r)
      end
  end.

(** The class written with a caret, a backslash-s and an at sign: a
    character that is no white space, no line terminator and no at sign. *)
Definition not_space_nor_at (c : string) : bool :=
  negb (existsb (String.eqb c) white_space) && negb (String.eqb c "@").

Definition emailRegex : list token :=
  [ OneOrMore not_space_nor_at; Exactly "@"; OneOrMore not_space_nor_at;
    Exactly "."; OneOrMore not_space_nor_at ].

(** [emailRegex.test(s)]. None of the characters the pattern names is
    outside the basic plane, so it matches the characters of [s] as it
    matches its UTF-16 code units. *)
Definition emailRegex_test (s : string) : bool :=
  full_match emailRegex (code_points s).

(** ** [validateResumeEditData] *)

Record Validation : Type := mkValidation {
  isValid : bool;
  errors : list string
}.

(** [!data.personal_info?.k || data.personal_info.k.trim().length === 0] *)
Definition blank_info (data : value) (k : string) : result bool :=
  personal_info <- get data "personal_info" ;;
  v <- opt personal_info k ;;
  if negb (truthy v) then Ok true
  else
    v <- get_path data ["personal_info"; k] ;;
    t <- call_trim v ;;
    Ok (Nat.eqb (length t) 0).

Definition validateResumeEditData (data : value) : result Validation :=
  let errors := [] in
  no_first_name <- blank_info data "first_name" ;;
  let errors := push_if no_first_name "Имя не может быть пустым" errors in
  no_last_name <- blank_info data "last_name" ;;
  let errors := push_if no_last_name "Фамилия не может быть пустой" errors in
  no_email <- blank_info data "email" ;;
  errors <-
    (if no_email then Ok (errors ++ ["Email не может быть пустым"])%list
     else
       email <- get_path data ["personal_info"; "email"] ;;
       t <- call_trim email ;;
       Ok (push_if (negb (emailRegex_test t))
             "Введите корректный email адрес" errors)) ;;
  no_phone <- blank_info data "phone" ;;
  let errors := push_if no_phone "Телефон не может быть пустым" errors in
  desired_position <- get data "desired_position" ;;
  no_position <- blank desired_position ;;
  let errors :=
    push_if no_position "Желаемая позиция не может быть пустой" errors in
  summary <- get data "summary" ;;
  no_summary <- blank summary ;;
  let errors :=
    push_if no_summary "Краткое описание не может быть пустым" errors in
  Ok (mkValidation (Nat.eqb (List.length errors) 0) errors).

(** [handleSaveResumeEdits]: the state, and the argument of
    [onUploadComplete] when the parent was notified. It throws when
    [validateResumeEditData] does. *)
Definition handleSaveResumeEdits (s : State)
  : result (State * option (File * value)) :=
  if negb (truthy (editableData s)) then Ok (s, None)
  else
    validation <- validateResumeEditData (editableData s) ;;
    if negb (isValid validation) then
      Ok (setError (Some ("Ошибка валидации: " ++ join ", " (errors validation))) s,
          None)
    else
      let s1 := setResumeData (editableData s) (setError None s) in
      updatedDisplayData <- ResumeUpload.extractDisplayData (editableData s) ;;
      let s2 := setDisplayData (Some updatedDisplayData) s1 in
      let s3 := setShowSaveSuccess true
                  (setHasUnsavedChanges false (setIsEditing false s2)) in
      Ok (s3, match uploadedFile s with
              | Some file => Some (file, editableData s)
              | None => None
              end).

Section WithPlatform.

Variable Number_toString : Q -> string.

(** The parsing service: what [fetch] resolves to, or rejects with, for the
    form made of a file and a user id. An aborted request rejects with an
    error named [AbortError]. *)
Variable fetch : File -> string -> Http.fetched.

(** The [try] block of [parseResumeAPI]. *)
Definition parseResumeAPI_try (file : File) (userId : string) : result value :=
  response <- fetch file userId ;;
  if negb (Http.ok response) then
    let errorMessage :=
      VStr ("HTTP Error: " ++ Z_toString (Http.status response) ++ " "
            ++ Http.statusText response) in
    errorMessage <-
      try_catch
        (errorData <- Http.json response ;;
         get errorData "error" <||> get errorData "message" <||> Ok errorMessage)
        (fun _parseError =>
           errorText <- Http.text response ;;
           if negb (String.eqb errorText EmptyString) then Ok (VStr errorText)
           else Ok errorMessage) ;;
    msg <- ToString Number_toString errorMessage ;;
    Throw (Error msg)
  else Http.json response.

Definition parseResumeAPI (file : File) (userId : string) : result value :=
  try_catch (parseResumeAPI_try file userId) (fun error =>
    if String.eqb (name error) "AbortError" then
      Throw (Error "Время ожидания парсинга истекло (120 секунд). Файл слишком большой или сложный для обработки.")
    else if String.eqb (name error) "TypeError"
            && includes (message error) "fetch" then
      Throw (Error "Ошибка сети: не удается подключиться к серверу парсинга резюме")
    else if String.eqb (name error) "SyntaxError" then
      Throw (Error "Сервер вернул некорректный ответ. Возможно, файл поврежден или имеет неподдерживаемый формат.")
    else Throw error).

(** [handleFileUpload]: the state, and the argument of [onUploadComplete]
    when the parent was notified. *)
Definition handleFileUpload (file : File) (currentUserId : string) (s : State)
  : State * option (File * value) :=
  let s := setError None s in
  let validation := ResumeUpload.validateFile file in
  if negb (ResumeUpload.isValid validation) then
    (setError
       (Some (match ResumeUpload.error validation with
              | Some e => if String.eqb e "" then "Ошибка валидации файла" else e
              | None => "Ошибка валидации файла"
              end)) s,
     None)
  else
    let s := setIsParsing true s in
    match (parsedData <- parseResumeAPI file currentUserId ;;
           extractedDisplayData <- ResumeUpload.extractDisplayData parsedData ;;
           Ok (parsedData, extractedDisplayData)) with
    | Ok (parsedData, extractedDisplayData) =>
        let s := setDisplayData (Some extractedDisplayData) s in
        let s := setUploadedFile (Some file) s in
        let s := setResumeData parsedData s in
        let s := setEditableData parsedData s in
        let s := setIsParsing false s in
        let s := setHasUnsavedChanges false s in
        let s := setShowSaveSuccess false s in
        (s, Some (file, parsedData))
    | Throw error =>
        let s := setIsParsing false s in
        (setError
           (Some (if String.eqb (message error) "" then
                    "Произошла ошибка при глубоком анализе резюме"
                  else message error)) s,
         None)
    end.

End WithPlatform.

End ResumeUploadComponent.

(* ================================================================== *)
(** * The letter component: its settings, its editor and
      [generateCoverLetter] *)
(* ================================================================== *)

Module CoverLetterGenerator.
Import Js.

Inductive LetterStyle : Type :=
| neutral | creative | startup | formal.

Definition style_name (x : LetterStyle) : string :=
  match x with
  | neutral => "neutral"
  | creative => "creative"
  | startup => "startup"
  | formal => "formal"
  end.

(** The [useState] cells of the component. *)
Record State : Type := mkState {
  isGenerating : bool;
  generatedLetter : string;
  error : option string;
  isEditing : bool;
  editedLetter : string;
  hasUnsavedChanges : bool;
  letterStyle : LetterStyle;
  selectedExperience : list string;
  selectedEducation : list string;
  selectedSkills : list string
}.

Definition setGeneratedLetter (x : string) (s : State) : State :=
  mkState (isGenerating s) x (error s) (isEditing s) (editedLetter s)
    (hasUnsavedChanges s) (letterStyle s) (selectedExperience s)
    (selectedEducation s) (selectedSkills s).

Definition setError (x : option string) (s : State) : State :=
  mkState (isGenerating s) (generatedLetter s) x (isEditing s) (editedLetter s)
    (hasUnsavedChanges s) (letterStyle s) (selectedExperience s)
    (selectedEducation s) (selectedSkills s).

Definition setIsEditing (x : bool) (s : State) : State :=
  mkState (isGenerating s) (generatedLetter s) (error s) x (editedLetter s)
    (hasUnsavedChanges s) (letterStyle s) (selectedExperience s)
    (selectedEducation s) (selectedSkills s).

Definition setEditedLetter (x : string) (s : State) : State :=
  mkState (isGenerating s) (generatedLetter s) (error s) (isEditing s) x
    (hasUnsavedChanges s) (letterStyle s) (selectedExperience s)
    (selectedEducation s) (selectedSkills s).

Definition setHasUnsavedChanges (x : bool) (s : State) : State :=
  mkState (isGenerating s) (generatedLetter s) (error s) (isEditing s)
    (editedLetter s) x (letterStyle s) (selectedExperience s)
    (selectedEducation s) (selectedSkills s).

Definition setLetterStyle (x : LetterStyle) (s : State) : State :=
  mkState (isGenerating s) (generatedLetter s) (error s) (isEditing s)
    (editedLetter s) (hasUnsavedChanges s) x (selectedExperience s)
    (selectedEducation s) (selectedSkills s).

Definition setSelectedExperience (f : list string -> list string) (s : State)
  : State :=
  mkState (isGenerating s) (generatedLetter s) (error s) (isEditing s)
    (editedLetter s) (hasUnsavedChanges s) (letterStyle s)
    (f (selectedExperience s)) (selectedEducation s) (selectedSkills s).

Definition setSelectedEducation (f : list string -> list string) (s : State)
  : State :=
  mkState (isGenerating s) (generatedLetter s) (error s) (isEditing s)
    (editedLetter s) (hasUnsavedChanges s) (letterStyle s)
    (selectedExperience s) (f (selectedEducation s)) (selectedSkills s).

Definition setSelectedSkills (f : list string -> list string) (s : State)
  : State :=
  mkState (isGenerating s) (generatedLetter s) (error s) (isEditing s)
    (editedLetter s) (hasUnsavedChanges s) (letterStyle s)
    (selectedExperience s) (selectedEducation s) (f (selectedSkills s)).

(** The cells at the first render: [generatedLetter] starts as
    [savedLetter || '']. *)
Definition initialState (savedLetter : string) : State :=
  mkState false savedLetter None false "" false neutral [] [] [].

(** The effect that restores the saved letter:
    [if (savedLetter && !generatedLetter)]. *)
Definition restoreSavedLetter (savedLetter : string) (s : State) : State :=
  if negb (String.eqb savedLetter "") && String.eqb (generatedLetter s) "" then
    setEditedLetter savedLetter (setGeneratedLetter savedLetter s)
  else s.

(** ** The editor *)

Definition startEditing (s : State) : State :=
  let generated := generatedLetter s in
  setHasUnsavedChanges false (setEditedLetter generated (setIsEditing true s)).

(** [saveChanges]: the state, and the argument of [onGenerationComplete]. *)
Definition saveChanges (s : State) : State * string :=
  let edited := editedLetter s in
  (setHasUnsavedChanges false (setIsEditing false (setGeneratedLetter edited s)),
   edited).

Definition cancelEditing (s : State) : State :=
  let generated := generatedLetter s in
  setHasUnsavedChanges false (setEditedLetter generated (setIsEditing false s)).

Definition handleLetterChange (value : string) (s : State) : State :=
  let generated := generatedLetter s in
  setHasUnsavedChanges (negb (String.eqb value generated))
    (setEditedLetter value s).

(** The [onClick] of the link that asks for a new letter: the state, and the
    argument of [onGenerationComplete]. *)
Definition generateNew (s : State) : State * string :=
  (setError None (setEditedLetter "" (setGeneratedLetter "" s)), "").

(** ** The settings *)

(** [a.filter((_, i) => keep(i))], the indices counted from [start]. *)
Fixpoint filter_index {A : Type} (keep : nat -> bool) (start : nat) (l : list A)
  : list A :=
  match l with
  | [] => []
  | x :: r =>
      if keep start then x :: filter_index keep (S start) r
      else filter_index keep (S start) r
  end.

(** [prev.filter((_, i) => i !== index)] *)
Definition remove_at {A : Type} (index : nat) (l : list A) : list A :=
  filter_index (fun i => negb (Nat.eqb i index)) 0 l.

Definition resetAllSettings (s : State) : State :=
  setSelectedSkills (fun _ => [])
    (setSelectedEducation (fun _ => [])
       (setSelectedExperience (fun _ => []) (setLetterStyle neutral s))).

Definition removeExperience (index : nat) (s : State) : State :=
  setSelectedExperience (remove_at index) s.

Definition removeEducation (index : nat) (s : State) : State :=
  setSelectedEducation (remove_at index) s.

Definition removeSkill (index : nat) (s : State) : State :=
  setSelectedSkills (remove_at index) s.

Definition addExperience (value : string) (s : State) : State :=
  if negb (String.eqb value "")
     && Nat.ltb (List.length (selectedExperience s)) 2
     && negb (ResumeUpload.array_includes (selectedExperience s) value) then
    setSelectedExperience (fun prev => (prev ++ [value])%list) s
  else s.

Definition addEducation (value : string) (s : State) : State :=
  if negb (String.eqb value "")
     && Nat.ltb (List.length (selectedEducation s)) 2
     && negb (ResumeUpload.array_includes (selectedEducation s) value) then
    setSelectedEducation (fun prev => (prev ++ [value])%list) s
  else s.

Definition addSkill (value : string) (s : State) : State :=
  if negb (String.eqb value "")
     && Nat.ltb (List.length (selectedSkills s)) 4
     && negb (ResumeUpload.array_includes (selectedSkills s) value) then
    setSelectedSkills (fun prev => (prev ++ [value])%list) s
  else s.

(** A click in the settings. *)
Inductive Setting : Type :=
| SetLetterStyle (x : LetterStyle)
| AddExperience (value : string)
| RemoveExperience (index : nat)
| AddEducation (value : string)
| RemoveEducation (index : nat)
| AddSkill (value : string)
| RemoveSkill (index : nat)
| ResetAllSettings.

Definition choose (x : Setting) (s : State) : State :=
  match x with
  | SetLetterStyle x => setLetterStyle x s
  | AddExperience value => addExperience value s
  | RemoveExperience index => removeExperience index s
  | AddEducation value => addEducation value s
  | RemoveEducation index => removeEducation index s
  | AddSkill value => addSkill value s
  | RemoveSkill index => removeSkill index s
  | ResetAllSettings => resetAllSettings s
  end.

(** The clicks of [l] in order, the first one first. *)
Definition choose_all (l : list Setting) (s : State) : State :=
  fold_left (fun s x => choose x s) l s.

(** ** [generateCoverLetter] *)

Definition requestPayload (resumeData jobData : value) (userId : string)
    (s : State) : value :=
  VObj [ ("resume_data", resumeData);
         ("job_data", jobData);
         ("user_id", VStr userId);
         ("customization",
          VObj [ ("letter_style", VStr (style_name (letterStyle s)));
                 ("highlight_experience", VArr (map VStr (selectedExperience s)));
                 ("highlight_education", VArr (map VStr (selectedEducation s)));
                 ("highlight_skills", VArr (map VStr (selectedSkills s))) ]) ].

Definition placeholder : string := "Письмо не сгенерировано".

(** [data.letter_text || data.cover_letter || data.letter || '...'] *)
Definition letterOf (data : value) : result value :=
  get data "letter_text" <||> get data "cover_letter" <||> get data "letter"
  <||> Ok (VStr placeholder).

(** What a call comes to: the letter handed to [setGeneratedLetter],
    [setEditedLetter] and [onGenerationComplete], or the message handed to
    [setError]; [isGenerating] is [false] again in both cases. *)
Inductive Generated : Type :=
| Letter (letter : value)
| Failed (message : string).

Section WithFetch.

(** The letter service: what [fetch] resolves to for a request body. *)
Variable fetch : value -> Http.fetched.

(** The [try] block, up to the letter. *)
Definition generateCoverLetter_try (payload : value) : result value :=
  response <- fetch payload ;;
  _ <- (if negb (Http.ok response) then
          Throw (Error ("HTTP error! status: "
                        ++ Z_toString (Http.status response)))
        else Ok tt) ;;
  data <- Http.json response ;;
  letterOf data.

Definition generateCoverLetter (resumeData jobData : value) (userId : string)
    (s : State) : Generated :=
  if negb (truthy resumeData) || negb (truthy jobData) then
    Failed "Отсутствуют данные резюме или вакансии"
  else
    match generateCoverLetter_try (requestPayload resumeData jobData userId s) with
    | Ok letter => Letter letter
    | Throw err => Failed ("Не удалось сгенерировать письмо: " ++ message err)
    end.

End WithFetch.

(** ** The component under the controller *)

(** The controller with the letter step mounted: [savedLetter] is the
    [coverLetter] of the controller, [onGenerationComplete] its
    [handleLetterGeneration] and [onEditingStateChange] its
    [handleCoverLetterEditingStateChange]. *)
Record App : Type := mkApp {
  workflow : Dashboard.State;
  view : State
}.

(** The two effects of the component, run after a render. *)
Definition effects (a : App) : App :=
  let savedLetter := Dashboard.coverLetter (Dashboard.savedData (workflow a)) in
  mkApp
    (Dashboard.handleCoverLetterEditingStateChange
       (isEditing (view a)) (hasUnsavedChanges (view a)) (workflow a))
    (restoreSavedLetter savedLetter (view a)).

Definition mount (w : Dashboard.State) : App :=
  effects
    (mkApp w (initialState (Dashboard.coverLetter (Dashboard.savedData w)))).

(** A click or a keystroke in the editor. *)
Inductive Event : Type :=
| StartEditing
| LetterChange (value : string)
| SaveChanges
| CancelEditing
| GenerateNew.

Definition handle (e : Event) (a : App) : App :=
  effects
    match e with
    | StartEditing => mkApp (workflow a) (startEditing (view a))
    | LetterChange value => mkApp (workflow a) (handleLetterChange value (view a))
    | SaveChanges =>
        let '(s, letter) := saveChanges (view a) in
        mkApp (Dashboard.handleLetterGeneration letter (workflow a)) s
    | CancelEditing => mkApp (workflow a) (cancelEditing (view a))
    | GenerateNew =>
        let '(s, letter) := generateNew (view a) in
        mkApp (Dashboard.handleLetterGeneration letter (workflow a)) s
    end.

(** The events of [l] in order, the first one first. *)
Definition handle_all (l : list Event) (a : App) : App :=
  fold_left (fun a e => handle e a) l a.

End CoverLetterGenerator.

(* ================================================================== *)
(** * The scoring component: [validateScoringData],
      [performScoringAnalysis] and [startAnalysis] *)
(* ================================================================== *)

Module MatchingResults.
Import Js.

Record Validation : Type := mkValidation {
  isValid : bool;
  errors : list string
}.

(** [skill && typeof skill === 'string' && skill.trim().length > 0] *)
Definition valid_skill (skill : value) : result bool :=
  Ok (match skill with
      | VStr s => truthy skill && Nat.ltb 0 (length (trim s))
      | _ => false
      end).

(** [exp && exp.position && exp.position.trim().length > 0] *)
Definition valid_experience (exp : value) : result bool :=
  if negb (truthy exp) then Ok false
  else
    position <- get exp "position" ;;
    if negb (truthy position) then Ok false
    else t <- call_trim position ;; Ok (Nat.ltb 0 (length t)).

(** The checks on the resume, reached when [resumeData] is truthy. The reads
    made for the log come first, as in the source: they throw on a resume
    with no [personal_info]. *)
Definition validateResume (resumeData : value) (errors : list string)
  : Console.M (list string) :=
  _ <~ Console.lift (get_path resumeData ["personal_info"; "first_name"]) ;;
  _ <~ Console.lift (get_path resumeData ["personal_info"; "last_name"]) ;;
  first_name <~ Console.lift (get_path resumeData ["personal_info"; "first_name"]) ;;
  no_first <~ Console.lift (blank first_name) ;;
  let errors := push_if no_first "В резюме отсутствует имя кандидата" errors in
  last_name <~ Console.lift (get_path resumeData ["personal_info"; "last_name"]) ;;
  no_last <~ Console.lift (blank last_name) ;;
  let errors := push_if no_last "В резюме отсутствует фамилия кандидата" errors in
  hard_len <~ Console.lift (get_path resumeData ["skills"; "hard_skills"; "length"]) ;;
  no_skills <~
    (if truthy hard_len then Console.ret false
     else
       soft_len <~ Console.lift
                     (get_path resumeData ["skills"; "soft_skills"; "length"]) ;;
       Console.ret (negb (truthy soft_len))) ;;
  errors <~
    (if no_skills then
       Console.ret (errors ++ ["В резюме не указаны навыки"])%list
     else
       hardSkills <~ Console.lift (get_path resumeData ["skills"; "hard_skills"]) ;;
       softSkills <~ Console.lift (get_path resumeData ["skills"; "soft_skills"]) ;;
       hs <~ Console.lift (spread hardSkills) ;;
       ss <~ Console.lift (spread softSkills) ;;
       validSkills <~ Console.lift (filter_list valid_skill (hs ++ ss)) ;;
       Console.ret
         (push_if (Nat.eqb (List.length validSkills) 0)
            "Навыки в резюме пустые или некорректные" errors)) ;;
  exp_len <~ Console.lift (get_path resumeData ["experience"; "length"]) ;;
  _ <~
    (if is_zero exp_len then
       Console.warn "⚠️ В резюме нет записей об опыте работы"
     else
       experience <~ Console.lift (get resumeData "experience") ;;
       validExperience <~ Console.lift (call_filter experience valid_experience) ;;
       if Nat.eqb (List.length validExperience) 0 then
         Console.warn "⚠️ Опыт работы в резюме не содержит валидных позиций"
       else Console.ret tt) ;;
  Console.ret errors.

(** The checks on the vacancy, reached when [jobData] is truthy. *)
Definition validateJob (jobData : value) (errors : list string)
  : Console.M (list string) :=
  job_title <~ Console.lift (get jobData "job_title") ;;
  no_title <~ Console.lift (blank job_title) ;;
  let errors := push_if no_title "В вакансии не указана должность" errors in
  company_name <~ Console.lift (get jobData "company_name") ;;
  no_company <~ Console.lift (blank company_name) ;;
  let errors := push_if no_company "В вакансии не указана компания" errors in
  required_skills <~ Console.lift (get jobData "required_skills") ;;
  req_len <~ Console.lift
               (if truthy required_skills then get required_skills "length"
                else Ok VUndef) ;;
  _ <~
    (if negb (truthy required_skills) || negb (isArray required_skills)
        || is_zero req_len then
       Console.warn "⚠️ В вакансии не указаны требуемые навыки"
     else
       validRequiredSkills <~ Console.lift (call_filter required_skills valid_skill) ;;
       if Nat.eqb (List.length validRequiredSkills) 0 then
         Console.warn "⚠️ Требуемые навыки в вакансии пустые или некорректные"
       else Console.ret tt) ;;
  description <~ Console.lift (get jobData "description") ;;
  no_description <~ Console.lift (blank description) ;;
  _ <~ (if no_description then Console.warn "⚠️ В вакансии отсутствует описание"
        else Console.ret tt) ;;
  Console.ret errors.

Definition validateScoringData (resumeData jobData : value) (userId : string)
  : Console.M Validation :=
  let errors := [] in
  errors <~
    (if negb (truthy resumeData) then
       Console.ret (errors ++ ["Отсутствуют данные резюме"])%list
     else validateResume resumeData errors) ;;
  errors <~
    (if negb (truthy jobData) then
       Console.ret (errors ++ ["Отсутствуют данные вакансии"])%list
     else validateJob jobData errors) ;;
  let errors :=
    if String.eqb userId EmptyString || Nat.eqb (length (trim userId)) 0 then
      (errors ++ ["Отсутствует идентификатор пользователя"])%list
    else
      push_if (Nat.ltb (length userId) 3)
        "Некорректный формат идентификатора пользователя" errors in
  Console.ret (mkValidation (Nat.eqb (List.length errors) 0) errors).

Definition requiredFields : list string :=
  [ "total_score"; "breakdown"; "recommendation"; "recruiter_recommendation";
    "candidate_recommendation" ].

Definition breakdownFields : list string :=
  [ "hard_skills"; "soft_skills"; "experience_match"; "position_match" ].

Definition itemFields : list string := [ "score"; "summary"; "description" ].

(** [for (const field of requiredFields)]: throws at the first field of
    [scoringResult] that is [undefined]. *)
Fixpoint checkRequiredFields (scoringResult : value) (fields : list string)
  : result unit :=
  match fields with
  | [] => Ok tt
  | field :: rest =>
      v <- get scoringResult field ;;
      if is_undefined v then
        Throw (Error ("Ответ API не содержит обязательное поле: scoring_result."
                      ++ field))
      else checkRequiredFields scoringResult rest
  end.

(** The reads of the loop that logs which parts of [breakdown] are present. *)
Fixpoint readItemFields (item : value) (fields : list string) : result unit :=
  match fields with
  | [] => Ok tt
  | itemField :: rest => _ <- get item itemField ;; readItemFields item rest
  end.

Fixpoint logBreakdown (breakdown : value) (fields : list string) : result unit :=
  match fields with
  | [] => Ok tt
  | field :: rest =>
      isPresent <-
        (if truthy breakdown then
           v <- get breakdown field ;; Ok (negb (is_undefined v))
         else Ok false) ;;
      _ <- (if isPresent then
              item <- get breakdown field ;; readItemFields item itemFields
            else Ok tt) ;;
      logBreakdown breakdown rest
  end.

(** [!breakdown || !breakdown.hard_skills || !breakdown.soft_skills ||
    !breakdown.experience_match || !breakdown.position_match] *)
Fixpoint anyMissing (breakdown : value) (fields : list string) : result bool :=
  match fields with
  | [] => Ok false
  | field :: rest =>
      v <- get breakdown field ;;
      if negb (truthy v) then Ok true else anyMissing breakdown rest
  end.

Definition breakdownBroken (breakdown : value) : result bool :=
  if negb (truthy breakdown) then Ok true
  else anyMissing breakdown breakdownFields.

(** The structural validation of a parsed response: it yields
    [scoring_result] and its [breakdown], or throws. *)
Definition checkStructure (responseData : value) : result (value * value) :=
  _ <- (if negb (truthy responseData)
           || negb (type_tag_eqb (typeof responseData) TObject) then
          Throw (Error "Некорректный формат ответа API: ожидался объект")
        else Ok tt) ;;
  scoringResult <- get responseData "scoring_result" ;;
  _ <- (if negb (truthy scoringResult) then
          Throw (Error "Ответ API не содержит обязательное поле: scoring_result")
        else Ok tt) ;;
  _ <- checkRequiredFields scoringResult requiredFields ;;
  breakdown <- get scoringResult "breakdown" ;;
  _ <- logBreakdown breakdown breakdownFields ;;
  broken <- breakdownBroken breakdown ;;
  if broken then
    Throw (Error "Некорректная структура поля breakdown в ответе API")
  else Ok (scoringResult, breakdown).

Section WithPlatform.

Variable Number_toString : Q -> string.

(** The scoring service: what [fetch] resolves to for a request body. *)
Variable fetch : value -> Http.fetched.

(** [for (const scoreField of scoreFields)]: the template literal handed to
    [console.log] converts the value to a string, whatever the value is; then
    comes a line on [console.warn] for a value that is no number from 0 to
    100, in a template literal that converts the value again. *)
Fixpoint checkRanges (scoreFields : list (string * value)) : Console.M unit :=
  match scoreFields with
  | [] => Console.ret tt
  | (name, v) :: rest =>
      let isValid := match v with VNum q => in_0_100 q | _ => false end in
      _ <~ Console.lift (ToString Number_toString v) ;;
      _ <~ (if negb isValid then
              shown <~ Console.lift (ToString Number_toString v) ;;
              Console.warn ("⚠️ Значение " ++ name ++ " вне диапазона 0-100: "
                            ++ shown)
            else Console.ret tt) ;;
      checkRanges rest
  end.

(** The branch taken on a response that is not [ok]: it always throws. *)
Definition rejectResponse (response : Http.Response) : result value :=
  let errorMessage :=
    VStr ("HTTP Error: " ++ Z_toString (Http.status response) ++ " "
          ++ Http.statusText response) in
  errorMessage <-
    try_catch
      (errorData <- Http.json response ;;
       cond <- (get errorData "error" <||> get errorData "message") ;;
       if truthy cond then get errorData "error" <||> get errorData "message"
       else Ok errorMessage)
      (fun _parseError =>
         errorText <- Http.text response ;;
         if negb (String.eqb errorText EmptyString) then Ok (VStr errorText)
         else Ok errorMessage) ;;
  msg <- ToString Number_toString errorMessage ;;
  Throw (Error msg).

(** The range check and the return, after the structural validation. *)
Definition checkResponse (responseData : value) : Console.M value :=
  parts <~ Console.lift (checkStructure responseData) ;;
  let '(scoringResult, breakdown) := parts in
  total_score <~ Console.lift (get scoringResult "total_score") ;;
  hard <~ Console.lift (get_path breakdown ["hard_skills"; "score"]) ;;
  soft <~ Console.lift (get_path breakdown ["soft_skills"; "score"]) ;;
  experience <~ Console.lift (get_path breakdown ["experience_match"; "score"]) ;;
  position <~ Console.lift (get_path breakdown ["position_match"; "score"]) ;;
  _ <~ checkRanges
         [ ("total_score", total_score);
           ("breakdown.hard_skills.score", hard);
           ("breakdown.soft_skills.score", soft);
           ("breakdown.experience_match.score", experience);
           ("breakdown.position_match.score", position) ] ;;
  Console.ret responseData.

(** The [catch] of [performScoringAnalysis]. *)
Definition rethrow (error : exn) : Console.M value :=
  if String.eqb (name error) "TypeError" && includes (message error) "fetch" then
    Console.throw
      (Error "Ошибка сети: не удается подключиться к новому серверу скорринга")
  else if String.eqb (name error) "SyntaxError" then
    Console.throw
      (Error "Ошибка парсинга ответа: новый сервер вернул некорректный JSON")
  else Console.throw error.

Definition performScoringAnalysis (resumeData jobData : value) (userId : string)
  : Console.M value :=
  validation <~ validateScoringData resumeData jobData userId ;;
  if negb (isValid validation) then
    Console.throw
      (Error ("Ошибка валидации данных: " ++ join ", " (errors validation)))
  else
    let requestPayload :=
      VObj [ ("resume_data", resumeData); ("job_data", jobData);
             ("user_id", VStr userId) ] in
    Console.try_catch
      (response <~ Console.lift (fetch requestPayload) ;;
       if negb (Http.ok response) then Console.lift (rejectResponse response)
       else
         responseData <~ Console.lift (Http.json response) ;;
         checkResponse responseData)
      rethrow.

(** ** The component *)

Record State : Type := mkState {
  isAnalyzing : bool;
  analysisComplete : bool;
  scoringData : value;
  error : option string
}.

(** The state after the call, what was written to [console.warn], and the
    argument of [onScoringComplete] when the parent was notified. *)
Definition startAnalysis (resumeData jobData : value) (currentUserId : string)
    (s : State) : State * list string * option value :=
  if negb (truthy resumeData) || negb (truthy jobData)
     || String.eqb currentUserId EmptyString then
    let missingData :=
      ((if negb (truthy resumeData) then ["данные резюме"] else [])
       ++ (if negb (truthy jobData) then ["данные вакансии"] else [])
       ++ (if String.eqb currentUserId EmptyString
           then ["идентификатор пользователя"] else []))%list in
    (mkState (isAnalyzing s) (analysisComplete s) (scoringData s)
       (Some ("Отсутствуют критически важные данные: " ++ join ", " missingData)),
     [], None)
  else
    match performScoringAnalysis resumeData jobData currentUserId with
    | (w, Ok scoringResult) =>
        (mkState false true scoringResult None, w, Some scoringResult)
    | (w, Throw err) =>
        let userFriendlyError :=
          if negb (String.eqb (message err) EmptyString) then message err
          else "Произошла неизвестная ошибка при анализе соответствия" in
        (mkState false (analysisComplete s) (scoringData s)
           (Some userFriendlyError), w, None)
    end.

End WithPlatform.

End MatchingResults.

(* ================================================================== *)
(** * The final step: [handleSaveGeneration] *)
(* ================================================================== *)

Module FinalResults.
Import Js.

(** The [user] prop. *)
Record User : Type := mkUser { id : string }.

(** What [supabase.auth.getSession()] resolves to: the access token of the
    session when there is one, and whether an error came with it. *)
Record SessionResult : Type := mkSessionResult {
  session : option string;
  sessionError : bool
}.

(** The [useState] cells of the save action. *)
Record State : Type := mkState {
  isSaving : bool;
  saveError : option string;
  saveSuccess : bool
}.

(** The controller with its final step mounted: the artifacts live in the
    controller and reach the step as props; [timerPending] says that the
    three-second timer of a successful save is set. *)
Record App : Type := mkApp {
  workflow : Dashboard.State;
  view : State;
  timerPending : bool
}.

Definition setView (f : State -> State) (a : App) : App :=
  mkApp (workflow a) (f (view a)) (timerPending a).

Definition setIsSaving (b : bool) (s : State) : State :=
  mkState b (saveError s) (saveSuccess s).
Definition setSaveError (e : option string) (s : State) : State :=
  mkState (isSaving s) e (saveSuccess s).
Definition setShowSaveSuccess (b : bool) (s : State) : State :=
  mkState (isSaving s) (saveError s) b.

Section WithPlatform.

Variable Number_toString : Q -> string.

(** [supabase.auth.getSession()] *)
Variable getSession : result SessionResult.

(** The save endpoint: what [fetch] resolves to for a bearer token and a
    request body. *)
Variable fetch : string -> value -> Http.fetched.

(** The object sent to the save endpoint. *)
Definition saveData (coverLetter : string) (matchingResults resumeData jobData : value)
  : result value :=
  job_title <- (get jobData "job_title" <||> get jobData "title"
                <||> Ok (VStr "Неизвестная должность")) ;;
  company_name <- (get jobData "company_name"
                   <||> Ok (VStr "Неизвестная компания")) ;;
  overall_score <- get_path matchingResults ["scoring_result"; "total_score"] ;;
  title_job <- (get jobData "job_title" <||> Ok (VStr "Должность")) ;;
  title_job <- ToString Number_toString title_job ;;
  title_company <- (get jobData "company_name" <||> Ok (VStr "компании")) ;;
  title_company <- ToString Number_toString title_company ;;
  Ok (VObj
        [ ("job_title", job_title);
          ("company_name", company_name);
          ("overall_score", overall_score);
          ("cover_letter_text", VStr coverLetter);
          ("scoring_results_json", matchingResults);
          ("resume_data_json", resumeData);
          ("job_data_json", jobData);
          ("title", VStr (title_job ++ " в " ++ title_company));
          ("status", VStr "completed") ]).

(** The [try] block: it returns when the record was saved. *)
Definition handleSaveGeneration_try (coverLetter : string)
    (matchingResults resumeData jobData : value) : result unit :=
  s <- getSession ;;
  match sessionError s, session s with
  | false, Some access_token =>
      body <- saveData coverLetter matchingResults resumeData jobData ;;
      response <- fetch access_token body ;;
      if negb (Http.ok response) then
        errorData <- Http.json response ;;
        msg <- (get errorData "error"
                <||> Ok (VStr ("HTTP error! status: "
                               ++ Z_toString (Http.status response)))) ;;
        msg <- ToString Number_toString msg ;;
        Throw (Error msg)
      else
        _ <- Http.json response ;;
        Ok tt
  | _, _ => Throw (Error "Пользователь не аутентифицирован")
  end.

Definition handleSaveGeneration (user : option User) (a : App) : App :=
  let data := Dashboard.savedData (workflow a) in
  let coverLetter := Dashboard.coverLetter data in
  let matchingResults := Dashboard.matchingResults data in
  let resumeData := Dashboard.resumeData data in
  let jobData := Dashboard.jobAnalysis data in
  if negb (truthy matchingResults) || String.eqb coverLetter EmptyString
     || negb (truthy resumeData) || negb (truthy jobData)
     || match user with None => true | Some _ => false end then
    setView (setSaveError (Some "Отсутствуют необходимые данные для сохранения")) a
  else
    let a := setView (setIsSaving true) a in
    let a := setView (setSaveError None) a in
    let a :=
      match handleSaveGeneration_try coverLetter matchingResults resumeData jobData with
      | Ok _ =>
          let a := setView (setShowSaveSuccess true) a in
          mkApp (workflow a) (view a) true
      | Throw error =>
          setView (setSaveError
                     (Some ("Не удалось сохранить результаты: " ++ message error))) a
      end in
    setView (setIsSaving false) a.

End WithPlatform.

(** ** [generateScoringText] *)

Definition newline : string := String (byte 10) EmptyString.

Definition unavailable : string :=
  "Результаты скорринга недоступны. Выполните анализ соответствия на предыдущем шаге.".

Section ScoringText.

Variable Number_toString : Q -> string.

(** A numbered line of the text, with the summary quoted under it. *)
Definition scoreLines (label score summary : string) : string :=
  label ++ ": " ++ score ++ "%." ++ newline
  ++ JobAnalysis.quote ++ summary ++ JobAnalysis.quote
  ++ newline ++ newline.

(** [generateScoringText()]. The template literal reads its parts from left
    to right and converts each to a string as soon as it is read. *)
Definition generateScoringText (matchingResults : value) : result string :=
  scoring_result <- opt matchingResults "scoring_result" ;;
  if negb (truthy scoring_result) then Ok unavailable
  else
    breakdown <- get_path matchingResults ["scoring_result"; "breakdown"] ;;
    totalScore <- get_path matchingResults ["scoring_result"; "total_score"] ;;
    recruiterRec <-
      get_path matchingResults ["scoring_result"; "recruiter_recommendation"] ;;
    hard_score <- get_path breakdown ["hard_skills"; "score"] ;;
    hard_score <- ToString Number_toString hard_score ;;
    hard_summary <- get_path breakdown ["hard_skills"; "summary"] ;;
    hard_summary <- ToString Number_toString hard_summary ;;
    soft_score <- get_path breakdown ["soft_skills"; "score"] ;;
    soft_score <- ToString Number_toString soft_score ;;
    soft_summary <- get_path breakdown ["soft_skills"; "summary"] ;;
    soft_summary <- ToString Number_toString soft_summary ;;
    experience_score <- get_path breakdown ["experience_match"; "score"] ;;
    experience_score <- ToString Number_toString experience_score ;;
    experience_summary <- get_path breakdown ["experience_match"; "summary"] ;;
    experience_summary <- ToString Number_toString experience_summary ;;
    position_score <- get_path breakdown ["position_match"; "score"] ;;
    position_score <- ToString Number_toString position_score ;;
    position_summary <- get_path breakdown ["position_match"; "summary"] ;;
    position_summary <- ToString Number_toString position_summary ;;
    totalScore <- ToString Number_toString totalScore ;;
    recruiterRec <- ToString Number_toString recruiterRec ;;
    Ok ("Ниже приведены значения скорринга вакансии и кандидата:"
        ++ newline ++ newline
        ++ scoreLines "1. Технические навыки" hard_score hard_summary
        ++ scoreLines "2. Гибкие навыки" soft_score soft_summary
        ++ scoreLines "3. Соответствие опыта" experience_score experience_summary
        ++ scoreLines "4. Соответствие должности" position_score position_summary
        ++ "5. Итого: " ++ totalScore ++ "%"
        ++ newline ++ newline
        ++ "6. Рекомендация для рекрутера от ИИ: " ++ JobAnalysis.quote
        ++ recruiterRec ++ JobAnalysis.quote).

End ScoringText.

(** The callback of the timer: it hides the notice and calls
    [onGenerationSaved], which the controller binds to
    [handleGenerationSaved]. *)
Definition saveSuccessTimer (a : App) : App :=
  mkApp (Dashboard.handleGenerationSaved (workflow a))
    (setShowSaveSuccess false (view a)) false.

End FinalResults.

(* ================================================================== *)
(** * The edge function [supabase/functions/save-generation] *)
(* ================================================================== *)

Module SaveGeneration.
Import Js.

Record Validation : Type := mkValidation {
  isValid : bool;
  errors : list string
}.

(** [!v || typeof v !== 'string' || v.trim().length === 0] *)
Definition not_a_filled_string (v : value) : bool :=
  negb (truthy v)
  || match v with
     | VStr s => Nat.eqb (length (trim s)) 0
     | _ => true
     end.

(** [!v || typeof v !== 'object'] *)
Definition not_an_object (v : value) : bool :=
  negb (truthy v) || negb (type_tag_eqb (typeof v) TObject).

Definition allowedStatuses : list string := [ "completed"; "draft"; "archived" ].

(** [allowedStatuses.includes(v)] *)
Definition status_allowed (v : value) : bool :=
  match v with
  | VStr s => existsb (String.eqb s) allowedStatuses
  | _ => false
  end.

Definition score_error : string := "overall_score должно быть числом от 0 до 100".

Definition validateGenerationData (data : value) : result Validation :=
  let errors := [] in
  job_title <- get data "job_title" ;;
  let errors := push_if (not_a_filled_string job_title)
    "job_title обязательно и должно быть непустой строкой" errors in
  company_name <- get data "company_name" ;;
  let errors := push_if (not_a_filled_string company_name)
    "company_name обязательно и должно быть непустой строкой" errors in
  cover_letter_text <- get data "cover_letter_text" ;;
  let errors := push_if (not_a_filled_string cover_letter_text)
    "cover_letter_text обязательно и должно быть непустой строкой" errors in
  scoring_results_json <- get data "scoring_results_json" ;;
  let errors := push_if (not_an_object scoring_results_json)
    "scoring_results_json обязательно и должно быть объектом" errors in
  resume_data_json <- get data "resume_data_json" ;;
  let errors := push_if (not_an_object resume_data_json)
    "resume_data_json обязательно и должно быть объектом" errors in
  job_data_json <- get data "job_data_json" ;;
  let errors := push_if (not_an_object job_data_json)
    "job_data_json обязательно и должно быть объектом" errors in
  overall_score <- get data "overall_score" ;;
  let errors :=
    if negb (is_undefined overall_score) then
      push_if (match overall_score with
               | VNum q => negb (Qle_bool 0%Q q) || negb (Qle_bool q 100%Q)
               | _ => true
               end) score_error errors
    else errors in
  title <- get data "title" ;;
  let errors :=
    push_if (negb (is_undefined title)
             && match title with
                | VStr s => Nat.ltb 200 (length s)
                | _ => true
                end)
      "title должно быть строкой длиной не более 200 символов" errors in
  status <- get data "status" ;;
  let errors :=
    if negb (is_undefined status) then
      push_if (negb (status_allowed status))
        ("status должен быть одним из: " ++ join ", " allowedStatuses) errors
    else errors in
  Ok (mkValidation (Nat.eqb (List.length errors) 0) errors).

(** The row handed to [insert]. *)
Record InsertData : Type := mkInsertData {
  user_id : string;
  job_title : string;
  company_name : string;
  overall_score : value;
  cover_letter_text : string;
  scoring_results_json : value;
  resume_data_json : value;
  job_data_json : value;
  title : value;
  status : value
}.

(** The object literal [insertData]. *)
Definition insertData (userId : string) (requestData : value) : result InsertData :=
  jt <- get requestData "job_title" ;;
  job_title <- call_trim jt ;;
  cn <- get requestData "company_name" ;;
  company_name <- call_trim cn ;;
  overall_score <- (get requestData "overall_score" <||> Ok VNull) ;;
  cl <- get requestData "cover_letter_text" ;;
  cover_letter_text <- call_trim cl ;;
  scoring_results_json <- get requestData "scoring_results_json" ;;
  resume_data_json <- get requestData "resume_data_json" ;;
  job_data_json <- get requestData "job_data_json" ;;
  t <- get requestData "title" ;;
  title <- ((if nullish t then Ok VUndef
             else trimmed <- call_trim t ;; Ok (VStr trimmed))
            <||> Ok VNull) ;;
  status <- (get requestData "status" <||> Ok (VStr "completed")) ;;
  Ok (mkInsertData userId job_title company_name overall_score
        cover_letter_text scoring_results_json resume_data_json job_data_json
        title status).

(** ** The request handler *)

Record Request : Type := mkRequest {
  method : string;
  authorization : option string;
  body : result value
}.

Record Response : Type := mkResponse {
  status_code : Z;
  payload : value
}.

(** The row [insert(...).select('id, created_at').single()] returns, or the
    message of the error. *)
Inductive InsertResult : Type :=
| Inserted (id created_at : string)
| InsertError (message : string).

(** [s.replace(p, r)] for a string pattern: the first occurrence. *)
Fixpoint replace_first (p r s : string) : string :=
  match strip_prefix p s with
  | Some rest => r ++ rest
  | None =>
      match s with
      | EmptyString => EmptyString
      | String c s' => String c (replace_first p r s')
      end
  end.

Section WithPlatform.

(** [Deno.env.get] of the two settings. *)
Variable supabaseUrl serviceRoleKey : option string.

(** [supabase.auth.getUser(token)]: the id of the user, or none (an error or
    no user). *)
Variable getUser : string -> option string.

(** The database: the outcome of inserting a row. *)
Variable insert : InsertData -> InsertResult.

Definition unset (v : option string) : bool :=
  match v with
  | None => true
  | Some s => String.eqb s EmptyString
  end.

Definition error_response (code : Z) (fields : list (string * value)) : Response :=
  mkResponse code (VObj fields).

(** The response, and the row that was handed to [insert] when one was. *)
Definition serve_try (req : Request) : result (Response * option InsertData) :=
  if String.eqb (method req) "OPTIONS" then Ok (mkResponse 200 (VStr "ok"), None)
  else if negb (String.eqb (method req) "POST") then
    Ok (error_response 405 [("error", VStr "Метод не поддерживается")], None)
  else if unset supabaseUrl || unset serviceRoleKey then
    Ok (error_response 500 [("error", VStr "Конфигурация сервера не настроена")],
        None)
  else if unset (authorization req) then
    Ok (error_response 401 [("error", VStr "Отсутствует токен авторизации")], None)
  else
    let authHeader := match authorization req with Some h => h | None => "" end in
    match getUser (replace_first "Bearer " "" authHeader) with
    | None =>
        Ok (error_response 401
              [("error", VStr "Недействительный токен авторизации")], None)
    | Some userId =>
        requestData <- body req ;;
        validation <- validateGenerationData requestData ;;
        if negb (isValid validation) then
          Ok (error_response 400
                [ ("error", VStr "Ошибка валидации данных");
                  ("details", VArr (map VStr (errors validation))) ], None)
        else
          _ <- get_path requestData ["cover_letter_text"; "length"] ;;
          row <- insertData userId requestData ;;
          match insert row with
          | InsertError msg =>
              Ok (error_response 500
                    [ ("error", VStr "Ошибка при сохранении данных");
                      ("details", VStr msg) ], Some row)
          | Inserted id created_at =>
              Ok (mkResponse 200
                    (VObj [ ("success", VBool true);
                            ("generation_id", VStr id);
                            ("created_at", VStr created_at);
                            ("message", VStr "Генерация успешно сохранена") ]),
                  Some row)
          end
    end.

Definition serve (req : Request) : Response * option InsertData :=
  match serve_try req with
  | Ok r => r
  | Throw error =>
      (error_response 500
         [ ("error", VStr "Внутренняя ошибка сервера");
           ("message", VStr "Не удалось сохранить генерацию. Попробуйте еще раз.");
           ("details", VStr (message error)) ], None)
  end.

End WithPlatform.

End SaveGeneration.

(* ================================================================== *)
(** * The client's check of a generation ([src/types/generation.ts]) *)
(* ================================================================== *)

Module Generation.
Import Js.

Definition score_error : string := "Общий балл должен быть числом от 0 до 100".

(** [validateCreateGenerationData]: the conditions on the six required
    fields are those of the edge function, word for word. *)
Definition validateCreateGenerationData (data : value)
  : result SaveGeneration.Validation :=
  let errors := [] in
  job_title <- get data "job_title" ;;
  let errors := push_if (SaveGeneration.not_a_filled_string job_title)
    "Название должности обязательно" errors in
  company_name <- get data "company_name" ;;
  let errors := push_if (SaveGeneration.not_a_filled_string company_name)
    "Название компании обязательно" errors in
  cover_letter_text <- get data "cover_letter_text" ;;
  let errors := push_if (SaveGeneration.not_a_filled_string cover_letter_text)
    "Текст письма обязателен" errors in
  scoring_results_json <- get data "scoring_results_json" ;;
  let errors := push_if (SaveGeneration.not_an_object scoring_results_json)
    "Результаты скорринга обязательны" errors in
  resume_data_json <- get data "resume_data_json" ;;
  let errors := push_if (SaveGeneration.not_an_object resume_data_json)
    "Данные резюме обязательны" errors in
  job_data_json <- get data "job_data_json" ;;
  let errors := push_if (SaveGeneration.not_an_object job_data_json)
    "Данные вакансии обязательны" errors in
  overall_score <- get data "overall_score" ;;
  let errors :=
    push_if (negb (is_undefined overall_score)
             && match overall_score with
                | VNum q => negb (Qle_bool 0%Q q) || negb (Qle_bool q 100%Q)
                | _ => true
                end) score_error errors in
  Ok (SaveGeneration.mkValidation (Nat.eqb (List.length errors) 0) errors).

End Generation.

(* ================================================================== *)
(** * The notions the properties are stated with *)
(* ================================================================== *)

Module Spec.
Import Js.

(** What is found in [v] at the end of the path [ks]: [undefined] as soon as
    a value on the way is [undefined] or [null], or lacks the next key. *)
Fixpoint at_path (v : value) (ks : list string) : value :=
  match ks with
  | [] => v
  | k :: r => if nullish v then VUndef else at_path (field v k) r
  end.

(** A field that is looked for in several places: the first truthy value
    among them, in their order, and the default when none is truthy. *)
Definition first_truthy (places : list value) (default : value) : value :=
  match find truthy places with
  | Some x => x
  | None => default
  end.

(** The places where the extraction looks for a field of the display data,
    in the order it tries them. *)
Definition places (rawData : value) (paths : list (list string)) : list value :=
  map (at_path rawData) paths.

Definition desired_position_paths : list (list string) :=
  [ ["desired_position"]; ["desiredPosition"] ].
Definition first_name_paths : list (list string) :=
  [ ["personal_info"; "first_name"]; ["personalInfo"; "first_name"];
    ["first_name"]; ["firstName"] ].
Definition last_name_paths : list (list string) :=
  [ ["personal_info"; "last_name"]; ["personalInfo"; "last_name"];
    ["last_name"]; ["lastName"] ].
Definition hard_skills_paths : list (list string) :=
  [ ["skills"; "hard_skills"]; ["skills"; "hardSkills"]; ["hardSkills"] ].
Definition soft_skills_paths : list (list string) :=
  [ ["skills"; "soft_skills"]; ["skills"; "softSkills"]; ["softSkills"] ].
Definition languages_paths : list (list string) :=
  [ ["skills"; "languages"]; ["languages"] ].
Definition summary_paths : list (list string) :=
  [ ["summary"]; ["description"] ].

(** The specification's "extension matching the MIME type": a PDF type with
    the extension [.pdf], a DOCX type with the extension [.docx]. *)
Definition extension_matches_type (file : File) : bool :=
  let ext := ResumeUpload.fileExtension (file_name file) in
  (String.eqb (file_type file) "application/pdf" && String.eqb ext ".pdf")
  || (String.eqb (file_type file)
        "application/vnd.openxmlformats-officedocument.wordprocessingml.document"
      && String.eqb ext ".docx").

(** The job-extraction call failed: the network did, the status is not a 2xx
    one, or the body is no JSON. *)
Inductive extraction_failed : Http.fetched -> Prop :=
| network_failure (e : exn) : extraction_failed (Throw e)
| bad_status (response : Http.Response) :
    Http.ok response = false -> extraction_failed (Ok response)
| unparsable (response : Http.Response) (e : exn) :
    Http.json response = Throw e -> extraction_failed (Ok response).

(** The four artifacts the final step receives from the controller. *)
Definition coverLetter_of (a : FinalResults.App) : string :=
  Dashboard.coverLetter (Dashboard.savedData (FinalResults.workflow a)).
Definition matchingResults_of (a : FinalResults.App) : value :=
  Dashboard.matchingResults (Dashboard.savedData (FinalResults.workflow a)).
Definition resumeData_of (a : FinalResults.App) : value :=
  Dashboard.resumeData (Dashboard.savedData (FinalResults.workflow a)).
Definition jobData_of (a : FinalResults.App) : value :=
  Dashboard.jobAnalysis (Dashboard.savedData (FinalResults.workflow a)).

Section SaveFailure.

Variable Number_toString : Q -> string.
Variable getSession : result FinalResults.SessionResult.
Variable fetch : string -> value -> Http.fetched.

(** The ways a save fails: a required artifact or the user is missing, there
    is no authenticated session, the network fails, or the save endpoint
    answers with a status that is not a 2xx one. *)
Inductive save_fails (user : option FinalResults.User) (a : FinalResults.App)
  : Prop :=
| missing_data :
    truthy (matchingResults_of a) = false \/ coverLetter_of a = EmptyString
    \/ truthy (resumeData_of a) = false \/ truthy (jobData_of a) = false
    \/ user = None ->
    save_fails user a
| session_rejected (e : exn) :
    getSession = Throw e -> save_fails user a
| unauthenticated (s : FinalResults.SessionResult) :
    getSession = Ok s ->
    FinalResults.sessionError s = true \/ FinalResults.session s = None ->
    save_fails user a
| network_error (token : string) (body : value) (e : exn) :
    getSession = Ok (FinalResults.mkSessionResult (Some token) false) ->
    FinalResults.saveData Number_toString (coverLetter_of a)
      (matchingResults_of a) (resumeData_of a) (jobData_of a) = Ok body ->
    fetch token body = Throw e ->
    save_fails user a
| endpoint_refused (token : string) (body : value) (response : Http.Response) :
    getSession = Ok (FinalResults.mkSessionResult (Some token) false) ->
    FinalResults.saveData Number_toString (coverLetter_of a)
      (matchingResults_of a) (resumeData_of a) (jobData_of a) = Ok body ->
    fetch token body = Ok response ->
    Http.ok response = false ->
    save_fails user a.

End SaveFailure.

(** The errors of the structural validation of a scoring response: an
    [Error] of the validation itself, or the TypeError of reading a part of a
    [null] breakdown entry. *)
Definition structural_error (e : exn) : Prop :=
  name e = "Error"
  \/ exists k, In k MatchingResults.itemFields /\ e = cannot_read VNull k.

(** The scoring service answered the request with a 2xx status and a body
    that is JSON, the inputs having passed [validateScoringData]. *)
Definition scoring_service_answers (fetch : value -> Http.fetched)
    (resumeData jobData : value) (userId : string) (responseData : value)
  : Prop :=
  exists validation response,
    Console.outcome
      (MatchingResults.validateScoringData resumeData jobData userId)
    = Ok validation
    /\ MatchingResults.isValid validation = true
    /\ fetch (VObj [ ("resume_data", resumeData); ("job_data", jobData);
                     ("user_id", VStr userId) ]) = Ok response
    /\ Http.ok response = true
    /\ Http.json response = Ok responseData.

(** A value that is no number from 0 to 100. *)
Definition out_of_range (v : value) : bool :=
  match v with
  | VNum q => negb (in_0_100 q)
  | _ => true
  end.

Section RangeWarnings.

Variable Number_toString : Q -> string.

(** [v] can be converted to a string. *)
Definition stringifiable (v : value) : Prop :=
  exists shown, ToString Number_toString v = Ok shown.

(** The text of a value that can be converted to a string. *)
Definition shown (v : value) : string :=
  match ToString Number_toString v with
  | Ok text => text
  | Throw _ => EmptyString
  end.



End RangeWarnings.

(** The five scores of a response, by the names the range check gives them. *)
Definition scoreFields (scoringResult breakdown : value) : list (string * value) :=
  [ ("total_score", field scoringResult "total_score");
    ("breakdown.hard_skills.score", field (field breakdown "hard_skills") "score");
    ("breakdown.soft_skills.score", field (field breakdown "soft_skills") "score");
    ("breakdown.experience_match.score",
     field (field breakdown "experience_match") "score");
    ("breakdown.position_match.score",
     field (field breakdown "position_match") "score") ].

(** Each completion flag of the controller against the artifact of its
    step: there is a resume exactly when [resumeUploaded] is set and a job
    analysis that is not [null] exactly when [jobAnalyzed] is; a letter or a
    scoring result is only there while its flag is set. *)
Definition flags_track_artifacts (s : Dashboard.State) : Prop :=
  (Dashboard.resumeUploaded s = true
   <-> Dashboard.resume (Dashboard.savedData s) <> None)
  /\ (Dashboard.resumeUploaded s = false ->
      Dashboard.resumeData (Dashboard.savedData s) = VNull)
  /\ (Dashboard.jobAnalyzed s = true
      <-> Dashboard.jobAnalysis (Dashboard.savedData s) <> VNull)
  /\ (Dashboard.letterGenerated s = false ->
      Dashboard.coverLetter (Dashboard.savedData s) = EmptyString)
  /\ (Dashboard.scoringCompleted s = false ->
      Dashboard.matchingResults (Dashboard.savedData s) = VNull).

(** An action of the controller other than the callback that hands it a
    letter. *)
Definition no_letter_action (x : Dashboard.Action) : bool :=
  match x with
  | Dashboard.OnGenerationComplete _ => false
  | _ => true
  end.

(** A selection of the letter settings: at most [limit] entries, no entry
    twice, no empty entry. *)
Definition selection_within (limit : nat) (selected : list string) : Prop :=
  List.length selected <= limit /\ NoDup selected /\ ~ In EmptyString selected.

(** The letter editor and the controller agree: the controller holds the
    letter on display and the two editing flags of the component, and an
    open editor whose text differs from that letter is flagged as unsaved. *)
Definition editor_in_sync (a : CoverLetterGenerator.App) : Prop :=
  let w := CoverLetterGenerator.workflow a in
  let s := CoverLetterGenerator.view a in
  Dashboard.coverLetter (Dashboard.savedData w)
  = CoverLetterGenerator.generatedLetter s
  /\ Dashboard.isCoverLetterEditing w = CoverLetterGenerator.isEditing s
  /\ Dashboard.hasUnsavedCoverLetterChanges w
     = CoverLetterGenerator.hasUnsavedChanges s
  /\ (CoverLetterGenerator.isEditing s = true ->
      CoverLetterGenerator.editedLetter s <> CoverLetterGenerator.generatedLetter s ->
      CoverLetterGenerator.hasUnsavedChanges s = true).

(** The three skill lists of the job editor are arrays. *)
Definition lists_are_arrays (d : JobAnalysis.EditableData) : Prop :=
  isArray (JobAnalysis.hard_skills d) = true
  /\ isArray (JobAnalysis.soft_skills d) = true
  /\ isArray (JobAnalysis.languages d) = true.

(** An address as the pattern of the resume editor reads it: an at sign
    between two parts, a dot inside the second part with something on both
    sides, and no white space and no other at sign anywhere. [chars] are the
    characters of the address. *)
Definition well_formed_email (chars : list string) : Prop :=
  exists a b c,
    chars = (a ++ "@" :: b ++ "." :: c)%list
    /\ a <> [] /\ b <> [] /\ c <> []
    /\ forallb ResumeUploadComponent.not_space_nor_at (a ++ b ++ c)%list = true.

End Spec.

(* ================================================================== *)
(** * Concrete runs *)
(* ================================================================== *)

Module Scenario.
Import Js.

(** The raw parser response of the specification's upload scenario. *)
Definition anna : value :=
  VObj [ ("personal_info", VObj [("first_name", VStr "Anna")]);
         ("skills", VObj [("hardSkills", VArr [VStr "Go"])]) ].

(** The job-extraction service answers 502 with a page that is no JSON. *)
Definition bad_gateway : Http.Response :=
  Http.mkResponse 502 "Bad Gateway" (Ok "<html>")
    (Throw (SyntaxError "Unexpected token <")).

(** A valid save request whose score is 0. *)
Definition zero_score_request : value :=
  VObj [ ("job_title", VStr "Backend developer");
         ("company_name", VStr "Acme");
         ("overall_score", VNum 0);
         ("cover_letter_text", VStr "Dear team");
         ("scoring_results_json", VObj [("scoring_result", VObj [])]);
         ("resume_data_json", VObj [("summary", VStr "engineer")]);
         ("job_data_json", VObj [("job_title", VStr "Backend developer")]) ].

(** A complete run of the workflow. *)
Definition complete_workflow : Dashboard.State :=
  Dashboard.mkState Dashboard.final true true true true false false
    (Dashboard.mkSavedData (Some (mkFile "cv.pdf" 1000 "application/pdf"))
       (VObj [("summary", VStr "engineer")])
       (VObj [("job_title", VStr "Developer"); ("company_name", VStr "Acme")])
       "Dear team"
       (VObj [("scoring_result", VObj [("total_score", VNum 71)])])).

(** The same, the final step mounted. *)
Definition complete_run : FinalResults.App :=
  FinalResults.mkApp complete_workflow (FinalResults.mkState false None false)
    false.

(** The save endpoint answers 500. *)
Definition refusing_endpoint (token : string) (body : value) : Http.fetched :=
  Ok (Http.mkResponse 500 "Internal Server Error" (Ok "{}")
        (Ok (VObj [("error", VStr "Ошибка при сохранении данных")]))).

Definition resume_anna : value :=
  VObj [ ("personal_info",
          VObj [("first_name", VStr "Anna"); ("last_name", VStr "Ivanova")]);
         ("skills",
          VObj [ ("hard_skills", VArr [VStr "Go"]);
                 ("soft_skills", VArr [VStr "Teamwork"]);
                 ("languages", VArr []) ]);
         ("education", VArr []);
         ("experience", VArr [VObj [("position", VStr "Developer")]]) ].

Definition job_acme : value :=
  VObj [ ("job_title", VStr "Developer");
         ("company_name", VStr "Acme");
         ("required_skills", VArr [VStr "Go"]);
         ("description", VStr "Build services") ].

Definition score_item (score : Q) : value :=
  VObj [ ("score", VNum score); ("summary", VStr "summary");
         ("description", VStr "description") ].

(** A scoring response, given its total score, the entries of its breakdown
    and its recommendations. *)
Definition scoring_response (total : Q) (breakdown : list (string * value))
    (recommendation : list (string * value)) : value :=
  VObj [ ("scoring_result",
          VObj ([ ("total_score", VNum total);
                  ("breakdown", VObj breakdown) ] ++ recommendation)) ].

Definition recommendations : list (string * value) :=
  [ ("recommendation", VStr "good_match");
    ("recruiter_recommendation", VStr "invite");
    ("candidate_recommendation", VStr "apply") ].

Definition full_breakdown : list (string * value) :=
  [ ("hard_skills", score_item 60); ("soft_skills", score_item 70);
    ("experience_match", score_item 80); ("position_match", score_item 75) ].

(** The scenario of the specification: the total score is 105. *)
Definition response_105 : value :=
  scoring_response 105 full_breakdown recommendations.


(** The scenario of the specification: no [soft_skills] in the breakdown. *)
Definition response_without_soft_skills : value :=
  scoring_response 71
    [ ("hard_skills", score_item 60);
      ("experience_match", score_item 80); ("position_match", score_item 75) ]
    recommendations.

(** No [recommendation] in the scoring result. *)
Definition response_without_recommendation : value :=
  scoring_response 71 full_breakdown
    [ ("recruiter_recommendation", VStr "invite");
      ("candidate_recommendation", VStr "apply") ].

(** The scoring service answers 200 with the given JSON. *)
Definition service (responseData : value) (request : value) : Http.fetched :=
  Ok (Http.mkResponse 200 "OK" (Ok "") (Ok responseData)).

Definition cv : File := mkFile "cv.pdf" 1000 "application/pdf".

(** The letter step, reopened after the scoring was done: the editor is open
    and holds an unsaved change. *)
Definition reopened_letter_step : Dashboard.State :=
  Dashboard.mkState Dashboard.generate true true true true true true
    (Dashboard.savedData complete_workflow).

(** What the final step sends to the save endpoint when the scoring came
    back with a total of 105. *)
Definition save_request_105 : value :=
  VObj [ ("job_title", VStr "Developer");
         ("company_name", VStr "Acme");
         ("overall_score", VNum 105);
         ("cover_letter_text", VStr "Dear team");
         ("scoring_results_json", response_105);
         ("resume_data_json", resume_anna);
         ("job_data_json", job_acme);
         ("title", VStr "Developer в Acme");
         ("status", VStr "completed") ].

(** The job component before an analysis, and after the analysis that
    [bad_gateway] answers. *)
Definition no_analysis : JobAnalysis.State :=
  JobAnalysis.mkState false VNull None false
    (JobAnalysis.mkEditableData (VStr "") (VArr []) (VArr []) (VArr [])).

Definition failed_analysis : JobAnalysis.State :=
  JobAnalysis.mkState false JobAnalysis.emptyData
    (Some "Не удалось проанализировать вакансию: Ошибка API: 502 - <html>")
    true
    (JobAnalysis.mkEditableData (VStr "") (VArr []) (VArr []) (VArr [])).

(** The user types a title and a skill into the empty form. *)
Definition manual_edits : list JobAnalysis.Edit :=
  [ JobAnalysis.ChangeTitle "Developer";
    JobAnalysis.AddSkill JobAnalysis.HardSkills " Go " ].

Definition manual_entry : JobAnalysis.State :=
  JobAnalysis.mkState false JobAnalysis.emptyData
    (Some "Не удалось проанализировать вакансию: Ошибка API: 502 - <html>")
    true
    (JobAnalysis.mkEditableData (VStr "Developer") (VArr [VStr "Go"])
       (VArr []) (VArr [])).

(** The parsing service answers 200 with the JSON [null]. *)
Definition null_parser (file : File) (userId : string) : Http.fetched :=
  Ok (Http.mkResponse 200 "OK" (Ok "null") (Ok VNull)).

(** A resume in the editor, every field of the form filled in. *)
Definition edited_resume : value :=
  VObj [ ("personal_info",
          VObj [ ("first_name", VStr "Anna"); ("last_name", VStr "Ivanova");
                 ("email", VStr " anna@example.com ");
                 ("phone", VStr "+7 900 000-00-00") ]);
         ("desired_position", VStr "Developer");
         ("summary", VStr "Backend engineer") ].

Definition resume_editor : ResumeUploadComponent.State :=
  ResumeUploadComponent.mkState false (Some cv) resume_anna None None true
    edited_resume true false.

End Scenario.

(* ================================================================== *)
(** * Facts about values, shared by the properties below *)
(* ================================================================== *)

Section ValueFacts.
Import Js.

Lemma truthy_not_nullish (v : value) : truthy v = true -> nullish v = false.
Proof. destruct v; cbn; intros H; try discriminate H; reflexivity. Qed.

Lemma get_returns (v : value) (k : string) :
  nullish v = false -> exists x, get v k = Ok x.
Proof.
  destruct v; cbn; intros H; try discriminate; eauto.
Qed.

Lemma get_ok_not_nullish (v : value) (k : string) (x : value) :
  get v k = Ok x -> nullish v = false.
Proof.
  destruct v; cbn; intros H; try discriminate; reflexivity.
Qed.

Lemma get_field (v : value) (k : string) :
  nullish v = false -> get v k = Ok (field v k).
Proof.
  intros H. unfold field. destruct (get_returns v k H) as [x Hx].
  rewrite Hx. reflexivity.
Qed.

Lemma get_path_two (v : value) (k1 k2 : string) :
  truthy v = true -> truthy (field v k1) = true ->
  get_path v [k1; k2] = Ok (field (field v k1) k2).
Proof.
  intros Hv Hk. cbn [get_path].
  rewrite (get_field v k1 (truthy_not_nullish v Hv)). cbn [bind].
  rewrite (get_field _ k2 (truthy_not_nullish _ Hk)). reflexivity.
Qed.

(** Optional chaining never throws. *)
Lemma opt_returns (v : value) (k : string) : exists x, opt v k = Ok x.
Proof.
  unfold opt. destruct v; cbn; eauto.
Qed.

Lemma opt_path_returns (ks : list string) :
  forall v, exists x, opt_path v ks = Ok x.
Proof.
  induction ks as [| k ks IH]; intros v; cbn.
  - eauto.
  - destruct (opt_returns v k) as [x Hx]. rewrite Hx. cbn. apply IH.
Qed.

Lemma push_if_nil (c : bool) (m : string) (l : list string) :
  push_if c m l = [] -> c = false /\ l = [].
Proof.
  unfold push_if. destruct c; intros H.
  - destruct l; discriminate.
  - split; [reflexivity | exact H].
Qed.


Lemma push_if_In (c : bool) (m x : string) (l : list string) :
  In x (push_if c m l) -> (c = true /\ x = m) \/ In x l.
Proof.
  unfold push_if. destruct c; intros H.
  - apply in_app_or in H. destruct H as [H | [H | []]].
    + right. exact H.
    + left. split; [reflexivity | symmetry; exact H].
  - right. exact H.
Qed.

Lemma length_zero_nil {A : Type} (l : list A) :
  Nat.eqb (List.length l) 0 = true -> l = [].
Proof.
  destruct l; cbn; [reflexivity | discriminate].
Qed.

Lemma find_none_all {A : Type} (f : A -> bool) (l : list A) :
  (forall x, In x l -> f x = false) -> find f l = None.
Proof.
  induction l as [| a l IH]; intros H; cbn.
  - reflexivity.
  - rewrite (H a (or_introl eq_refl)). apply IH.
    intros x Hx. apply H. right. exact Hx.
Qed.

(** A computation that writes warnings returns only if its first part does. *)
Lemma bind_outcome_inv {A B : Type}
    (m : Console.M A) (f : A -> Console.M B) (y : B) :
  Console.outcome (Console.bind m f) = Ok y ->
  exists x, Console.outcome m = Ok x /\ Console.outcome (f x) = Ok y.
Proof.
  destruct m as [w [a | e]]; cbn.
  - destruct (f a) as [w' r] eqn:Hf. cbn. intros H.
    exists a. rewrite Hf. split; [reflexivity | exact H].
  - discriminate.
Qed.

End ValueFacts.

(* ================================================================== *)
(** * Properties of the workflow controller *)
(* ================================================================== *)

Section WorkflowProperties.
Import Js Dashboard.

(** C1. Completing the analyze step with [null], from any state of the
    controller, empties the cover letter and clears [letterGenerated], sets
    the scoring artifact to [null] and clears [scoringCompleted], and does the
    same to the job data and [jobAnalyzed]; the resume file, the resume data
    and [resumeUploaded] are what they were. *)
Theorem handleJobAnalysis_null_cascade (s : State) :
  let s' := handleJobAnalysis VNull s in
  coverLetter (savedData s') = EmptyString
  /\ letterGenerated s' = false
  /\ matchingResults (savedData s') = VNull
  /\ scoringCompleted s' = false
  /\ jobAnalysis (savedData s') = VNull
  /\ jobAnalyzed s' = false
  /\ resume (savedData s') = resume (savedData s)
  /\ resumeData (savedData s') = resumeData (savedData s)
  /\ resumeUploaded s' = resumeUploaded s.
Proof.
  destruct s as [step up an le sc ed un [f rd ja cl mr]].
  cbn. repeat split; reflexivity.
Qed.

(** The scenario of the specification: all four artifacts set, then the job
    data reset. *)
Example reset_after_full_run :
  savedData (handleJobAnalysis VNull Scenario.complete_workflow)
  = mkSavedData (Some (mkFile "cv.pdf" 1000 "application/pdf"))
      (VObj [("summary", VStr "engineer")]) VNull EmptyString VNull.
Proof. reflexivity. Qed.

(** The handlers of the four steps, called in order from a fresh start, build
    that state. *)
Example full_run_reaches_final :
  let s := startNewGeneration initialState in
  let s := handleResumeUpload (mkFile "cv.pdf" 1000 "application/pdf")
             (VObj [("summary", VStr "engineer")]) s in
  let s := goToNextStep s in
  let s := handleJobAnalysis
             (VObj [("job_title", VStr "Developer"); ("company_name", VStr "Acme")])
             s in
  let s := goToNextStep s in
  let s := handleLetterGeneration "Dear team" s in
  let s := goToNextStep s in
  let s := handleScoringComplete
             (VObj [("scoring_result", VObj [("total_score", VNum 71)])]) s in
  let s := goToNextStep s in
  s = Scenario.complete_workflow /\ canProceedToNext s = false.
Proof. split; reflexivity. Qed.

(** A reset is the only call of [handleJobAnalysis] that clears: with job
    data the later artifacts stay. *)
Lemma handleJobAnalysis_data_keeps_later_steps (fields : list (string * value))
    (s : State) :
  let s' := handleJobAnalysis (VObj fields) s in
  jobAnalyzed s' = true
  /\ jobAnalysis (savedData s') = VObj fields
  /\ coverLetter (savedData s') = coverLetter (savedData s)
  /\ matchingResults (savedData s') = matchingResults (savedData s)
  /\ letterGenerated s' = letterGenerated s
  /\ scoringCompleted s' = scoringCompleted s.
Proof.
  destruct s as [step up an le sc ed un [f rd ja cl mr]].
  cbn. repeat split; reflexivity.
Qed.

(** C5. The guard is false on a step whose completion flag is false, and on
    the generate step it is false as well while the letter is being edited or
    has unsaved changes, whatever [letterGenerated] is. *)
Theorem canProceedToNext_guard (s : State) :
  (currentStep s = upload -> resumeUploaded s = false ->
   canProceedToNext s = false)
  /\ (currentStep s = analyze -> jobAnalyzed s = false ->
      canProceedToNext s = false)
  /\ (currentStep s = generate -> letterGenerated s = false ->
      canProceedToNext s = false)
  /\ (currentStep s = scoring -> scoringCompleted s = false ->
      canProceedToNext s = false)
  /\ (currentStep s = generate ->
      isCoverLetterEditing s = true \/ hasUnsavedCoverLetterChanges s = true ->
      canProceedToNext s = false).
Proof.
  unfold canProceedToNext.
  repeat split; intros Hstep Hflag; rewrite Hstep.
  - exact Hflag.
  - exact Hflag.
  - rewrite Hflag. reflexivity.
  - exact Hflag.
  - destruct Hflag as [H | H]; rewrite H.
    + rewrite andb_false_r. reflexivity.
    + apply andb_false_r.
Qed.

(** A generated letter with unsaved edits blocks the generate step. *)
Lemma canProceedToNext_guard_witness :
  canProceedToNext
    (mkState generate true true true false false true emptySavedData) = false.
Proof.
  exact (proj2 (proj2 (proj2 (proj2
           (canProceedToNext_guard
              (mkState generate true true true false false true emptySavedData)))))
           eq_refl (or_intror eq_refl)).
Defined.

(** The dashboard and the final step have no next step. *)
Lemma canProceedToNext_ends (s : State) :
  currentStep s = dashboard \/ currentStep s = final ->
  canProceedToNext s = false.
Proof.
  unfold canProceedToNext. intros [H | H]; rewrite H; reflexivity.
Qed.

End WorkflowProperties.

(* ================================================================== *)
(** * Properties of the resume upload component *)
(* ================================================================== *)

Section ExtractionProperties.
Import Js ResumeUpload Spec.

Lemma at_path_undefined (ks : list string) : at_path VUndef ks = VUndef.
Proof. destruct ks; reflexivity. Qed.

Lemma opt_at_path (v : value) (k : string) : opt v k = Ok (at_path v [k]).
Proof.
  unfold opt. cbn [at_path]. destruct (nullish v) eqn:Hn; [reflexivity |].
  apply get_field, Hn.
Qed.

Lemma opt_path_at_path (ks : list string) :
  forall v, opt_path v ks = Ok (at_path v ks).
Proof.
  induction ks as [| k r IH]; intros v; [reflexivity |].
  cbn [opt_path at_path]. unfold opt. destruct (nullish v) eqn:Hn.
  - cbn [bind]. rewrite IH. rewrite at_path_undefined. reflexivity.
  - rewrite (get_field _ _ Hn). cbn [bind]. apply IH.
Qed.

(** [a || b || ... || d] is the first truthy operand, and [d] when none of
    those before it is truthy. *)
Lemma or_else_first_truthy (operands : list value) (d : value) :
  fold_right (fun x rest => Ok x <||> rest) (Ok d) operands
  = Ok (first_truthy operands d).
Proof.
  unfold first_truthy.
  induction operands as [| x r IH]; [reflexivity |].
  cbn [fold_right find]. unfold or_else at 1. cbn [bind].
  destruct (truthy x); [reflexivity | exact IH].
Qed.

Lemma first_truthy_none (operands : list value) (d : value) :
  Forall (fun x => truthy x = false) operands -> first_truthy operands d = d.
Proof.
  unfold first_truthy. induction 1 as [| x r Hx _ IH]; [reflexivity |].
  cbn [find]. rewrite Hx. exact IH.
Qed.

(** C8. On the partial, camel-case response of the scenario the extraction
    returns [first_name = "Anna"] and [hard_skills = ["Go"]], the empty array
    for the other two skill lists and the empty string for the other fields.
    On every response it returns, and each field of what it returns is the
    first truthy value among the places where the field is looked for, in
    their order, and the default of the field (the empty string, or the
    empty array for a skill list) when none of these places holds a truthy
    value. In particular a field none of whose places is there is its
    default. *)
Theorem extractDisplayData_defaults :
  extractDisplayData Scenario.anna
  = Ok (mkDisplayData (VStr "")
          (mkPersonalInfo (VStr "Anna") (VStr ""))
          (mkSkills (VArr [VStr "Go"]) (VArr []) (VArr []))
          (VStr ""))
  /\ (forall rawData : value,
        extractDisplayData rawData
        = Ok (mkDisplayData
                (first_truthy (places rawData desired_position_paths) (VStr ""))
                (mkPersonalInfo
                   (first_truthy (places rawData first_name_paths) (VStr ""))
                   (first_truthy (places rawData last_name_paths) (VStr "")))
                (mkSkills
                   (first_truthy (places rawData hard_skills_paths) (VArr []))
                   (first_truthy (places rawData soft_skills_paths) (VArr []))
                   (first_truthy (places rawData languages_paths) (VArr [])))
                (first_truthy (places rawData summary_paths) (VStr ""))))
  /\ (forall (rawData : value) (paths : list (list string)) (default : value),
        (forall ks, In ks paths -> truthy (at_path rawData ks) = false) ->
        first_truthy (places rawData paths) default = default).
Proof.
  split; [reflexivity |].
  assert (Hexact : forall rawData : value,
        extractDisplayData rawData
        = Ok (mkDisplayData
                (first_truthy (places rawData desired_position_paths) (VStr ""))
                (mkPersonalInfo
                   (first_truthy (places rawData first_name_paths) (VStr ""))
                   (first_truthy (places rawData last_name_paths) (VStr "")))
                (mkSkills
                   (first_truthy (places rawData hard_skills_paths) (VArr []))
                   (first_truthy (places rawData soft_skills_paths) (VArr []))
                   (first_truthy (places rawData languages_paths) (VArr [])))
                (first_truthy (places rawData summary_paths) (VStr "")))).
  { intros rawData. unfold extractDisplayData.
    rewrite !opt_at_path, !opt_path_at_path.
    pose proof (or_else_first_truthy (places rawData desired_position_paths)
                  (VStr "")) as E1.
    pose proof (or_else_first_truthy (places rawData first_name_paths)
                  (VStr "")) as E2.
    pose proof (or_else_first_truthy (places rawData last_name_paths)
                  (VStr "")) as E3.
    pose proof (or_else_first_truthy (places rawData hard_skills_paths)
                  (VArr [])) as E4.
    pose proof (or_else_first_truthy (places rawData soft_skills_paths)
                  (VArr [])) as E5.
    pose proof (or_else_first_truthy (places rawData languages_paths)
                  (VArr [])) as E6.
    pose proof (or_else_first_truthy (places rawData summary_paths)
                  (VStr "")) as E7.
    unfold places, desired_position_paths, first_name_paths, last_name_paths,
      hard_skills_paths, soft_skills_paths, languages_paths, summary_paths
      in E1, E2, E3, E4, E5, E6, E7 |- *.
    cbn [map fold_right] in E1, E2, E3, E4, E5, E6, E7 |- *.
    rewrite E1, E2, E3, E4, E5, E6, E7. reflexivity. }
  split; [exact Hexact |].
  intros rawData paths default H. apply first_truthy_none.
  unfold places. apply Forall_forall. intros x Hx.
  apply in_map_iff in Hx. destruct Hx as (ks & <- & Hks). exact (H ks Hks).
Qed.

(** The extraction returns on what is no object at all. *)
Example extractDisplayData_of_null :
  extractDisplayData VNull
  = Ok (mkDisplayData (VStr "") (mkPersonalInfo (VStr "") (VStr ""))
          (mkSkills (VArr []) (VArr []) (VArr [])) (VStr "")).
Proof. reflexivity. Qed.

End ExtractionProperties.

Section FileValidationProperties.
Import Js ResumeUpload Spec.

Lemma array_includes_In (a : list string) (x : string) :
  array_includes a x = true <-> In x a.
Proof.
  unfold array_includes. rewrite existsb_exists. split.
  - intros [y [Hin Heq]]. apply String.eqb_eq in Heq. subst y. exact Hin.
  - intros Hin. exists x. split; [exact Hin | apply String.eqb_refl].
Qed.

Lemma array_includes_not_In (a : list string) (x : string) :
  array_includes a x = false <-> ~ In x a.
Proof.
  rewrite <- array_includes_In. destruct (array_includes a x); split; intros H.
  - discriminate.
  - exfalso. apply H. reflexivity.
  - discriminate.
  - reflexivity.
Qed.

(** C3, as stated, fails: a file typed as PDF and named [cv.docx] is accepted
    although its extension is not the one of its type, and so is a file whose
    name holds a line feed. *)
Lemma validateFile_accepts_mismatch :
  validateFile (mkFile "cv.docx" 1000 "application/pdf")
  = mkFileValidation true None
  /\ extension_matches_type (mkFile "cv.docx" 1000 "application/pdf") = false
  /\ validateFile (mkFile ("c" ++ of_bytes [10] ++ "v.pdf") 1000 "application/pdf")
     = mkFileValidation true None
  /\ UploadResume.dangerousChars_test ("c" ++ of_bytes [10] ++ "v.pdf") = true.
Proof. repeat split; reflexivity. Qed.

(** C3, amended. [validateFile] checks, in this order, the size, the MIME type
    and the extension, and rejects at the first check that fails with the
    message of that check; the extension is the lower-cased text after the last
    dot of the name and has to be [.pdf] or [.docx], whatever the type is. A
    file that passes the three checks and whose name has none of the characters
    the upload function refuses is accepted. *)
Theorem validateFile_checks (file : File) :
  ((file_size file > 10 * 1024 * 1024)%Z ->
   validateFile file
   = mkFileValidation false
       (Some "Файл слишком большой. Максимальный размер: 10MB"))
  /\ ((file_size file <= 10 * 1024 * 1024)%Z ->
      ~ In (file_type file) ALLOWED_TYPES ->
      validateFile file
      = mkFileValidation false
          (Some "Неподдерживаемый тип файла. Используйте PDF или DOCX"))
  /\ ((file_size file <= 10 * 1024 * 1024)%Z ->
      In (file_type file) ALLOWED_TYPES ->
      ~ In (fileExtension (file_name file)) ALLOWED_EXTENSIONS ->
      validateFile file
      = mkFileValidation false
          (Some "Неподдерживаемое расширение файла. Используйте .pdf или .docx"))
  /\ ((file_size file <= 10 * 1024 * 1024)%Z ->
      In (file_type file) ALLOWED_TYPES ->
      In (fileExtension (file_name file)) ALLOWED_EXTENSIONS ->
      UploadResume.dangerousChars_test (file_name file) = false ->
      validateFile file = mkFileValidation true None).
Proof.
  unfold validateFile, MAX_FILE_SIZE.
  repeat split.
  - intros Hsize. apply Z.gtb_gt in Hsize. rewrite Hsize. reflexivity.
  - intros Hsize Htype.
    destruct (Z.gtb_spec (file_size file) (10 * 1024 * 1024)) as [Hgt | _];
      [lia |].
    apply array_includes_not_In in Htype. rewrite Htype. reflexivity.
  - intros Hsize Htype Hext.
    destruct (Z.gtb_spec (file_size file) (10 * 1024 * 1024)) as [Hgt | _];
      [lia |].
    apply array_includes_In in Htype. rewrite Htype.
    apply array_includes_not_In in Hext. rewrite Hext. reflexivity.
  - intros Hsize Htype Hext _.
    destruct (Z.gtb_spec (file_size file) (10 * 1024 * 1024)) as [Hgt | _];
      [lia |].
    apply array_includes_In in Htype. rewrite Htype.
    apply array_includes_In in Hext. rewrite Hext. reflexivity.
Qed.

(** A PDF of exactly 10 MiB named with an upper-case extension passes. *)
Lemma validateFile_checks_witness :
  validateFile (mkFile "Resume.PDF" 10485760 "application/pdf")
  = mkFileValidation true None.
Proof.
  refine (proj2 (proj2 (proj2
            (validateFile_checks (mkFile "Resume.PDF" 10485760 "application/pdf"))))
            _ _ _ _).
  - cbn. lia.
  - cbn. left. reflexivity.
  - cbn. left. reflexivity.
  - reflexivity.
Defined.

(** What the upload function accepts, [validateFile] accepts. *)
Lemma validateFileMetadata_stricter (file : File) :
  ResumeUpload.isValid
    (UploadResume.validateFileMetadata (file_name file) (file_size file)
       (file_type file)) = true ->
  ResumeUpload.isValid (validateFile file) = true.
Proof.
  unfold UploadResume.validateFileMetadata, validateFile,
    UploadResume.MAX_FILE_SIZE, MAX_FILE_SIZE,
    UploadResume.ALLOWED_MIME_TYPES, ALLOWED_TYPES,
    UploadResume.ALLOWED_EXTENSIONS, ALLOWED_EXTENSIONS.
  destruct (file_size file >? 10 * 1024 * 1024)%Z; [intros H; exact H |].
  destruct (negb (array_includes _ (file_type file))); [intros H; exact H |].
  destruct (negb (array_includes _ (fileExtension (file_name file))));
    [intros H; exact H |].
  intros _. reflexivity.
Qed.

End FileValidationProperties.

(* ================================================================== *)
(** * Properties of the job URL validator *)
(* ================================================================== *)

Section UrlProperties.
Import Js JobAnalysis.

(** C2, as stated, fails: the components (host [hh.ru], path [/vacancy/1]) of
    [httpx://hh.ru/vacancy/1] match HeadHunter and its path pattern, and the
    URL is rejected for its protocol, while [https://hh.ru/vacancy/1], with the
    same host and path, is accepted. *)
Lemma validateJobUrl_protocol_counterexample :
  simple_URL_parse (urlToCheck (trim "httpx://hh.ru/vacancy/1"))
  = Some (mkURL "httpx:" "hh.ru" "/vacancy/1")
  /\ simple_URL_parse (urlToCheck (trim "https://hh.ru/vacancy/1"))
     = Some (mkURL "https:" "hh.ru" "/vacancy/1")
  /\ (exists site,
        find (site_matches (toLowerCase "hh.ru")) supportedSites = Some site
        /\ name site = "HeadHunter"
        /\ test (pathPattern site) "/vacancy/1" = true)
  /\ validateParsedUrl (mkURL "httpx:" "hh.ru" "/vacancy/1")
     = mkUrlValidation false
         (Some "URL должен использовать протокол HTTP или HTTPS") None
  /\ isValid (validateJobUrl simple_URL_parse "httpx://hh.ru/vacancy/1") = false
  /\ isValid (validateJobUrl simple_URL_parse "https://hh.ru/vacancy/1") = true.
Proof.
  split; [reflexivity |]. split; [reflexivity |].
  split; [eexists; repeat split; reflexivity |].
  repeat split; reflexivity.
Qed.

(** C2, amended. On an input that is not blank and that parses, the result of
    [validateJobUrl] is a function of the protocol, the host name and the path
    of the parsed URL: no allow-listed domain matching the lower-cased host
    name, it rejects; the path failing the pattern of the first site that
    matches, it rejects; otherwise it accepts and reports the name of that
    site when the protocol is [http:] or [https:], and rejects when it is
    another one. *)
Theorem validateJobUrl_by_parsed_url
    (URL_parse : string -> option URL) (url : string) (u : URL) :
  String.eqb url EmptyString || Nat.eqb (length (trim url)) 0 = false ->
  URL_parse (urlToCheck (trim url)) = Some u ->
  let host := toLowerCase (hostname u) in
  let r := validateJobUrl URL_parse url in
  r = validateParsedUrl u
  /\ ((forall site, In site supportedSites -> site_matches host site = false) ->
      isValid r = false /\ detectedSite r = None)
  /\ (forall site,
        find (site_matches host) supportedSites = Some site ->
        (test (pathPattern site) (pathname u) = false ->
         isValid r = false /\ detectedSite r = None)
        /\ (test (pathPattern site) (pathname u) = true ->
            protocol u = "https:" \/ protocol u = "http:" ->
            isValid r = true /\ detectedSite r = Some (name site))
        /\ (test (pathPattern site) (pathname u) = true ->
            protocol u <> "https:" -> protocol u <> "http:" ->
            isValid r = false /\ detectedSite r = None)).
Proof.
  intros Hblank Hparse host r.
  assert (Hr : r = validateParsedUrl u).
  { unfold r, validateJobUrl. rewrite Hblank, Hparse. reflexivity. }
  split; [exact Hr |]. rewrite Hr. unfold validateParsedUrl. fold host.
  split.
  - intros Hnone. rewrite (find_none_all _ _ Hnone). cbn. split; reflexivity.
  - intros site Hfind. rewrite Hfind. split; [| split].
    + intros Htest. rewrite Htest. split; reflexivity.
    + intros Htest Hproto. rewrite Htest. cbn [negb].
      destruct Hproto as [Hp | Hp]; rewrite Hp; split; reflexivity.
    + intros Htest Hs Hh. rewrite Htest. cbn [negb].
      apply String.eqb_neq in Hs, Hh. rewrite Hs, Hh. split; reflexivity.
Qed.

(** A HeadHunter vacancy typed with blanks around it and in upper case. *)
Lemma validateJobUrl_by_parsed_url_witness :
  isValid (validateJobUrl simple_URL_parse "  https://HH.ru/vacancy/123456 ")
  = true
  /\ detectedSite (validateJobUrl simple_URL_parse "  https://HH.ru/vacancy/123456 ")
     = Some "HeadHunter".
Proof.
  pose proof (validateJobUrl_by_parsed_url simple_URL_parse
                "  https://HH.ru/vacancy/123456 "
                (mkURL "https:" "hh.ru" "/vacancy/123456")
                eq_refl eq_refl) as H.
  cbv zeta in H. destruct H as [_ [_ H]].
  destruct (H (mkSite ["hh.ru"; "hh.kz"; "hh.by"; "hh.uz"; "hh.kg"] "HeadHunter"
                 (lit "/vacancy/" ++ [Digits])) eq_refl) as [_ [Hyes _]].
  exact (Hyes eq_refl (or_introl eq_refl)).
Defined.

(** Inputs the validator rejects before it looks at a site. *)
Example validateJobUrl_rejections :
  validateJobUrl simple_URL_parse "   "
  = mkUrlValidation false (Some "Введите URL вакансии") None
  /\ isValid (validateJobUrl simple_URL_parse "https://example.com/vacancy/1") = false
  /\ isValid (validateJobUrl simple_URL_parse "https://hh.ru/employer/1") = false
  /\ detectedSite (validateJobUrl simple_URL_parse "career.habr.com/vacancies/1000")
     = Some "Habr Career".
Proof. repeat split; reflexivity. Qed.

End UrlProperties.

(* ================================================================== *)
(** * Properties of the job analysis *)
(* ================================================================== *)

Section JobAnalysisProperties.
Import Js JobAnalysis Spec.

Lemma analyzeJobVacancy_try_throws
    (fetch : value -> Http.fetched) (url userId : string) (s : State) :
  extraction_failed (fetch (requestBody url userId)) ->
  exists e, analyzeJobVacancy_try fetch url userId s = Throw e.
Proof.
  intros Hfail. unfold analyzeJobVacancy_try.
  inversion Hfail as [e He | response Hok He | response e Hjson He]; cbn.
  - eauto.
  - rewrite Hok. cbn. destruct (Http.text response); cbn; eauto.
  - destruct (Http.ok response); cbn.
    + rewrite Hjson. cbn. eauto.
    + destruct (Http.text response); cbn; eauto.
Qed.

(** C7. When the job-extraction call fails, [analyzeJobVacancy] returns: the
    analysis result is the empty job data (empty title, company and
    description, empty skill lists), the editable fields are empty, the
    component is in editing mode and no longer analyzing, and the failure is
    shown as a message. *)
Theorem analyzeJobVacancy_degrades_to_manual_entry
    (fetch : value -> Http.fetched) (url userId : string) (s : State) :
  extraction_failed (fetch (requestBody url userId)) ->
  (exists msg,
     analyzeJobVacancy fetch url userId s
     = Ok (mkState false emptyData
             (Some ("Не удалось проанализировать вакансию: " ++ msg)) true
             (mkEditableData (VStr "") (VArr []) (VArr []) (VArr [])),
           None))
  /\ get emptyData "job_title" = Ok (VStr "")
  /\ get emptyData "company_name" = Ok (VStr "")
  /\ get emptyData "description" = Ok (VStr "")
  /\ get_path emptyData ["skills"; "hard_skills"] = Ok (VArr [])
  /\ get_path emptyData ["skills"; "soft_skills"] = Ok (VArr [])
  /\ get_path emptyData ["skills"; "languages"] = Ok (VArr []).
Proof.
  intros Hfail. split; [| repeat split; reflexivity].
  unfold analyzeJobVacancy.
  destruct (analyzeJobVacancy_try_throws fetch url userId
              (setIsAnalyzing true (setError None s)) Hfail) as [e He].
  rewrite He. cbn. exists (message e). reflexivity.
Qed.

Lemma analyzeJobVacancy_degrades_witness :
  exists msg,
    analyzeJobVacancy (fun _ => Ok Scenario.bad_gateway)
      "https://hh.ru/vacancy/1" "251224_1430"
      (mkState false VNull None false
         (mkEditableData (VStr "") (VArr []) (VArr []) (VArr [])))
    = Ok (mkState false emptyData
            (Some ("Не удалось проанализировать вакансию: " ++ msg)) true
            (mkEditableData (VStr "") (VArr []) (VArr []) (VArr [])),
          None).
Proof.
  exact (proj1 (analyzeJobVacancy_degrades_to_manual_entry
                  (fun _ => Ok Scenario.bad_gateway)
                  "https://hh.ru/vacancy/1" "251224_1430"
                  (mkState false VNull None false
                     (mkEditableData (VStr "") (VArr []) (VArr []) (VArr [])))
                  (bad_status Scenario.bad_gateway eq_refl))).
Defined.

(** The message shown for the 502 answer, and for a network failure. *)
Example analyzeJobVacancy_messages :
  option_map (fun o => errorMessage (fst o))
    (match analyzeJobVacancy (fun _ => Ok Scenario.bad_gateway)
             "https://hh.ru/vacancy/1" "251224_1430"
             (mkState false VNull None false
                (mkEditableData (VStr "") (VArr []) (VArr []) (VArr [])))
     with Ok o => Some o | Throw _ => None end)
  = Some (Some "Не удалось проанализировать вакансию: Ошибка API: 502 - <html>")
  /\ option_map (fun o => errorMessage (fst o))
       (match analyzeJobVacancy (fun _ => Throw (TypeError "Failed to fetch"))
                "https://hh.ru/vacancy/1" "251224_1430"
                (mkState false VNull None false
                   (mkEditableData (VStr "") (VArr []) (VArr []) (VArr [])))
        with Ok o => Some o | Throw _ => None end)
     = Some (Some "Не удалось проанализировать вакансию: Failed to fetch").
Proof. split; reflexivity. Qed.

End JobAnalysisProperties.

(* ================================================================== *)
(** * Properties of the save-generation function *)
(* ================================================================== *)

Section SaveGenerationProperties.
Import Js SaveGeneration.

Lemma in_range_not_out (q : Q) :
  (0 <= q)%Q -> (q <= 100)%Q ->
  negb (Qle_bool 0 q) || negb (Qle_bool q 100) = false.
Proof.
  intros H0 H100.
  apply Qle_bool_iff in H0. apply Qle_bool_iff in H100.
  rewrite H0, H100. reflexivity.
Qed.

Lemma filled_string_is_string (v : value) :
  not_a_filled_string v = false -> exists s, v = VStr s.
Proof.
  unfold not_a_filled_string.
  destruct v; rewrite ?orb_true_r; intros H; try discriminate H; eauto.
Qed.

(** C10. A request whose [overall_score] is a number from 0 to 100 gets no
    error for its score from [validateGenerationData]; when the request is
    valid, the row built for the insertion holds [null] as its score if the
    score is 0, and the submitted score if it is positive. *)
Theorem zero_score_is_stored_as_null
    (userId : string) (data : value) (q : Q) (v : Validation) :
  get data "overall_score" = Ok (VNum q) ->
  (0 <= q)%Q -> (q <= 100)%Q ->
  validateGenerationData data = Ok v ->
  ~ In score_error (errors v)
  /\ (isValid v = true ->
      exists row,
        insertData userId data = Ok row
        /\ ((q == 0)%Q -> overall_score row = VNull)
        /\ ((0 < q)%Q -> overall_score row = VNum q)).
Proof.
  intros Hscore H0 H100 Hv.
  pose proof (get_ok_not_nullish _ _ _ Hscore) as Hdata.
  unfold validateGenerationData in Hv. rewrite Hscore in Hv.
  destruct (get_returns data "job_title" Hdata) as [jt Hjt].
  destruct (get_returns data "company_name" Hdata) as [cn Hcn].
  destruct (get_returns data "cover_letter_text" Hdata) as [cl Hcl].
  destruct (get_returns data "scoring_results_json" Hdata) as [sj Hsj].
  destruct (get_returns data "resume_data_json" Hdata) as [rj Hrj].
  destruct (get_returns data "job_data_json" Hdata) as [jj Hjj].
  destruct (get_returns data "title" Hdata) as [ti Hti].
  destruct (get_returns data "status" Hdata) as [st Hst].
  rewrite Hjt, Hcn, Hcl, Hsj, Hrj, Hjj, Hti, Hst in Hv.
  cbn [bind is_undefined negb] in Hv.
  rewrite (in_range_not_out q H0 H100) in Hv.
  injection Hv as Hv. subst v. cbn [errors isValid].
  split.
  - intros Hin. unfold score_error in Hin.
    destruct (negb (is_undefined st));
      repeat (apply push_if_In in Hin;
              destruct Hin as [[Hc Heq] | Hin];
              [first [discriminate Hc | cbn in Heq; discriminate Heq] |]);
      destruct Hin.
  - intros Hvalid. apply length_zero_nil in Hvalid.
    assert (Hfields :
              not_a_filled_string jt = false
              /\ not_a_filled_string cn = false
              /\ not_a_filled_string cl = false
              /\ (negb (is_undefined ti)
                  && match ti with
                     | VStr s => Nat.ltb 200 (length s)
                     | _ => true
                     end) = false).
    { destruct (negb (is_undefined st));
        repeat (apply push_if_nil in Hvalid; destruct Hvalid as [? Hvalid]);
        repeat split; assumption. }
    clear Hvalid. destruct Hfields as [Hjt' [Hcn' [Hcl' Hti']]].
    unfold insertData. rewrite Hjt, Hcn, Hcl, Hsj, Hrj, Hjj, Hti, Hst, Hscore.
    apply filled_string_is_string in Hjt', Hcn', Hcl'.
    destruct Hjt' as [sjt ->], Hcn' as [scn ->], Hcl' as [scl ->].
    assert (Htitle : exists t',
              (if nullish ti then Ok VUndef
               else trimmed <- call_trim ti ;; Ok (VStr trimmed)) = Ok t').
    { destruct ti; cbn in Hti' |- *; try discriminate Hti'; eauto. }
    destruct Htitle as [t' Ht'].
    cbn [call_trim bind]. rewrite Ht'. unfold or_else. cbn [bind].
    change (truthy (VNum q)) with (negb (Qeq_bool q 0)).
    destruct (Qeq_bool q 0) eqn:E; cbn [negb bind];
      destruct (truthy t'); cbn [bind]; destruct (truthy st); cbn [bind];
      (eexists; split; [reflexivity |]; cbn [overall_score]; split; intros Hq);
      try reflexivity;
      first [ apply Qeq_bool_iff in Hq; congruence
            | apply Qeq_bool_iff in E; rewrite E in Hq;
              exfalso; exact (Qlt_irrefl 0 Hq) ].
Qed.

Lemma zero_score_is_stored_as_null_witness :
  validateGenerationData Scenario.zero_score_request = Ok (mkValidation true [])
  /\ exists row,
       insertData "user-1" Scenario.zero_score_request = Ok row
       /\ overall_score row = VNull.
Proof.
  split; [reflexivity |].
  destruct (zero_score_is_stored_as_null "user-1" Scenario.zero_score_request 0
              (mkValidation true []) eq_refl
              (Qle_bool_imp_le 0 0 eq_refl) (Qle_bool_imp_le 0 100 eq_refl)
              eq_refl) as [_ H].
  destruct (H eq_refl) as [row [Hrow [Hzero _]]].
  exists row. split; [exact Hrow | exact (Hzero (Qeq_refl 0))].
Defined.

(** The handler, run on that request, hands a row with a [null] score to the
    database and answers 200. *)
Example serve_stores_null_for_zero :
  let '(response, row) :=
    serve (Some "https://project.supabase.co") (Some "service-role-key")
      (fun _ => Some "user-1")
      (fun _ => Inserted "generation-1" "2025-01-01T00:00:00Z")
      (mkRequest "POST" (Some "Bearer token") (Ok Scenario.zero_score_request)) in
  status_code response = 200%Z
  /\ option_map overall_score row = Some VNull.
Proof. split; reflexivity. Qed.

(** A score above 100 is refused with the message of the score. *)
Example score_above_range_is_refused :
  validateGenerationData
    (VObj [ ("job_title", VStr "Backend developer");
            ("company_name", VStr "Acme");
            ("overall_score", VNum 101);
            ("cover_letter_text", VStr "Dear team");
            ("scoring_results_json", VObj []);
            ("resume_data_json", VObj []);
            ("job_data_json", VObj []) ])
  = Ok (mkValidation false [score_error]).
Proof. reflexivity. Qed.

End SaveGenerationProperties.

(* ================================================================== *)
(** * Properties of the save action *)
(* ================================================================== *)

Section SaveProperties.
Import Js FinalResults Spec.

Variable Number_toString : Q -> string.
Variable getSession : result SessionResult.
Variable fetch : string -> value -> Http.fetched.

(** The save action has no setter of the controller: its artifacts are the
    same after it, failed or not. *)
Lemma handleSaveGeneration_keeps_workflow (user : option User) (a : App) :
  workflow (handleSaveGeneration Number_toString getSession fetch user a)
  = workflow a.
Proof.
  unfold handleSaveGeneration.
  destruct (_ || _ || _ || _ || _); [reflexivity |].
  destruct (handleSaveGeneration_try _ _ _ _ _ _ _); reflexivity.
Qed.

Lemma handleSaveGeneration_try_throws (user : option User) (a : App) :
  save_fails Number_toString getSession fetch user a ->
  (truthy (matchingResults_of a) = false \/ coverLetter_of a = EmptyString
   \/ truthy (resumeData_of a) = false \/ truthy (jobData_of a) = false
   \/ user = None)
  \/ exists e,
       handleSaveGeneration_try Number_toString getSession fetch
         (coverLetter_of a) (matchingResults_of a) (resumeData_of a)
         (jobData_of a) = Throw e.
Proof.
  intros [Hmissing | e He | s Hs Hbad | token body e Hs Hbody He
          | token body response Hs Hbody Hresp Hok].
  - left. exact Hmissing.
  - right. unfold handleSaveGeneration_try. rewrite He. cbn. eauto.
  - right. unfold handleSaveGeneration_try. rewrite Hs. cbn.
    destruct Hbad as [Hbad | Hbad]; rewrite Hbad.
    + eauto.
    + destruct (sessionError s); eauto.
  - right. unfold handleSaveGeneration_try. rewrite Hs. cbn.
    rewrite Hbody. cbn. rewrite He. cbn. eauto.
  - right. unfold handleSaveGeneration_try. rewrite Hs. cbn.
    rewrite Hbody. cbn. rewrite Hresp. cbn. rewrite Hok. cbn.
    destruct (Http.json response) as [errorData | e]; cbn; [| eauto].
    destruct (get errorData "error") as [x | e]; cbn; [| eauto].
    destruct (truthy x); cbn [bind];
      match goal with
      | |- exists e, bind ?m _ = Throw e => destruct m; cbn [bind]; eauto
      end.
Qed.

(** C9. When the save fails, [handleSaveGeneration] records a message in
    [saveError] and does nothing else that lasts: the controller, and with it
    the cover letter, the scoring results, the resume data and the job data,
    is what it was, the success notice is not shown and no return to the
    dashboard is scheduled. *)
Theorem handleSaveGeneration_failure_keeps_artifacts
    (user : option User) (a : App) :
  save_fails Number_toString getSession fetch user a ->
  let a' := handleSaveGeneration Number_toString getSession fetch user a in
  workflow a' = workflow a
  /\ coverLetter_of a' = coverLetter_of a
  /\ matchingResults_of a' = matchingResults_of a
  /\ resumeData_of a' = resumeData_of a
  /\ jobData_of a' = jobData_of a
  /\ (exists msg, saveError (view a') = Some msg)
  /\ saveSuccess (view a') = saveSuccess (view a)
  /\ timerPending a' = timerPending a.
Proof.
  intros Hfail a'.
  pose proof (handleSaveGeneration_keeps_workflow user a) as Hw.
  fold a' in Hw.
  unfold coverLetter_of, matchingResults_of, resumeData_of, jobData_of.
  rewrite Hw. repeat (split; [reflexivity |]).
  unfold a', handleSaveGeneration.
  fold (coverLetter_of a) (matchingResults_of a) (resumeData_of a) (jobData_of a).
  destruct (handleSaveGeneration_try_throws user a Hfail) as [Hmissing | [e He]].
  - assert (Hguard :
      negb (truthy (matchingResults_of a))
      || String.eqb (coverLetter_of a) EmptyString
      || negb (truthy (resumeData_of a)) || negb (truthy (jobData_of a))
      || match user with None => true | Some _ => false end = true).
    { destruct Hmissing as [H | [H | [H | [H | H]]]]; rewrite H;
        cbn; rewrite ?orb_true_r; reflexivity. }
    rewrite Hguard. cbn. eauto.
  - destruct (_ || _ || _ || _ || _).
    + cbn. eauto.
    + rewrite He. cbn. eauto.
Qed.

End SaveProperties.

Section SaveScenario.
Import Js FinalResults Spec Scenario.

Lemma handleSaveGeneration_failure_witness :
  let a' :=
    handleSaveGeneration integral_toString
      (Ok (mkSessionResult (Some "token") false)) refusing_endpoint
      (Some (mkUser "user-1")) complete_run in
  workflow a' = workflow complete_run
  /\ saveError (view a')
     = Some "Не удалось сохранить результаты: Ошибка при сохранении данных"
  /\ timerPending a' = false.
Proof.
  pose proof (handleSaveGeneration_failure_keeps_artifacts integral_toString
                (Ok (mkSessionResult (Some "token") false)) refusing_endpoint
                (Some (mkUser "user-1")) complete_run
                (endpoint_refused integral_toString
                   (Ok (mkSessionResult (Some "token") false)) refusing_endpoint
                   (Some (mkUser "user-1")) complete_run
                   "token" _ _ eq_refl eq_refl eq_refl eq_refl)) as H.
  cbv zeta in H. destruct H as [Hw _].
  split; [exact Hw |]. split; reflexivity.
Defined.

(** A save that succeeds shows the notice and sets the timer; the timer then
    returns the controller to the dashboard, its artifacts still in place. *)
Example handleSaveGeneration_success :
  let saved :=
    handleSaveGeneration integral_toString
      (Ok (mkSessionResult (Some "token") false))
      (fun _ _ => Ok (Http.mkResponse 200 "OK" (Ok "{}")
                        (Ok (VObj [("success", VBool true)]))))
      (Some (mkUser "user-1")) complete_run in
  view saved = mkState false None true
  /\ timerPending saved = true
  /\ Dashboard.currentStep (workflow (saveSuccessTimer saved)) = Dashboard.dashboard
  /\ Dashboard.savedData (workflow (saveSuccessTimer saved))
     = Dashboard.savedData complete_workflow.
Proof. repeat split; reflexivity. Qed.

End SaveScenario.

(* ================================================================== *)
(** * Properties of the scoring analysis *)
(* ================================================================== *)

Section ScoringProperties.
Import Js MatchingResults Spec.

(** ** The validation of the inputs *)



(** ** The structural validation of the response *)

Lemma rethrow_structural (e : exn) :
  structural_error e -> rethrow e = Console.throw e.
Proof.
  intros [Hname | [k [Hk He]]]; unfold rethrow.
  - rewrite Hname. reflexivity.
  - subst e. cbn in Hk.
    destruct Hk as [<- | [<- | [<- | []]]]; reflexivity.
Qed.

Lemma checkRequiredFields_error (sr : value) (fields : list string) (e : exn) :
  truthy sr = true ->
  checkRequiredFields sr fields = Throw e -> name e = "Error".
Proof.
  intros Hsr. apply truthy_not_nullish in Hsr.
  induction fields as [| f fields IH]; cbn; intros H.
  - discriminate H.
  - rewrite (get_field sr f Hsr) in H. cbn in H.
    destruct (is_undefined (field sr f)).
    + injection H as <-. reflexivity.
    + apply IH. exact H.
Qed.

Lemma checkRequiredFields_first (sr : value) (fields : list string) (f : string) :
  truthy sr = true ->
  find (fun k => is_undefined (field sr k)) fields = Some f ->
  checkRequiredFields sr fields
  = Throw (Error ("Ответ API не содержит обязательное поле: scoring_result." ++ f)).
Proof.
  intros Hsr. apply truthy_not_nullish in Hsr.
  induction fields as [| k fields IH]; cbn; intros H.
  - discriminate H.
  - rewrite (get_field sr k Hsr). cbn.
    destruct (is_undefined (field sr k)).
    + injection H as <-. reflexivity.
    + apply IH. exact H.
Qed.

Lemma checkRequiredFields_none (sr : value) (fields : list string) :
  truthy sr = true ->
  find (fun k => is_undefined (field sr k)) fields = None ->
  checkRequiredFields sr fields = Ok tt.
Proof.
  intros Hsr. apply truthy_not_nullish in Hsr.
  induction fields as [| k fields IH]; cbn; intros H.
  - reflexivity.
  - rewrite (get_field sr k Hsr). cbn.
    destruct (is_undefined (field sr k)).
    + discriminate H.
    + apply IH. exact H.
Qed.

Lemma readItemFields_error (item : value) (fields : list string) (e : exn) :
  is_undefined item = false ->
  incl fields itemFields ->
  readItemFields item fields = Throw e ->
  exists k, In k itemFields /\ e = cannot_read VNull k.
Proof.
  intros Hitem.
  induction fields as [| f fields IH]; cbn; intros Hincl H.
  - discriminate H.
  - destruct item; cbn in H; try discriminate Hitem;
      try (apply IH; [intros x Hx; apply Hincl; right; exact Hx | exact H]).
    injection H as <-. exists f. split; [| reflexivity].
    apply Hincl. left. reflexivity.
Qed.

Lemma logBreakdown_error (b : value) (fields : list string) (e : exn) :
  logBreakdown b fields = Throw e ->
  exists k, In k itemFields /\ e = cannot_read VNull k.
Proof.
  induction fields as [| f fields IH]; intros H; cbn [logBreakdown] in H.
  - discriminate H.
  - destruct (truthy b) eqn:Hb.
    + rewrite (get_field b f (truthy_not_nullish b Hb)) in H.
      cbn [bind] in H.
      destruct (is_undefined (field b f)) eqn:Hu; cbn [negb bind] in H.
      * apply IH. exact H.
      * destruct (readItemFields (field b f) itemFields) as [[] | e'] eqn:Hr;
          cbn [bind] in H.
        -- apply IH. exact H.
        -- injection H as <-.
           apply (readItemFields_error (field b f) itemFields e' Hu
                    (incl_refl _) Hr).
    + cbn [bind] in H. apply IH. exact H.
Qed.

Lemma anyMissing_returns (b : value) (fields : list string) :
  truthy b = true ->
  anyMissing b fields = Ok (existsb (fun k => negb (truthy (field b k))) fields).
Proof.
  intros Hb. apply truthy_not_nullish in Hb.
  induction fields as [| f fields IH]; cbn.
  - reflexivity.
  - rewrite (get_field b f Hb). cbn.
    destruct (truthy (field b f)); cbn; [exact IH | reflexivity].
Qed.

Lemma breakdownBroken_returns (b : value) :
  breakdownBroken b
  = Ok (negb (truthy b)
        || existsb (fun k => negb (truthy (field b k))) breakdownFields).
Proof.
  unfold breakdownBroken. destruct (truthy b) eqn:Hb; cbn [negb orb].
  - apply anyMissing_returns. exact Hb.
  - reflexivity.
Qed.

(** What the structural validation throws. *)
Lemma checkStructure_error (data : value) (e : exn) :
  checkStructure data = Throw e -> structural_error e.
Proof.
  unfold checkStructure. intros H.
  destruct (truthy data) eqn:Hd; cbn [negb orb bind] in H;
    [| injection H as <-; left; reflexivity].
  destruct (negb (type_tag_eqb (typeof data) TObject)); cbn [bind] in H;
    [injection H as <-; left; reflexivity |].
  rewrite (get_field data "scoring_result" (truthy_not_nullish data Hd)) in H.
  cbn [bind] in H.
  destruct (truthy (field data "scoring_result")) eqn:Hsr; cbn [negb bind] in H;
    [| injection H as <-; left; reflexivity].
  destruct (checkRequiredFields (field data "scoring_result") requiredFields)
    as [[] | e'] eqn:Hreq; cbn [bind] in H.
  2: { injection H as <-. left.
       apply (checkRequiredFields_error _ _ _ Hsr Hreq). }
  rewrite (get_field _ "breakdown" (truthy_not_nullish _ Hsr)) in H.
  cbn [bind] in H.
  destruct (logBreakdown (field (field data "scoring_result") "breakdown")
              breakdownFields) as [[] | e'] eqn:Hlog; cbn [bind] in H.
  2: { injection H as <-. right. apply (logBreakdown_error _ _ _ Hlog). }
  rewrite breakdownBroken_returns in H. cbn [bind] in H.
  destruct (negb _ || _); [| discriminate H].
  injection H as <-. left. reflexivity.
Qed.

(** What a response that passes the structural validation holds. *)
Lemma checkStructure_passed (data sr b : value) :
  checkStructure data = Ok (sr, b) ->
  sr = field data "scoring_result"
  /\ b = field sr "breakdown"
  /\ truthy sr = true
  /\ truthy b = true
  /\ forall k, In k breakdownFields -> truthy (field b k) = true.
Proof.
  unfold checkStructure. intros H.
  destruct (truthy data) eqn:Hd; cbn [negb orb bind] in H; [| discriminate H].
  destruct (negb (type_tag_eqb (typeof data) TObject)); cbn [bind] in H;
    [discriminate H |].
  rewrite (get_field data "scoring_result" (truthy_not_nullish data Hd)) in H.
  cbn [bind] in H.
  destruct (truthy (field data "scoring_result")) eqn:Hsr; cbn [negb bind] in H;
    [| discriminate H].
  destruct (checkRequiredFields (field data "scoring_result") requiredFields)
    as [[] | e'] eqn:Hreq; cbn [bind] in H; [| discriminate H].
  rewrite (get_field _ "breakdown" (truthy_not_nullish _ Hsr)) in H.
  cbn [bind] in H.
  destruct (logBreakdown (field (field data "scoring_result") "breakdown")
              breakdownFields) as [[] | e'] eqn:Hlog; cbn [bind] in H;
    [| discriminate H].
  rewrite breakdownBroken_returns in H. cbn [bind] in H.
  destruct (truthy (field (field data "scoring_result") "breakdown")) eqn:Hb;
    cbn [negb orb] in H; [| discriminate H].
  destruct (existsb _ breakdownFields) eqn:Hex; [discriminate H |].
  injection H as <- <-.
  repeat split; try assumption.
  intros k Hk.
  destruct (truthy (field (field (field data "scoring_result") "breakdown") k))
    eqn:Hk'; [reflexivity |].
  assert (Hc : existsb
                 (fun k => negb (truthy (field (field (field data "scoring_result")
                                                  "breakdown") k)))
                 breakdownFields = true).
  { apply existsb_exists. exists k. split; [exact Hk | rewrite Hk'; reflexivity]. }
  rewrite Hc in Hex. discriminate Hex.
Qed.

Lemma scoring_answer_validated (fetch : value -> Http.fetched)
    (resumeData jobData : value) (userId : string) (responseData : value) :
  scoring_service_answers fetch resumeData jobData userId responseData ->
  exists validation,
    Console.outcome (validateScoringData resumeData jobData userId) = Ok validation
    /\ isValid validation = true.
Proof.
  intros [validation [response [Hv [Hvalid _]]]]. exists validation.
  split; assumption.
Qed.

(** ** The analysis on an answer of the service *)

Section WithPlatform.

Variable Number_toString : Q -> string.
Variable fetch : value -> Http.fetched.


(** The range loop only gets past a score that can be converted to a
    string. *)
Lemma checkRanges_returns (scores : list (string * value)) (u : unit) :
  Console.outcome (checkRanges Number_toString scores) = Ok u ->
  Forall (fun score => stringifiable Number_toString (snd score)) scores.
Proof.
  induction scores as [| [name v] scores IH]; intros H; [constructor |].
  cbn [checkRanges] in H.
  apply bind_outcome_inv in H. destruct H as [text [Htext H]].
  cbn [Console.lift Console.outcome snd] in Htext.
  apply bind_outcome_inv in H. destruct H as [u' [_ H]].
  constructor; [exists text; exact Htext | apply IH].
  destruct (checkRanges Number_toString scores) as [w [[] | e]];
    destruct u; [reflexivity | discriminate H].
Qed.

Lemma performScoringAnalysis_on_answer
    (resumeData jobData : value) (userId : string) (responseData : value) :
  scoring_service_answers fetch resumeData jobData userId responseData ->
  performScoringAnalysis Number_toString fetch resumeData jobData userId
  = Console.bind (validateScoringData resumeData jobData userId)
      (fun _ => Console.try_catch (checkResponse Number_toString responseData)
                  rethrow).
Proof.
  intros [validation [response [Hv [Hvalid [Hfetch [Hok Hjson]]]]]].
  unfold performScoringAnalysis.
  destruct (validateScoringData resumeData jobData userId) as [w0 [v' | e]];
    cbn in Hv; [| discriminate Hv].
  injection Hv as ->. cbn [Console.bind]. rewrite Hvalid. cbn [negb].
  rewrite Hfetch. cbn [Console.lift Console.bind]. rewrite Hok. cbn [negb].
  rewrite Hjson. cbn [Console.bind app].
  destruct (checkResponse Number_toString responseData) as [w1 r1].
  reflexivity.
Qed.

Lemma performScoringAnalysis_structure_error
    (resumeData jobData : value) (userId : string) (responseData : value)
    (e : exn) :
  scoring_service_answers fetch resumeData jobData userId responseData ->
  checkStructure responseData = Throw e ->
  performScoringAnalysis Number_toString fetch resumeData jobData userId
  = (Console.warnings (validateScoringData resumeData jobData userId), Throw e).
Proof.
  intros Hans He.
  rewrite (performScoringAnalysis_on_answer _ _ _ _ Hans).
  pose proof (scoring_answer_validated _ _ _ _ _ Hans) as [validation [Hv _]].
  destruct (validateScoringData resumeData jobData userId) as [w0 r0].
  cbn in Hv. subst r0. cbn [Console.bind Console.warnings fst].
  unfold checkResponse. rewrite He.
  cbn [Console.lift Console.bind Console.try_catch].
  rewrite (rethrow_structural e (checkStructure_error _ _ He)).
  cbn. rewrite !app_nil_r. reflexivity.
Qed.

Lemma checkResponse_scores (responseData sr b : value) :
  checkStructure responseData = Ok (sr, b) ->
  checkResponse Number_toString responseData
  = (_ <~ checkRanges Number_toString (scoreFields sr b) ;;
     Console.ret responseData).
Proof.
  intros H. unfold checkResponse. rewrite H.
  destruct (checkStructure_passed _ _ _ H) as [_ [_ [Hsr [Hb Hsub]]]].
  cbn [Console.lift Console.bind].
  rewrite (get_field sr "total_score" (truthy_not_nullish sr Hsr)).
  rewrite (get_path_two b "hard_skills" "score" Hb
             (Hsub "hard_skills" ltac:(cbn; tauto))).
  rewrite (get_path_two b "soft_skills" "score" Hb
             (Hsub "soft_skills" ltac:(cbn; tauto))).
  rewrite (get_path_two b "experience_match" "score" Hb
             (Hsub "experience_match" ltac:(cbn; tauto))).
  rewrite (get_path_two b "position_match" "score" Hb
             (Hsub "position_match" ltac:(cbn; tauto))).
  cbn [Console.bind app]. fold (scoreFields sr b).
  destruct (checkRanges Number_toString (scoreFields sr b)) as [w [[] | e]];
    cbn; rewrite ?app_nil_r; reflexivity.
Qed.




(** C4, amended. When the response fails the structural validation,
    [performScoringAnalysis] throws the error of the validation and returns
    nothing, and the component keeps the results it had and shows a message.
    The error names the field when [scoring_result] is missing and when one
    of its own required fields is (the first of them in the order
    [total_score], [breakdown], [recommendation], [recruiter_recommendation],
    [candidate_recommendation]); when a part of [breakdown] is missing the
    error does not name that part. *)
Theorem structural_failure_is_thrown
    (resumeData jobData : value) (userId : string) (responseData : value) :
  scoring_service_answers fetch resumeData jobData userId responseData ->
  (forall e,
     checkStructure responseData = Throw e ->
     Console.outcome
       (performScoringAnalysis Number_toString fetch resumeData jobData userId)
     = Throw e
     /\ forall s : State,
          let '(s', _, notified) :=
            startAnalysis Number_toString fetch resumeData jobData userId s in
          scoringData s' = scoringData s
          /\ analysisComplete s' = analysisComplete s
          /\ notified = None
          /\ exists msg, error s' = Some msg)
  /\ (truthy responseData = true ->
      typeof responseData = TObject ->
      truthy (field responseData "scoring_result") = false ->
      checkStructure responseData
      = Throw (Error "Ответ API не содержит обязательное поле: scoring_result"))
  /\ (forall f,
        truthy responseData = true ->
        typeof responseData = TObject ->
        truthy (field responseData "scoring_result") = true ->
        find (fun k => is_undefined (field (field responseData "scoring_result") k))
          requiredFields = Some f ->
        checkStructure responseData
        = Throw (Error ("Ответ API не содержит обязательное поле: scoring_result."
                        ++ f)))
  /\ (forall f,
        truthy responseData = true ->
        typeof responseData = TObject ->
        truthy (field responseData "scoring_result") = true ->
        find (fun k => is_undefined (field (field responseData "scoring_result") k))
          requiredFields = None ->
        In f breakdownFields ->
        field (field (field responseData "scoring_result") "breakdown") f = VUndef ->
        exists e,
          checkStructure responseData = Throw e
          /\ includes (message e) f = false).
Proof.
  intros Hans. split; [| split; [| split]].
  - intros e He.
    pose proof (performScoringAnalysis_structure_error _ _ _ _ e Hans He) as Hp.
    split; [rewrite Hp; reflexivity |].
    intros s. unfold startAnalysis.
    destruct (negb (truthy resumeData) || negb (truthy jobData)
              || String.eqb userId EmptyString).
    + cbn. repeat split; eauto.
    + rewrite Hp. cbn. repeat split; eauto.
  - intros Hd Hobj Hsr. unfold checkStructure.
    rewrite Hd, Hobj. cbn [type_tag_eqb negb orb bind].
    rewrite (get_field _ "scoring_result" (truthy_not_nullish _ Hd)).
    cbn [bind]. rewrite Hsr. reflexivity.
  - intros f Hd Hobj Hsr Hfind. unfold checkStructure.
    rewrite Hd, Hobj. cbn [type_tag_eqb negb orb bind].
    rewrite (get_field _ "scoring_result" (truthy_not_nullish _ Hd)).
    cbn [bind]. rewrite Hsr. cbn [negb bind].
    rewrite (checkRequiredFields_first _ _ _ Hsr Hfind). reflexivity.
  - intros f Hd Hobj Hsr Hfind Hf Hmissing. unfold checkStructure.
    rewrite Hd, Hobj. cbn [type_tag_eqb negb orb bind].
    rewrite (get_field _ "scoring_result" (truthy_not_nullish _ Hd)).
    cbn [bind]. rewrite Hsr. cbn [negb bind].
    rewrite (checkRequiredFields_none _ _ Hsr Hfind). cbn [bind].
    rewrite (get_field _ "breakdown" (truthy_not_nullish _ Hsr)). cbn [bind].
    destruct (logBreakdown (field (field responseData "scoring_result") "breakdown")
                breakdownFields) as [[] | e'] eqn:Hlog; cbn [bind].
    + rewrite breakdownBroken_returns. cbn [bind].
      assert (Hbroken :
        negb (truthy (field (field responseData "scoring_result") "breakdown"))
        || existsb
             (fun k => negb (truthy (field (field (field responseData "scoring_result")
                                              "breakdown") k)))
             breakdownFields = true).
      { apply orb_true_iff. right. apply existsb_exists. exists f.
        split; [exact Hf | rewrite Hmissing; reflexivity]. }
      rewrite Hbroken. eexists. split; [reflexivity |].
      cbn in Hf. destruct Hf as [<- | [<- | [<- | [<- | []]]]]; reflexivity.
    + exists e'. split; [reflexivity |].
      destruct (logBreakdown_error _ _ _ Hlog) as [k [Hk ->]].
      cbn in Hk, Hf.
      destruct Hk as [<- | [<- | [<- | []]]];
        destruct Hf as [<- | [<- | [<- | [<- | []]]]]; reflexivity.
Qed.

End WithPlatform.

End ScoringProperties.

Section ScoringScenario.
Import Js MatchingResults Spec Scenario.

Lemma service_answers (responseData : value) :
  scoring_service_answers (service responseData) resume_anna job_acme
    "251224_1430" responseData.
Proof.
  exists (mkValidation true []), (Http.mkResponse 200 "OK" (Ok "") (Ok responseData)).
  repeat split; reflexivity.
Qed.

(** C4, as stated, fails: with [soft_skills] missing from the breakdown the
    error that is thrown is the one about the structure of [breakdown], and
    its message names neither [soft_skills] nor its path. *)
Lemma missing_soft_skills_is_not_named :
  performScoringAnalysis integral_toString (service response_without_soft_skills)
    resume_anna job_acme "251224_1430"
  = ([], Throw (Error "Некорректная структура поля breakdown в ответе API"))
  /\ includes "Некорректная структура поля breakdown в ответе API"
       "scoring_result.breakdown.soft_skills" = false
  /\ includes "Некорректная структура поля breakdown в ответе API"
       "soft_skills" = false.
Proof. repeat split; reflexivity. Qed.

(** With [recommendation] missing the error names it. *)
Lemma structural_failure_is_thrown_witness :
  Console.outcome
    (performScoringAnalysis integral_toString
       (service response_without_recommendation)
       resume_anna job_acme "251224_1430")
  = Throw (Error "Ответ API не содержит обязательное поле: scoring_result.recommendation").
Proof.
  destruct (structural_failure_is_thrown integral_toString
              (service response_without_recommendation)
              resume_anna job_acme "251224_1430"
              response_without_recommendation
              (service_answers response_without_recommendation))
    as [Hthrown [_ [Hnamed _]]].
  exact (proj1 (Hthrown _ (Hnamed "recommendation" eq_refl eq_refl eq_refl eq_refl))).
Defined.



(** The component shows the response with the score of 105. *)
Example startAnalysis_shows_105 :
  startAnalysis integral_toString (service response_105)
    resume_anna job_acme "251224_1430" (mkState false false VNull None)
  = (mkState false true response_105 None,
     ["⚠️ Значение total_score вне диапазона 0-100: 105"],
     Some response_105).
Proof. reflexivity. Qed.

(** With [soft_skills] missing the component keeps what it showed and
    displays the message. *)
Example startAnalysis_keeps_results_on_failure :
  startAnalysis integral_toString (service response_without_soft_skills)
    resume_anna job_acme "251224_1430" (mkState false false VNull None)
  = (mkState false false VNull
       (Some "Некорректная структура поля breakdown в ответе API"),
     [], None).
Proof. reflexivity. Qed.

End ScoringScenario.

(* ================================================================== *)
(** * More facts about values *)
(* ================================================================== *)

Section ObjectFacts.
Import Js.

Lemma In_not_empty {A : Type} (x : A) (l : list A) :
  In x l -> Nat.eqb (List.length l) 0 = false.
Proof. destruct l; [intros [] | reflexivity]. Qed.

Lemma push_if_keeps (c : bool) (m x : string) (l : list string) :
  In x l -> In x (push_if c m l).
Proof.
  intros H. unfold push_if. destruct c; [apply in_or_app; left |]; exact H.
Qed.

Lemma or_else_returns (a b : result value) :
  (exists x, a = Ok x) -> (exists y, b = Ok y) -> exists z, (a <||> b) = Ok z.
Proof.
  intros [x ->] [y ->]. unfold or_else. cbn. destruct (truthy x); eauto.
Qed.

Lemma lookup_set_field_same (k : string) (v : value)
    (fields : list (string * value)) :
  lookup k (set_field k v fields) = v.
Proof.
  induction fields as [| [k' v'] r IH]; cbn.
  - rewrite String.eqb_refl. reflexivity.
  - destruct (String.eqb k k') eqn:E; cbn.
    + rewrite String.eqb_refl. reflexivity.
    + rewrite E. exact IH.
Qed.

Lemma lookup_set_field_other (k k' : string) (v : value)
    (fields : list (string * value)) :
  String.eqb k' k = false ->
  lookup k' (set_field k v fields) = lookup k' fields.
Proof.
  intros Hk. induction fields as [| [k0 v0] r IH]; cbn.
  - rewrite Hk. reflexivity.
  - destruct (String.eqb k k0) eqn:E; cbn.
    + apply String.eqb_eq in E. subst k0. rewrite Hk. reflexivity.
    + destruct (String.eqb k' k0); [reflexivity | exact IH].
Qed.

End ObjectFacts.

(** Takes apart the fact that a list of errors built by [push_if] is
    empty. *)
Ltac no_errors H :=
  repeat match type of H with
         | Js.push_if _ _ _ = [] =>
             let Hc := fresh "Hc" in
             apply push_if_nil in H; destruct H as [Hc H]
         | (if ?c then _ else _) = [] =>
             let E := fresh "E" in destruct c eqn:E
         end.

(* ================================================================== *)
(** * The controller: its invariant, its navigation and its list *)
(* ================================================================== *)

Section ControllerProperties.
Import Js Dashboard Spec.

Lemma goToNextStep_flags (s : State) :
  flags_track_artifacts s -> flags_track_artifacts (goToNextStep s).
Proof.
  intros H. unfold goToNextStep.
  destruct (Nat.ltb _ _); [| exact H].
  destruct (nth_error _ _); exact H.
Qed.

Lemma act_flags (a : Action) (s : State) :
  flags_track_artifacts s -> flags_track_artifacts (act a s).
Proof.
  intros H. destruct a; cbn [act].
  - unfold flags_track_artifacts; cbn.
    repeat split; intros; try discriminate; try congruence; try reflexivity.
  - exact H.
  - unfold clickStep. destruct (orb _ _); exact H.
  - unfold clickNext.
    destruct (canProceedToNext s); [apply goToNextStep_flags |]; exact H.
  - destruct H as (H1 & H2 & H3 & H4 & H5).
    unfold flags_track_artifacts; cbn.
    repeat split; intros; try discriminate; try congruence; try tauto.
  - destruct H as (H1 & H2 & H3 & H4 & H5).
    destruct analysisData; unfold flags_track_artifacts; cbn;
      repeat split; intros; try discriminate; try congruence; try tauto.
  - destruct H as (H1 & H2 & H3 & H4 & H5).
    unfold flags_track_artifacts; cbn.
    repeat split; intros; try discriminate; try congruence; try tauto.
  - exact H.
  - destruct H as (H1 & H2 & H3 & H4 & H5).
    unfold flags_track_artifacts; cbn.
    repeat split; intros; try discriminate; try congruence; try tauto.
  - exact H.
Qed.

Lemma run_flags (l : list Action) :
  forall s, flags_track_artifacts s -> flags_track_artifacts (run l s).
Proof.
  induction l as [| a l IH]; intros s H; [exact H |].
  cbn. apply IH, act_flags, H.
Qed.

(** X1. Whatever buttons are clicked and whatever the step components call
    back, in any order, from the initial state of the controller: a resume
    file is stored exactly when [resumeUploaded] is set, the job analysis is
    not [null] exactly when [jobAnalyzed] is set, the resume data are [null]
    while no resume is uploaded, the letter is empty while [letterGenerated]
    is not set, and the scoring result is [null] while [scoringCompleted] is
    not set. *)
Theorem workflow_flags_track_artifacts (l : list Action) :
  flags_track_artifacts (run l initialState).
Proof.
  apply run_flags. unfold flags_track_artifacts; cbn.
  repeat split; intros; try discriminate; try congruence; try reflexivity.
Qed.

(** X2. The final step is entered in one way only: by the Next button, from
    the scoring step, with [scoringCompleted] set. No button of the step
    indicator and no callback leads to it from another step. *)
Theorem final_step_is_entered_by_next_only (a : Action) (s : State) :
  currentStep s <> final -> currentStep (act a s) = final ->
  a = ClickNext /\ currentStep s = scoring /\ scoringCompleted s = true.
Proof.
  intros Hs Ha. destruct a; cbn [act] in Ha; try discriminate Ha;
    try contradiction.
  - unfold clickStep in Ha. destruct step; cbn in Ha;
      destruct (currentStep s) eqn:E; cbn in Ha;
      repeat match type of Ha with
             | context [if ?c then _ else _] => destruct c; cbn in Ha
             end; try discriminate Ha; try contradiction; congruence.
  - unfold clickNext, canProceedToNext, goToNextStep in Ha.
    destruct (currentStep s) eqn:E; cbn in Ha;
      repeat match type of Ha with
             | context [if ?c then _ else _] => destruct c eqn:?; cbn in Ha
             end; try discriminate Ha; try contradiction; try congruence;
      repeat split; assumption.
  - destruct analysisData; cbn in Ha; contradiction.
Qed.

Lemma final_step_is_entered_by_next_only_witness :
  ClickNext = ClickNext
  /\ currentStep
       (mkState scoring true true true true false false
          (savedData Scenario.complete_workflow)) = scoring
  /\ scoringCompleted
       (mkState scoring true true true true false false
          (savedData Scenario.complete_workflow)) = true.
Proof.
  apply (final_step_is_entered_by_next_only ClickNext
           (mkState scoring true true true true false false
              (savedData Scenario.complete_workflow))).
  - discriminate.
  - reflexivity.
Defined.

(** X3. The guard on an open letter editor covers the Next button of the
    letter step only. Once the scoring was completed, the button of the
    scoring step in the step indicator leads from the letter step to the
    scoring step, and Next from there to the final step, whatever the two
    editing flags are; the saved data and the flags are left as they were,
    so the final step gets the letter as it was before the edit. *)
Theorem step_indicator_passes_unsaved_letter (s : State) :
  currentStep s = generate -> scoringCompleted s = true ->
  let s' := clickNext (clickStep scoring s) in
  currentStep (clickStep scoring s) = scoring
  /\ currentStep s' = final
  /\ savedData s' = savedData s
  /\ isCoverLetterEditing s' = isCoverLetterEditing s
  /\ hasUnsavedCoverLetterChanges s' = hasUnsavedCoverLetterChanges s.
Proof.
  intros Hstep Hdone. cbn zeta. unfold clickStep. rewrite Hstep. cbn.
  rewrite Hdone. cbn. unfold clickNext, canProceedToNext. cbn.
  rewrite Hdone. cbn. repeat split.
Qed.

Lemma step_indicator_passes_unsaved_letter_witness :
  canProceedToNext Scenario.reopened_letter_step = false
  /\ currentStep (clickNext (clickStep scoring Scenario.reopened_letter_step))
     = final
  /\ hasUnsavedCoverLetterChanges
       (clickNext (clickStep scoring Scenario.reopened_letter_step)) = true.
Proof.
  split; [reflexivity |].
  destruct (step_indicator_passes_unsaved_letter Scenario.reopened_letter_step
              eq_refl eq_refl) as (_ & Hfinal & _ & _ & Hunsaved).
  split; [exact Hfinal | exact Hunsaved].
Defined.

(** X4. [deleteGeneration] changes the list only after the user confirmed
    and the database reported no error: the list is then the old one without
    the generations of that id, in the old order, the open details are
    closed ([selectedGeneration] is [null]) when they are those of that id
    and kept otherwise, and nothing is alerted. When the user declines, or the database reports an error, the
    list and the open details stay as they are. *)
Theorem deleteGeneration_removes_that_generation_only
    (confirmed : bool) (deleteError : option string) (generationId : string)
    (l : Library) :
  let l' := fst (deleteGeneration confirmed deleteError generationId l) in
  let alert := snd (deleteGeneration confirmed deleteError generationId l) in
  (confirmed = true /\ deleteError = None ->
   savedGenerations l'
   = filter (fun gen => negb (String.eqb (id gen) generationId))
       (savedGenerations l)
   /\ (forall gen, In gen (savedGenerations l')
                   <-> In gen (savedGenerations l) /\ id gen <> generationId)
   /\ selectedGeneration l' <> Some generationId
   /\ (selectedGeneration l = Some generationId -> selectedGeneration l' = None)
   /\ (selectedGeneration l <> Some generationId ->
       selectedGeneration l' = selectedGeneration l)
   /\ alert = None)
  /\ (confirmed = false \/ deleteError <> None -> l' = l)
  /\ (confirmed = false -> alert = None).
Proof.
  cbn zeta. unfold deleteGeneration. destruct confirmed; cbn [negb].
  - destruct deleteError as [msg |]; cbn [fst snd].
    + split; [intros [_ H]; discriminate H |]. split; [reflexivity |].
      intros H; discriminate H.
    + split.
      * intros _. cbn [savedGenerations selectedGeneration].
        split; [reflexivity |]. split.
        { intros gen. rewrite filter_In. rewrite negb_true_iff, String.eqb_neq.
          reflexivity. }
        split.
        { destruct (selectedGeneration l) as [x |]; [| discriminate].
          destruct (String.eqb x generationId) eqn:E; [discriminate |].
          apply String.eqb_neq in E. congruence. }
        split.
        { intros H. rewrite H. rewrite String.eqb_refl. reflexivity. }
        split; [| reflexivity].
        intros H. destruct (selectedGeneration l) as [x |]; [| reflexivity].
        destruct (String.eqb x generationId) eqn:E; [| reflexivity].
        apply String.eqb_eq in E. congruence.
      * split; [intros [H | H]; [discriminate H | contradiction] |].
        intros H; discriminate H.
  - cbn [fst snd]. split; [intros [H _]; discriminate H |].
    split; reflexivity.
Qed.

End ControllerProperties.

(* ================================================================== *)
(** * The save endpoint: what reaches the database *)
(* ================================================================== *)

Section EdgeFunctionProperties.
Import Js SaveGeneration.

Lemma validateGenerationData_not_nullish (data : value) (v : Validation) :
  validateGenerationData data = Ok v -> nullish data = false.
Proof.
  destruct data; cbn; intros H; try discriminate H; reflexivity.
Qed.

(** What a request that passed [validateGenerationData] holds. *)
Lemma validateGenerationData_valid (data : value) (v : Validation) :
  validateGenerationData data = Ok v -> isValid v = true ->
  not_a_filled_string (field data "job_title") = false
  /\ not_a_filled_string (field data "company_name") = false
  /\ not_a_filled_string (field data "cover_letter_text") = false
  /\ not_an_object (field data "scoring_results_json") = false
  /\ not_an_object (field data "resume_data_json") = false
  /\ not_an_object (field data "job_data_json") = false
  /\ (field data "overall_score" = VUndef
      \/ exists q, field data "overall_score" = VNum q
                   /\ Qle_bool 0 q = true /\ Qle_bool q 100 = true)
  /\ (field data "title" = VUndef
      \/ exists s, field data "title" = VStr s /\ Nat.ltb 200 (length s) = false)
  /\ (field data "status" = VUndef \/ status_allowed (field data "status") = true).
Proof.
  intros Hv Hvalid.
  pose proof (validateGenerationData_not_nullish _ _ Hv) as Hn.
  unfold validateGenerationData in Hv.
  rewrite !(get_field _ _ Hn) in Hv. cbn [bind] in Hv.
  injection Hv as Hv. subst v. cbn [isValid errors] in Hvalid.
  apply length_zero_nil in Hvalid.
  no_errors Hvalid.
  all: repeat split; try assumption.
  all: match goal with
       | |- ?x = VUndef \/ _ => destruct x; try discriminate
       end.
  all: try (left; reflexivity).
  all: right.
  all: try (apply negb_false_iff; assumption).
  all: eexists; split; [reflexivity |].
  all: try match goal with
           | H : orb _ _ = false |- _ =>
               apply orb_false_iff in H; destruct H as [Ha Hb];
               apply negb_false_iff in Ha, Hb; split; assumption
           end.
  all: match goal with
       | H : andb _ _ = false |- _ => exact H
       end.
Qed.

(** The converse: a request that holds all that is accepted. *)
Lemma validateGenerationData_accepts (data : value) :
  nullish data = false ->
  not_a_filled_string (field data "job_title") = false ->
  not_a_filled_string (field data "company_name") = false ->
  not_a_filled_string (field data "cover_letter_text") = false ->
  not_an_object (field data "scoring_results_json") = false ->
  not_an_object (field data "resume_data_json") = false ->
  not_an_object (field data "job_data_json") = false ->
  (field data "overall_score" = VUndef
   \/ exists q, field data "overall_score" = VNum q
                /\ Qle_bool 0 q = true /\ Qle_bool q 100 = true) ->
  (field data "title" = VUndef
   \/ exists s, field data "title" = VStr s /\ Nat.ltb 200 (length s) = false) ->
  (field data "status" = VUndef \/ status_allowed (field data "status") = true) ->
  validateGenerationData data = Ok (mkValidation true []).
Proof.
  intros Hn H1 H2 H3 H4 H5 H6 Hscore Htitle Hstatus.
  unfold validateGenerationData. rewrite !(get_field _ _ Hn). cbn [bind].
  rewrite H1, H2, H3, H4, H5, H6. cbn [push_if].
  assert (E1 : (if negb (is_undefined (field data "overall_score")) then
                  push_if (match field data "overall_score" with
                           | VNum q => negb (Qle_bool 0 q) || negb (Qle_bool q 100)
                           | _ => true
                           end) score_error []
                else []) = []).
  { destruct Hscore as [-> | (q & -> & -> & ->)]; reflexivity. }
  rewrite E1.
  assert (E2 : negb (is_undefined (field data "title"))
               && match field data "title" with
                  | VStr s => Nat.ltb 200 (length s)
                  | _ => true
                  end = false).
  { destruct Htitle as [-> | (s & -> & ->)]; reflexivity. }
  rewrite E2. cbn [push_if].
  destruct Hstatus as [-> | Hs]; [reflexivity |].
  rewrite Hs. destruct (field data "status"); reflexivity.
Qed.

(** The row built from a request that passed the validation. *)
Lemma insertData_valid (userId : string) (data : value) (v : Validation) :
  validateGenerationData data = Ok v -> isValid v = true ->
  exists jt cn cl,
    field data "job_title" = VStr jt
    /\ field data "company_name" = VStr cn
    /\ field data "cover_letter_text" = VStr cl
    /\ insertData userId data
       = Ok (mkInsertData userId (trim jt) (trim cn)
               (if truthy (field data "overall_score")
                then field data "overall_score" else VNull)
               (trim cl)
               (field data "scoring_results_json")
               (field data "resume_data_json")
               (field data "job_data_json")
               (match field data "title" with
                | VStr s => if truthy (VStr (trim s)) then VStr (trim s) else VNull
                | _ => VNull
                end)
               (if truthy (field data "status")
                then field data "status" else VStr "completed")).
Proof.
  intros Hv Hvalid.
  pose proof (validateGenerationData_not_nullish _ _ Hv) as Hn.
  destruct (validateGenerationData_valid _ _ Hv Hvalid)
    as (Hjt & Hcn & Hcl & _ & _ & _ & _ & Ht & _).
  apply filled_string_is_string in Hjt, Hcn, Hcl.
  destruct Hjt as [jt Hjt], Hcn as [cn Hcn], Hcl as [cl Hcl].
  exists jt, cn, cl. repeat split; try assumption.
  unfold insertData. rewrite !(get_field _ _ Hn), Hjt, Hcn, Hcl.
  cbn [call_trim bind]. unfold or_else. cbn [bind].
  destruct Ht as [Ht | [s [Ht _]]]; rewrite Ht; cbn [nullish bind call_trim].
  - cbn [truthy bind].
    destruct (truthy (field data "overall_score"));
      destruct (truthy (field data "status")); reflexivity.
  - destruct (truthy (field data "overall_score"));
      destruct (truthy (VStr (trim s)));
      destruct (truthy (field data "status")); reflexivity.
Qed.

Lemma filled_string_trim (s : string) :
  not_a_filled_string (VStr s) = false -> Nat.ltb 0 (length (trim s)) = true.
Proof.
  unfold not_a_filled_string. intros H. apply orb_false_iff in H.
  destruct H as [_ H]. destruct (length (trim s)); [discriminate H | reflexivity].
Qed.

Lemma insertData_user_id (userId : string) (data : value) (row : InsertData) :
  insertData userId data = Ok row -> user_id row = userId.
Proof.
  unfold insertData, or_else. intros H.
  repeat match type of H with
         | bind ?m _ = Ok _ =>
             let x := fresh "x" in
             destruct m as [x |]; cbn [bind] in H; [| discriminate H]
         | (if ?c then _ else _) = Ok _ => destruct c
         end.
  all: try (injection H as <-; reflexivity).
Qed.

(** X6. A request that passed [validateGenerationData] always yields a row
    (building it throws nothing), and the row is well formed: its owner is
    the id given; job title, company and letter are the submitted texts
    trimmed, and not empty; the score is [null] or a number above 0 and at
    most 100; the title is [null] or the submitted title trimmed, and then
    not empty; the status is one of [completed], [draft] and [archived]; the
    three JSON columns hold objects. *)
Theorem valid_request_builds_well_formed_row
    (userId : string) (data : value) (v : Validation) :
  validateGenerationData data = Ok v -> isValid v = true ->
  exists row,
    insertData userId data = Ok row
    /\ user_id row = userId
    /\ (exists s, field data "job_title" = VStr s /\ job_title row = trim s)
    /\ (exists s, field data "company_name" = VStr s /\ company_name row = trim s)
    /\ (exists s, field data "cover_letter_text" = VStr s
                  /\ cover_letter_text row = trim s)
    /\ Nat.ltb 0 (length (job_title row)) = true
    /\ Nat.ltb 0 (length (company_name row)) = true
    /\ Nat.ltb 0 (length (cover_letter_text row)) = true
    /\ (overall_score row = VNull
        \/ exists q, overall_score row = VNum q /\ (0 < q)%Q /\ (q <= 100)%Q)
    /\ (title row = VNull
        \/ exists s, field data "title" = VStr s /\ title row = VStr (trim s)
                     /\ trim s <> EmptyString)
    /\ (exists st, status row = VStr st /\ In st allowedStatuses)
    /\ not_an_object (scoring_results_json row) = false
    /\ not_an_object (resume_data_json row) = false
    /\ not_an_object (job_data_json row) = false.
Proof.
  intros Hv Hvalid.
  destruct (insertData_valid userId _ _ Hv Hvalid)
    as (jt & cn & cl & Hjt & Hcn & Hcl & Hrow).
  destruct (validateGenerationData_valid _ _ Hv Hvalid)
    as (Fjt & Fcn & Fcl & Hsj & Hrj & Hjj & Hscore & Ht & Hst).
  rewrite Hjt in Fjt. rewrite Hcn in Fcn. rewrite Hcl in Fcl.
  eexists. split; [exact Hrow |].
  cbn [user_id job_title company_name cover_letter_text overall_score title
       status scoring_results_json resume_data_json job_data_json].
  repeat split; eauto using filled_string_trim.
  - destruct Hscore as [-> | [q [-> [H0 H100]]]]; [left; reflexivity |].
    change (truthy (VNum q)) with (negb (Qeq_bool q 0)).
    destruct (Qeq_bool q 0) eqn:E; [left; reflexivity | right].
    exists q. apply Qle_bool_iff in H0, H100. repeat split; try assumption.
    apply Qle_lteq in H0. destruct H0 as [H0 | H0]; [exact H0 |].
    apply Qeq_sym, Qeq_bool_iff in H0. congruence.
  - destruct Ht as [-> | [s [-> _]]]; [left; reflexivity |].
    destruct (truthy (VStr (trim s))) eqn:E; [right | left; reflexivity].
    exists s. repeat split. cbn in E. apply negb_true_iff in E.
    apply String.eqb_neq in E. exact E.
  - destruct Hst as [-> | Hst]; [exists "completed"; cbn; auto |].
    destruct (field data "status") as [| | | | st | |]; try discriminate Hst.
    exists st. cbn [status_allowed] in Hst.
    assert (Hin : In st allowedStatuses).
    { apply existsb_exists in Hst. destruct Hst as [x [Hx Hx']].
      apply String.eqb_eq in Hx'. subst x. exact Hx. }
    split; [| exact Hin].
    assert (Htruthy : truthy (VStr st) = true).
    { cbn in Hin. destruct Hin as [<- | [<- | [<- | []]]]; reflexivity. }
    rewrite Htruthy. reflexivity.
Qed.

Lemma valid_request_builds_well_formed_row_witness :
  exists row,
    insertData "user-1" Scenario.zero_score_request = Ok row
    /\ user_id row = "user-1".
Proof.
  destruct (valid_request_builds_well_formed_row "user-1"
              Scenario.zero_score_request (mkValidation true [])
              eq_refl eq_refl) as (row & Hrow & Hid & _).
  exists row. split; [exact Hrow | exact Hid].
Defined.

Lemma validateCreateGenerationData_not_nullish (data : value) (v : Validation) :
  Generation.validateCreateGenerationData data = Ok v -> nullish data = false.
Proof.
  destruct data; cbn; intros H; try discriminate H; reflexivity.
Qed.

Lemma validateCreateGenerationData_valid (data : value) (v : Validation) :
  Generation.validateCreateGenerationData data = Ok v ->
  (isValid v = true
   <-> not_a_filled_string (field data "job_title") = false
       /\ not_a_filled_string (field data "company_name") = false
       /\ not_a_filled_string (field data "cover_letter_text") = false
       /\ not_an_object (field data "scoring_results_json") = false
       /\ not_an_object (field data "resume_data_json") = false
       /\ not_an_object (field data "job_data_json") = false
       /\ (field data "overall_score" = VUndef
           \/ exists q, field data "overall_score" = VNum q
                        /\ Qle_bool 0 q = true /\ Qle_bool q 100 = true)).
Proof.
  intros Hv. pose proof (validateCreateGenerationData_not_nullish _ _ Hv) as Hn.
  unfold Generation.validateCreateGenerationData in Hv.
  rewrite !(get_field _ _ Hn) in Hv. cbn [bind] in Hv.
  injection Hv as <-. cbn [isValid]. split.
  - intros H. apply length_zero_nil in H. no_errors H.
    repeat split; try assumption.
    destruct (field data "overall_score"); cbn in Hc; try discriminate Hc;
      [left; reflexivity | right].
    exists q. apply orb_false_iff in Hc. destruct Hc as [Ha Hb].
    apply negb_false_iff in Ha, Hb. auto.
  - intros (H1 & H2 & H3 & H4 & H5 & H6 & Hscore).
    rewrite H1, H2, H3, H4, H5, H6. cbn [push_if].
    destruct Hscore as [-> | (q & -> & -> & ->)]; reflexivity.
Qed.

(** X9. The check the client has for a generation and the check of the edge
    function agree up to two fields: the edge function accepts a request
    exactly when [validateCreateGenerationData] accepts it and, besides,
    its [title] is absent or a string of at most 200 characters and its
    [status] is absent or one of the three allowed ones. *)
Theorem client_check_is_edge_check_without_title_and_status (data : value) :
  (exists v, validateGenerationData data = Ok v /\ isValid v = true)
  <-> (exists v,
         Generation.validateCreateGenerationData data = Ok v /\ isValid v = true)
      /\ (field data "title" = VUndef
          \/ exists s, field data "title" = VStr s
                       /\ Nat.ltb 200 (length s) = false)
      /\ (field data "status" = VUndef
          \/ status_allowed (field data "status") = true).
Proof.
  split.
  - intros (v & Hv & Hvalid).
    pose proof (validateGenerationData_not_nullish _ _ Hv) as Hn.
    destruct (validateGenerationData_valid _ _ Hv Hvalid)
      as (H1 & H2 & H3 & H4 & H5 & H6 & Hscore & Htitle & Hstatus).
    split; [| split; assumption].
    destruct (Generation.validateCreateGenerationData data) as [v' | e] eqn:Hc.
    + exists v'. split; [reflexivity |].
      apply (validateCreateGenerationData_valid _ _ Hc). tauto.
    + exfalso. unfold Generation.validateCreateGenerationData in Hc.
      rewrite !(get_field _ _ Hn) in Hc. discriminate Hc.
  - intros ((v & Hv & Hvalid) & Htitle & Hstatus).
    pose proof (validateCreateGenerationData_not_nullish _ _ Hv) as Hn.
    apply (validateCreateGenerationData_valid _ _ Hv) in Hvalid.
    destruct Hvalid as (H1 & H2 & H3 & H4 & H5 & H6 & Hscore).
    eexists. split; [apply validateGenerationData_accepts; assumption |].
    reflexivity.
Qed.

Lemma out_of_range_refused (data sc : value) :
  nullish data = false ->
  field data "overall_score" = sc ->
  is_undefined sc = false -> Spec.out_of_range sc = true ->
  exists v,
    validateGenerationData data = Ok v
    /\ isValid v = false /\ In score_error (errors v).
Proof.
  intros Hn Hsc Hu Hout.
  unfold validateGenerationData. rewrite !(get_field _ _ Hn), Hsc.
  cbn [bind]. rewrite Hu. cbn [negb].
  assert (Hc : match sc with
               | VNum q => negb (Qle_bool 0 q) || negb (Qle_bool q 100)
               | _ => true
               end = true).
  { destruct sc; try reflexivity. cbn in Hout. unfold in_0_100 in Hout.
    rewrite negb_andb in Hout. exact Hout. }
  rewrite Hc. eexists. split; [reflexivity |]. cbn [isValid errors].
  match goal with
  | |- _ /\ In _ ?l => assert (Hin : In score_error l)
  end.
  { destruct (negb (is_undefined (field data "status")));
      [do 2 apply push_if_keeps | apply push_if_keeps];
      cbn [push_if]; apply in_or_app; right; left; reflexivity. }
  split; [exact (In_not_empty _ _ Hin) | exact Hin].
Qed.

End EdgeFunctionProperties.

Section EdgeHandlerProperties.
Import Js SaveGeneration.

Variable supabaseUrl serviceRoleKey : option string.
Variable getUser : string -> option string.
Variable insert : InsertData -> InsertResult.

(** The requests for which a row is handed to the database. *)
Lemma serve_try_row (req : Request) (resp : Response) (row : InsertData) :
  serve_try supabaseUrl serviceRoleKey getUser insert req = Ok (resp, Some row) ->
  method req = "POST"
  /\ (exists header,
        authorization req = Some header
        /\ getUser (replace_first "Bearer " "" header) = Some (user_id row))
  /\ (exists data v,
        body req = Ok data
        /\ validateGenerationData data = Ok v /\ isValid v = true
        /\ insertData (user_id row) data = Ok row)
  /\ (status_code resp = 200%Z \/ status_code resp = 500%Z)
  /\ (status_code resp = 200%Z
      <-> exists id created_at, insert row = Inserted id created_at).
Proof.
  unfold serve_try. intros H.
  destruct (String.eqb (method req) "OPTIONS"); [discriminate H |].
  destruct (String.eqb (method req) "POST") eqn:Hpost;
    cbn [negb] in H; [| discriminate H].
  apply String.eqb_eq in Hpost.
  destruct (unset supabaseUrl || unset serviceRoleKey); [discriminate H |].
  destruct (unset (authorization req)) eqn:Hauth; [discriminate H |].
  destruct (authorization req) as [header |] eqn:Hheader; [| discriminate Hauth].
  destruct (getUser (replace_first "Bearer " "" header)) as [userId |] eqn:Huser;
    [| discriminate H].
  destruct (body req) as [data | e] eqn:Hbody; [| discriminate H].
  cbn [bind] in H.
  destruct (validateGenerationData data) as [v | e] eqn:Hv; [| discriminate H].
  cbn [bind] in H.
  destruct (isValid v) eqn:Hvalid; cbn [negb] in H; [| discriminate H].
  destruct (get_path data ["cover_letter_text"; "length"]); [| discriminate H].
  cbn [bind] in H.
  destruct (insertData userId data) as [row' | e] eqn:Hrow; [| discriminate H].
  cbn [bind] in H.
  pose proof (insertData_user_id _ _ _ Hrow) as Hid.
  assert (Hresp : resp = match insert row' with
                        | InsertError msg =>
                            error_response 500
                              [ ("error", VStr "Ошибка при сохранении данных");
                                ("details", VStr msg) ]
                        | Inserted id created_at =>
                            mkResponse 200
                              (VObj [ ("success", VBool true);
                                      ("generation_id", VStr id);
                                      ("created_at", VStr created_at);
                                      ("message", VStr "Генерация успешно сохранена") ])
                        end /\ row = row').
  { destruct (insert row'); injection H as <- <-; split; reflexivity. }
  destruct Hresp as [-> ->]. rewrite Hid.
  split; [exact Hpost |].
  split; [exists header; auto |].
  split; [exists data, v; auto |].
  destruct (insert row') as [id created_at | msg]; cbn [status_code error_response].
  - split; [left; reflexivity |]. split; eauto.
  - split; [right; reflexivity |].
    split; [intros E; discriminate E | intros (? & ? & E); discriminate E].
Qed.

(** X5. The edge function hands a row to the database only for a POST
    request whose Authorization header resolves to a user and whose body
    passed [validateGenerationData]; the owner of the row is that user, not
    anything the body says, and the row is the one [insertData] builds from
    the body. *)
Theorem serve_inserts_only_for_authenticated_user
    (req : Request) (resp : Response) (row : InsertData) :
  serve supabaseUrl serviceRoleKey getUser insert req = (resp, Some row) ->
  method req = "POST"
  /\ (exists header,
        authorization req = Some header
        /\ getUser (replace_first "Bearer " "" header) = Some (user_id row))
  /\ (exists data v,
        body req = Ok data
        /\ validateGenerationData data = Ok v /\ isValid v = true
        /\ insertData (user_id row) data = Ok row).
Proof.
  unfold serve. intros H.
  destruct (serve_try supabaseUrl serviceRoleKey getUser insert req)
    as [[resp' row'] | e] eqn:Htry; [| discriminate H].
  injection H as -> ->.
  destruct (serve_try_row _ _ _ Htry) as (Hpost & Hheader & Hdata & _).
  auto.
Qed.

(** X7. The edge function answers with one of the codes 200, 400, 401, 405
    and 500. It answers 200 only to an OPTIONS request or after the database
    stored the row; a request that is neither OPTIONS nor POST gets 405 and
    reaches nothing. *)
Theorem serve_status_codes (req : Request) :
  let '(resp, row) := serve supabaseUrl serviceRoleKey getUser insert req in
  In (status_code resp) [200; 400; 401; 405; 500]%Z
  /\ (status_code resp = 200%Z ->
      method req = "OPTIONS"
      \/ exists r id created_at,
           row = Some r /\ insert r = Inserted id created_at)
  /\ (method req <> "OPTIONS" -> method req <> "POST" ->
      status_code resp = 405%Z /\ row = None).
Proof.
  unfold serve.
  destruct (serve_try supabaseUrl serviceRoleKey getUser insert req)
    as [[resp row] | e] eqn:Htry.
  2:{ cbn. split; [tauto |]. split; [intros H; discriminate H |].
      intros Ho Hp. exfalso. unfold serve_try in Htry.
      apply String.eqb_neq in Ho, Hp. rewrite Ho, Hp in Htry. discriminate Htry. }
  destruct row as [row |].
  - destruct (serve_try_row _ _ _ Htry) as (Hpost & _ & _ & Hcode & Hins).
    split; [cbn; destruct Hcode as [-> | ->]; tauto |].
    split; [intros H; right; apply Hins in H; destruct H as (id & c & H); eauto |].
    intros _ Hp. contradiction.
  - unfold serve_try in Htry.
    destruct (String.eqb (method req) "OPTIONS") eqn:Ho.
    { injection Htry as <-. apply String.eqb_eq in Ho. cbn.
      split; [tauto |]. split; [auto | intros Hn; contradiction]. }
    destruct (String.eqb (method req) "POST") eqn:Hp; cbn [negb] in Htry.
    2:{ injection Htry as <-. cbn. split; [tauto |].
        split; [intros H; discriminate H | auto]. }
    apply String.eqb_eq in Hp.
    assert (Hgoal : In (status_code resp) [400; 401; 500]%Z).
    { destruct (unset supabaseUrl || unset serviceRoleKey);
        [injection Htry as <-; cbn; tauto |].
      destruct (unset (authorization req));
        [injection Htry as <-; cbn; tauto |].
      destruct (getUser _); [| injection Htry as <-; cbn; tauto].
      destruct (body req) as [data |]; [| discriminate Htry].
      cbn [bind] in Htry.
      destruct (validateGenerationData data) as [v |]; [| discriminate Htry].
      cbn [bind] in Htry.
      destruct (negb (isValid v)); [injection Htry as <-; cbn; tauto |].
      destruct (get_path _ _); [| discriminate Htry]. cbn [bind] in Htry.
      destruct (insertData _ _); [| discriminate Htry]. cbn [bind] in Htry.
      destruct (insert _); discriminate Htry. }
    split; [cbn in Hgoal |- *; tauto |].
    split; [| intros _ Hn; contradiction].
    intros H. rewrite H in Hgoal. cbn in Hgoal.
    destruct Hgoal as [E | [E | [E | []]]]; discriminate E.
Qed.

End EdgeHandlerProperties.

Section ClientRequestProperties.
Import Js SaveGeneration.

Variable Number_toString : Q -> string.

Lemma saveData_overall_score
    (coverLetter : string) (matchingResults resumeData jobData sent : value) :
  FinalResults.saveData Number_toString coverLetter matchingResults resumeData
    jobData = Ok sent ->
  nullish sent = false
  /\ get_path matchingResults ["scoring_result"; "total_score"]
     = Ok (field sent "overall_score").
Proof.
  unfold FinalResults.saveData, or_else. intros H.
  repeat match type of H with
         | bind ?m _ = Ok _ =>
             let x := fresh "x" in
             let E := fresh "E" in
             destruct m as [x |] eqn:E; cbn [bind] in H; [| discriminate H]
         | (if ?c then _ else _) = Ok _ => destruct c
         end.
  all: injection H as <-; split; reflexivity.
Qed.

(** X8. A total score that is outside 0 to 100, or is no number, only draws
    a warning when the scoring result is accepted, but it cannot be saved:
    the request the final step builds from such a result carries the score
    as [overall_score], the edge function's validation refuses it with the
    error of the score, and no request with that body reaches the
    database. *)
Theorem out_of_range_score_cannot_be_saved
    (coverLetter : string) (matchingResults resumeData jobData sent total : value) :
  FinalResults.saveData Number_toString coverLetter matchingResults resumeData
    jobData = Ok sent ->
  get_path matchingResults ["scoring_result"; "total_score"] = Ok total ->
  is_undefined total = false -> Spec.out_of_range total = true ->
  (exists v,
     validateGenerationData sent = Ok v
     /\ isValid v = false /\ In score_error (errors v))
  /\ forall (supabaseUrl serviceRoleKey : option string)
            (getUser : string -> option string)
            (insert : InsertData -> InsertResult) (req : Request),
       body req = Ok sent ->
       snd (serve supabaseUrl serviceRoleKey getUser insert req) = None.
Proof.
  intros Hbody Htotal Hu Hout.
  destruct (saveData_overall_score _ _ _ _ _ Hbody) as [Hn Hscore].
  rewrite Htotal in Hscore. injection Hscore as Hscore.
  destruct (out_of_range_refused sent total Hn (eq_sym Hscore) Hu Hout)
    as (v & Hv & Hvalid & Hin).
  split; [exists v; auto |].
  intros supabaseUrl serviceRoleKey getUser insert req Hreq.
  unfold serve, serve_try. rewrite Hreq. cbn [bind]. rewrite Hv. cbn [bind].
  rewrite Hvalid. cbn [negb].
  destruct (String.eqb (method req) "OPTIONS"); [reflexivity |].
  destruct (negb (String.eqb (method req) "POST")); [reflexivity |].
  destruct (unset supabaseUrl || unset serviceRoleKey); [reflexivity |].
  destruct (unset (authorization req)); [reflexivity |].
  destruct (getUser _); reflexivity.
Qed.

End ClientRequestProperties.

Section EdgeScenario.
Import Js SaveGeneration.

Lemma serve_inserts_only_for_authenticated_user_witness :
  exists header,
    Some "Bearer token" = Some header
    /\ (fun token => if String.eqb token "token" then Some "user-1" else None)
         (replace_first "Bearer " "" header)
       = Some "user-1".
Proof.
  destruct (serve_inserts_only_for_authenticated_user
              (Some "https://project.supabase.co") (Some "service-role-key")
              (fun token => if String.eqb token "token" then Some "user-1" else None)
              (fun _ => Inserted "generation-1" "2025-01-01T00:00:00Z")
              (mkRequest "POST" (Some "Bearer token")
                 (Ok Scenario.zero_score_request))
              (mkResponse 200
                 (VObj [ ("success", VBool true);
                         ("generation_id", VStr "generation-1");
                         ("created_at", VStr "2025-01-01T00:00:00Z");
                         ("message", VStr "Генерация успешно сохранена") ]))
              (mkInsertData "user-1" "Backend developer" "Acme" VNull "Dear team"
                 (VObj [("scoring_result", VObj [])])
                 (VObj [("summary", VStr "engineer")])
                 (VObj [("job_title", VStr "Backend developer")])
                 VNull (VStr "completed"))
              eq_refl) as (_ & Hheader & _).
  exact Hheader.
Defined.

Lemma out_of_range_score_cannot_be_saved_witness :
  FinalResults.saveData integral_toString "Dear team" Scenario.response_105
    Scenario.resume_anna Scenario.job_acme = Ok Scenario.save_request_105
  /\ exists v,
       validateGenerationData Scenario.save_request_105 = Ok v
       /\ isValid v = false /\ In score_error (errors v).
Proof.
  split; [reflexivity |].
  exact (proj1 (out_of_range_score_cannot_be_saved integral_toString
                  "Dear team" Scenario.response_105 Scenario.resume_anna
                  Scenario.job_acme Scenario.save_request_105 (VNum 105)
                  eq_refl eq_refl eq_refl eq_refl)).
Defined.

End EdgeScenario.

(* ================================================================== *)
(** * The scoring step: what is sent, and the text of a result *)
(* ================================================================== *)

Section ScoringRequestProperties.
Import Js MatchingResults.

Variable Number_toString : Q -> string.

(** X10. [startAnalysis] calls the scoring service only with inputs that
    [validateScoringData] accepts. For inputs it does not accept (it reports
    errors, or throws on a resume without [personal_info]) the outcome is
    the same whatever the service would answer: the parent is not notified,
    the result on display and [analysisComplete] stay as they were, and an
    error is shown. *)
Theorem startAnalysis_sends_validated_inputs_only
    (fetch1 fetch2 : value -> Http.fetched)
    (resumeData jobData : value) (userId : string) (s : State) :
  (forall v,
     Console.outcome (validateScoringData resumeData jobData userId) = Ok v ->
     isValid v = false) ->
  let r := startAnalysis Number_toString fetch1 resumeData jobData userId s in
  r = startAnalysis Number_toString fetch2 resumeData jobData userId s
  /\ snd r = None
  /\ scoringData (fst (fst r)) = scoringData s
  /\ analysisComplete (fst (fst r)) = analysisComplete s
  /\ exists msg, error (fst (fst r)) = Some msg.
Proof.
  intros H. unfold startAnalysis.
  destruct (negb (truthy resumeData) || negb (truthy jobData)
            || String.eqb userId EmptyString).
  { cbn. repeat split; eauto. }
  unfold performScoringAnalysis.
  destruct (validateScoringData resumeData jobData userId) as [w [v | e]] eqn:Hv.
  - specialize (H v eq_refl). cbn [Console.bind]. rewrite H. cbn.
    repeat split; eauto.
  - cbn. repeat split; eauto.
Qed.

Lemma checkStructure_truthy (data : value) (parts : value * value) :
  checkStructure data = Ok parts -> truthy data = true.
Proof.
  unfold checkStructure. destruct (truthy data); [reflexivity |].
  cbn. intros H. discriminate H.
Qed.

Lemma rethrow_throws (e : exn) (w : list string) (x : value) :
  rethrow e <> (w, Ok x).
Proof.
  unfold rethrow.
  destruct (String.eqb (name e) "TypeError" && includes (message e) "fetch");
    [intros H; discriminate H |].
  destruct (String.eqb (name e) "SyntaxError"); intros H; discriminate H.
Qed.

(** What [performScoringAnalysis] returns passed the structural validation,
    and the range loop converted its five scores to strings. *)
Lemma performScoringAnalysis_returns_checked
    (fetch : value -> Http.fetched) (resumeData jobData : value)
    (userId : string) (data : value) :
  Console.outcome
    (performScoringAnalysis Number_toString fetch resumeData jobData userId)
  = Ok data ->
  exists sr b,
    checkStructure data = Ok (sr, b)
    /\ Forall (fun score => Spec.stringifiable Number_toString (snd score))
         (Spec.scoreFields sr b).
Proof.
  unfold performScoringAnalysis. intros H.
  apply bind_outcome_inv in H. destruct H as [v [_ H]].
  destruct (negb (isValid v)); [discriminate H |].
  unfold Console.try_catch in H.
  match type of H with
  | Console.outcome (match ?m with _ => _ end) = _ =>
      destruct m as [w [x | e]] eqn:Hm
  end.
  2:{ destruct (rethrow e) as [w' [x | e']] eqn:Hr; [| discriminate H].
      destruct (rethrow_throws _ _ _ Hr). }
  cbn [Console.outcome snd] in H. injection H as ->.
  assert (Hm' : Console.outcome
                  (response <~ Console.lift
                     (fetch (VObj [ ("resume_data", resumeData);
                                    ("job_data", jobData);
                                    ("user_id", VStr userId) ])) ;;
                   if negb (Http.ok response) then
                     Console.lift (rejectResponse Number_toString response)
                   else
                     responseData <~ Console.lift (Http.json response) ;;
                     checkResponse Number_toString responseData) = Ok data)
    by (rewrite Hm; reflexivity).
  clear Hm. apply bind_outcome_inv in Hm'. destruct Hm' as [response [_ H]].
  destruct (negb (Http.ok response)).
  { exfalso. unfold rejectResponse in H.
    cbn [Console.lift Console.outcome snd] in H.
    match type of H with
    | bind ?m _ = _ => destruct m as [msg |]; [| discriminate H]
    end.
    cbn [bind] in H.
    match type of H with
    | bind ?m _ = _ => destruct m; discriminate H
    end. }
  apply bind_outcome_inv in H. destruct H as [rd [_ H]].
  destruct (checkStructure rd) as [[sr b] | e] eqn:Hparts.
  2:{ unfold checkResponse in H. rewrite Hparts in H. discriminate H. }
  rewrite (checkResponse_scores _ fetch _ _ _ Hparts) in H.
  apply bind_outcome_inv in H. destruct H as [u [Hranges H]].
  cbn [Console.ret Console.outcome snd] in H. injection H as <-.
  exists sr, b. split; [exact Hparts |].
  apply (checkRanges_returns _ _ u Hranges).
Qed.

(** X11. On a result that [performScoringAnalysis] returned,
    [generateScoringText] of the final step returns exactly when the four
    summaries of the breakdown and the recommendation for the recruiter can
    be converted to strings, as every string can: every part of the result
    that the text reads is there, the five scores were converted once
    already, and the text is the report, not the notice that no result is
    available. A summary or recommendation that cannot be converted makes
    it throw. *)
Theorem generateScoringText_returns_on_scored
    (fetch : value -> Http.fetched) (resumeData jobData : value)
    (userId : string) (data : value) :
  Console.outcome
    (performScoringAnalysis Number_toString fetch resumeData jobData userId)
  = Ok data ->
  let scoring_result := field data "scoring_result" in
  let breakdown := field scoring_result "breakdown" in
  Forall (Spec.stringifiable Number_toString)
    [ field (field breakdown "hard_skills") "summary";
      field (field breakdown "soft_skills") "summary";
      field (field breakdown "experience_match") "summary";
      field (field breakdown "position_match") "summary";
      field scoring_result "recruiter_recommendation" ]
  <-> exists text,
        FinalResults.generateScoringText Number_toString data = Ok text
        /\ startsWith text "Ниже приведены значения скорринга" = true.
Proof.
  intros H. cbn zeta. apply performScoringAnalysis_returns_checked in H.
  destruct H as (sr & b & H & Hscores).
  pose proof (checkStructure_truthy _ _ H) as Hd.
  destruct (checkStructure_passed _ _ _ H) as (-> & -> & Hsr & Hb & Hk).
  unfold Spec.scoreFields in Hscores.
  repeat match type of Hscores with
         | Forall _ (_ :: _) =>
             let Hs := fresh "Hs" in
             apply Forall_cons_iff in Hscores; destruct Hscores as [Hs Hscores];
             cbn [snd] in Hs; destruct Hs as [? Hs]
         end.
  clear Hscores.
  unfold FinalResults.generateScoringText.
  pose proof (truthy_not_nullish _ Hd) as Hn.
  unfold opt. rewrite Hn, (get_field _ _ Hn). cbn [bind]. rewrite Hsr. cbn [negb].
  rewrite !(get_path_two _ _ _ Hd Hsr). cbn [bind].
  rewrite !(get_path_two _ "hard_skills" _ Hb (Hk "hard_skills" ltac:(cbn; tauto))).
  rewrite !(get_path_two _ "soft_skills" _ Hb (Hk "soft_skills" ltac:(cbn; tauto))).
  rewrite !(get_path_two _ "experience_match" _ Hb
              (Hk "experience_match" ltac:(cbn; tauto))).
  rewrite !(get_path_two _ "position_match" _ Hb
              (Hk "position_match" ltac:(cbn; tauto))).
  cbn [bind].
  repeat match goal with
         | |- context [bind (ToString Number_toString ?v) _] =>
             first
               [ match goal with
                 | Hs : ToString Number_toString v = Ok _ |- _ => rewrite Hs
                 end; cbn [bind]
               | let E := fresh "E" in
                 destruct (ToString Number_toString v) eqn:E; cbn [bind];
                 [| split;
                    [ intros HF; rewrite Forall_forall in HF;
                      destruct (HF v ltac:(cbn; tauto)) as [? HF']; congruence
                    | intros (? & HF & _); discriminate HF ] ] ]
         end.
  split.
  - intros _. eexists. split; reflexivity.
  - intros _. repeat (constructor; [eexists; eassumption |]). constructor.
Qed.

End ScoringRequestProperties.

Section ScoringRequestScenario.
Import Js MatchingResults.

Lemma startAnalysis_sends_validated_inputs_only_witness :
  startAnalysis integral_toString (Scenario.service Scenario.response_105)
    (VObj []) Scenario.job_acme "251224_1430"
    (mkState false true Scenario.response_105 None)
  = startAnalysis integral_toString (fun _ => Throw (TypeError "Failed to fetch"))
      (VObj []) Scenario.job_acme "251224_1430"
      (mkState false true Scenario.response_105 None).
Proof.
  refine (proj1 (startAnalysis_sends_validated_inputs_only integral_toString
                   _ _ _ _ _ _ _)).
  intros v Hv. vm_compute in Hv. discriminate Hv.
Defined.

Lemma generateScoringText_returns_on_scored_witness :
  exists text,
    FinalResults.generateScoringText integral_toString Scenario.response_105
    = Ok text
    /\ startsWith text "Ниже приведены значения скорринга" = true.
Proof.
  refine (proj1 (generateScoringText_returns_on_scored integral_toString
                   (Scenario.service Scenario.response_105)
                   Scenario.resume_anna Scenario.job_acme "251224_1430"
                   Scenario.response_105 eq_refl) _).
  repeat (constructor; [eexists; reflexivity |]). constructor.
Defined.

End ScoringRequestScenario.

(* ================================================================== *)
(** * The letter step: its settings, its editor and its service *)
(* ================================================================== *)

Section LetterSettingsProperties.
Import Js CoverLetterGenerator Spec.

Lemma filter_index_In {A : Type} (keep : nat -> bool) (l : list A) :
  forall start x, In x (filter_index keep start l) -> In x l.
Proof.
  induction l as [| y r IH]; intros start x H; [exact H |].
  cbn in H. destruct (keep start); [destruct H as [H | H] |];
    [left; exact H | right; eapply IH; exact H | right; eapply IH; exact H].
Qed.

Lemma filter_index_length {A : Type} (keep : nat -> bool) (l : list A) :
  forall start, List.length (filter_index keep start l) <= List.length l.
Proof.
  induction l as [| y r IH]; intros start; [apply le_n |].
  cbn. specialize (IH (S start)). destruct (keep start); cbn; lia.
Qed.

Lemma filter_index_NoDup {A : Type} (keep : nat -> bool) (l : list A) :
  forall start, NoDup l -> NoDup (filter_index keep start l).
Proof.
  induction l as [| y r IH]; intros start H; [exact H |].
  inversion H as [| ? ? Hy Hr]; subst. cbn.
  destruct (keep start); [constructor |]; auto.
  intros Hin. apply Hy. eapply filter_index_In; exact Hin.
Qed.

Lemma remove_at_within (limit index : nat) (l : list string) :
  selection_within limit l -> selection_within limit (remove_at index l).
Proof.
  intros (Hlen & Hnd & Hne). unfold remove_at. repeat split.
  - eapply Nat.le_trans; [apply filter_index_length | exact Hlen].
  - apply filter_index_NoDup, Hnd.
  - intros H. apply Hne. eapply filter_index_In; exact H.
Qed.

Lemma add_within (limit : nat) (v : string) (l : list string) :
  selection_within limit l ->
  selection_within limit
    (if negb (String.eqb v EmptyString)
        && Nat.ltb (List.length l) limit
        && negb (ResumeUpload.array_includes l v)
     then (l ++ [v])%list else l).
Proof.
  intros (Hlen & Hnd & Hne).
  destruct (String.eqb v EmptyString) eqn:Hv; cbn [negb andb];
    [repeat split; assumption |].
  destruct (Nat.ltb (List.length l) limit) eqn:Hlt; cbn [andb];
    [| repeat split; assumption].
  destruct (ResumeUpload.array_includes l v) eqn:Hin; cbn [negb];
    [repeat split; assumption |].
  apply Nat.ltb_lt in Hlt. apply String.eqb_neq in Hv.
  apply array_includes_not_In in Hin.
  repeat split.
  - rewrite length_app. cbn. lia.
  - apply NoDup_app; [exact Hnd | repeat constructor; intros [] |].
    intros x Hx [Hx' | []]. subst x. exact (Hin Hx).
  - intros H. apply in_app_or in H. destruct H as [H | [H | []]];
      [exact (Hne H) | exact (Hv H)].
Qed.

Lemma nil_within (limit : nat) : selection_within limit [].
Proof. repeat split; [apply Nat.le_0_l | constructor | intros []]. Qed.

Lemma choose_within (x : Setting) (s : State) :
  selection_within 2 (selectedExperience s)
  /\ selection_within 2 (selectedEducation s)
  /\ selection_within 4 (selectedSkills s) ->
  selection_within 2 (selectedExperience (choose x s))
  /\ selection_within 2 (selectedEducation (choose x s))
  /\ selection_within 4 (selectedSkills (choose x s)).
Proof.
  intros (He & Hd & Hs).
  destruct x as [st | v | i | v | i | v | i |]; cbn [choose].
  - cbn. auto.
  - pose proof (add_within 2 v _ He) as H.
    unfold addExperience. destruct (andb _ _); cbn; auto.
  - unfold removeExperience. cbn. auto using remove_at_within.
  - pose proof (add_within 2 v _ Hd) as H.
    unfold addEducation. destruct (andb _ _); cbn; auto.
  - unfold removeEducation. cbn. auto using remove_at_within.
  - pose proof (add_within 4 v _ Hs) as H.
    unfold addSkill. destruct (andb _ _); cbn; auto.
  - unfold removeSkill. cbn. auto using remove_at_within.
  - cbn. auto using nil_within.
Qed.

(** X12. Whatever is clicked in the settings of the letter, in any order:
    at most two experiences, two educations and four skills are selected,
    none is selected twice and none is the empty string; so the
    [customization] of a request never exceeds these limits. *)
Theorem settings_stay_within_limits (l : list Setting) (savedLetter : string) :
  let s := choose_all l (initialState savedLetter) in
  selection_within 2 (selectedExperience s)
  /\ selection_within 2 (selectedEducation s)
  /\ selection_within 4 (selectedSkills s).
Proof.
  cbn zeta. unfold choose_all.
  assert (H : forall s,
             selection_within 2 (selectedExperience s)
             /\ selection_within 2 (selectedEducation s)
             /\ selection_within 4 (selectedSkills s) ->
             selection_within 2
               (selectedExperience (fold_left (fun s x => choose x s) l s))
             /\ selection_within 2
                  (selectedEducation (fold_left (fun s x => choose x s) l s))
             /\ selection_within 4
                  (selectedSkills (fold_left (fun s x => choose x s) l s))).
  { induction l as [| x l IH]; intros s H; [exact H |].
    cbn. apply IH, choose_within, H. }
  apply H. cbn. auto using nil_within.
Qed.

End LetterSettingsProperties.

Section LetterEditorProperties.
Import Js CoverLetterGenerator Spec.

Lemma restoreSavedLetter_same (s : State) :
  restoreSavedLetter (generatedLetter s) s = s.
Proof.
  unfold restoreSavedLetter.
  destruct (String.eqb (generatedLetter s) EmptyString); reflexivity.
Qed.

Lemma effects_of_sync (w : Dashboard.State) (s : State) :
  Dashboard.coverLetter (Dashboard.savedData w) = generatedLetter s ->
  effects (mkApp w s)
  = mkApp (Dashboard.handleCoverLetterEditingStateChange
             (isEditing s) (hasUnsavedChanges s) w) s.
Proof.
  intros H. unfold effects. cbn [workflow view]. rewrite H.
  rewrite restoreSavedLetter_same. reflexivity.
Qed.

Lemma effects_in_sync (w : Dashboard.State) (s : State) :
  Dashboard.coverLetter (Dashboard.savedData w) = generatedLetter s ->
  (isEditing s = true -> editedLetter s <> generatedLetter s ->
   hasUnsavedChanges s = true) ->
  editor_in_sync (effects (mkApp w s)).
Proof.
  intros Hl He. rewrite effects_of_sync by exact Hl.
  unfold editor_in_sync. cbn. auto.
Qed.

Lemma mount_in_sync (w : Dashboard.State) : editor_in_sync (mount w).
Proof.
  unfold mount. apply effects_in_sync; cbn; [reflexivity | discriminate].
Qed.

Lemma handle_in_sync (e : Event) (a : App) :
  editor_in_sync a -> editor_in_sync (handle e a).
Proof.
  intros (Hl & _ & _ & He). destruct a as [w s]. cbn [workflow view] in *.
  destruct e as [| v | | |]; cbn [handle workflow view saveChanges generateNew];
    apply effects_in_sync; cbn; try assumption; try reflexivity;
    try discriminate; try (intros _ H; exfalso; apply H; reflexivity).
  intros _ H. destruct (String.eqb v (generatedLetter s)) eqn:E;
    [apply String.eqb_eq in E; contradiction | reflexivity].
Qed.

Lemma handle_all_in_sync (w : Dashboard.State) (l : list Event) :
  editor_in_sync (handle_all l (mount w)).
Proof.
  generalize (mount w) (mount_in_sync w). unfold handle_all.
  induction l as [| e l IH]; intros a Ha; [exact Ha |].
  cbn. apply IH, handle_in_sync, Ha.
Qed.

(** X13. From the moment the letter step is mounted and whatever is done in
    its editor, the editor and the controller agree: the controller holds
    the letter on display and the two editing flags of the component, and
    an open editor whose text differs from that letter is flagged as
    unsaved. So whenever Next is enabled on the letter step, the editor is
    closed and the letter the controller passes on is the one on display. *)
Theorem editor_stays_in_sync (w : Dashboard.State) (l : list Event) :
  let a := handle_all l (mount w) in
  editor_in_sync a
  /\ (Dashboard.currentStep (workflow a) = Dashboard.generate ->
      Dashboard.canProceedToNext (workflow a) = true ->
      isEditing (view a) = false
      /\ Dashboard.coverLetter (Dashboard.savedData (workflow a))
         = generatedLetter (view a)).
Proof.
  cbn zeta. pose proof (handle_all_in_sync w l) as H.
  split; [exact H |].
  destruct H as (Hl & He & Hu & _). intros Hstep Hnext.
  unfold Dashboard.canProceedToNext in Hnext. rewrite Hstep in Hnext.
  apply andb_true_iff in Hnext. destruct Hnext as [Hnext _].
  apply andb_true_iff in Hnext. destruct Hnext as [_ Hnext].
  apply negb_true_iff in Hnext. rewrite He in Hnext. auto.
Qed.

(** X14. An edit that is saved reaches the controller, and one that is
    cancelled does not. After the editor was opened and the text changed to
    [v], on the letter step, Next is disabled; [saveChanges] then makes [v]
    the letter of the component and of the controller, marks the letter as
    generated and enables Next; [cancelEditing] instead leaves the saved
    data and the letter on display as they were and closes the editor with
    no unsaved change. *)
Theorem saved_edit_reaches_controller
    (w : Dashboard.State) (l : list Event) (v : string) :
  let a := handle_all l (mount w) in
  let editing := handle (LetterChange v) (handle StartEditing a) in
  let saved := handle SaveChanges editing in
  let cancelled := handle CancelEditing editing in
  (Dashboard.currentStep (workflow a) = Dashboard.generate ->
   Dashboard.canProceedToNext (workflow editing) = false)
  /\ Dashboard.coverLetter (Dashboard.savedData (workflow saved)) = v
  /\ generatedLetter (view saved) = v
  /\ Dashboard.letterGenerated (workflow saved) = true
  /\ (Dashboard.currentStep (workflow a) = Dashboard.generate ->
      Dashboard.canProceedToNext (workflow saved) = true)
  /\ Dashboard.savedData (workflow cancelled) = Dashboard.savedData (workflow a)
  /\ generatedLetter (view cancelled) = generatedLetter (view a)
  /\ Dashboard.letterGenerated (workflow cancelled)
     = Dashboard.letterGenerated (workflow a)
  /\ isEditing (view cancelled) = false
  /\ hasUnsavedChanges (view cancelled) = false.
Proof.
  cbn zeta. destruct (handle_all_in_sync w l) as (Hl & _).
  destruct (handle_all l (mount w)) as [w' s]. cbn [workflow view] in Hl |- *.
  change (handle StartEditing (mkApp w' s))
    with (effects (mkApp w' (startEditing s))).
  rewrite (effects_of_sync w' (startEditing s)) by exact Hl.
  match goal with
  | |- context [handle (LetterChange v) (mkApp ?w0 ?s0)] =>
      change (handle (LetterChange v) (mkApp w0 s0))
        with (effects (mkApp w0 (handleLetterChange v s0)));
      rewrite (effects_of_sync w0 (handleLetterChange v s0)) by exact Hl
  end.
  match goal with
  | |- context [handle SaveChanges (mkApp ?w0 ?s0)] =>
      change (handle SaveChanges (mkApp w0 s0))
        with (effects (mkApp (Dashboard.handleLetterGeneration (editedLetter s0) w0)
                         (fst (saveChanges s0))));
      change (handle CancelEditing (mkApp w0 s0))
        with (effects (mkApp w0 (cancelEditing s0)));
      rewrite (effects_of_sync w0 (cancelEditing s0)) by exact Hl;
      rewrite (effects_of_sync _ (fst (saveChanges s0))) by reflexivity
  end.
  cbn.
  repeat split; try reflexivity; intros H; unfold Dashboard.canProceedToNext;
    cbn; rewrite H; rewrite ?andb_false_r; reflexivity.
Qed.

Lemma act_keeps_empty_letter (x : Dashboard.Action) (w : Dashboard.State) :
  no_letter_action x = true ->
  Dashboard.coverLetter (Dashboard.savedData w) = EmptyString ->
  Dashboard.coverLetter (Dashboard.savedData (Dashboard.act x w)) = EmptyString.
Proof.
  intros Hx Hw. destruct x; cbn [Dashboard.act]; try discriminate Hx;
    try exact Hw; try reflexivity.
  - unfold Dashboard.clickStep. destruct (orb _ _); exact Hw.
  - unfold Dashboard.clickNext, Dashboard.goToNextStep.
    destruct (Dashboard.canProceedToNext w); [| exact Hw].
    destruct (Nat.ltb _ _); [| exact Hw].
    destruct (nth_error _ _); exact Hw.
  - destruct analysisData; first [exact Hw | reflexivity].
Qed.

Lemma run_keeps_empty_letter (l : list Dashboard.Action) :
  forall w,
    forallb no_letter_action l = true ->
    Dashboard.coverLetter (Dashboard.savedData w) = EmptyString ->
    Dashboard.coverLetter (Dashboard.savedData (Dashboard.run l w)) = EmptyString.
Proof.
  induction l as [| x l IH]; intros w Hl Hw; [exact Hw |].
  cbn in Hl. apply andb_true_iff in Hl. destruct Hl as [Hx Hl].
  cbn. apply IH; [exact Hl | apply act_keeps_empty_letter; assumption].
Qed.

Section Save.

Variable Number_toString : Q -> string.
Variable getSession : result FinalResults.SessionResult.
Variable fetch : string -> value -> Http.fetched.

(** X15. The link that asks for a new letter hands the empty letter to the
    controller, which stores it and still marks the letter as generated:
    with the editor closed, Next is enabled on the letter step. Whatever the
    controller does afterwards, short of receiving another letter, the
    letter stays empty, and [handleSaveGeneration] of the final step then
    refuses to save, with the message that data are missing, asking neither
    for the session nor for the save endpoint. *)
Theorem empty_letter_passes_guard_but_cannot_be_saved
    (user : option FinalResults.User) (w : Dashboard.State) (l : list Event)
    (later : list Dashboard.Action) (v : FinalResults.State) (pending : bool) :
  forallb no_letter_action later = true ->
  let a := handle GenerateNew (handle_all l (mount w)) in
  let final := FinalResults.mkApp (Dashboard.run later (workflow a)) v pending in
  Dashboard.coverLetter (Dashboard.savedData (workflow a)) = EmptyString
  /\ Dashboard.letterGenerated (workflow a) = true
  /\ (Dashboard.currentStep (workflow a) = Dashboard.generate ->
      isEditing (view a) = false -> hasUnsavedChanges (view a) = false ->
      Dashboard.canProceedToNext (workflow a) = true)
  /\ FinalResults.handleSaveGeneration Number_toString getSession fetch user final
     = FinalResults.setView
         (FinalResults.setSaveError
            (Some "Отсутствуют необходимые данные для сохранения")) final.
Proof.
  intros Hlater. cbn zeta.
  destruct (handle_all_in_sync w l) as (Hl & _).
  destruct (handle_all l (mount w)) as [w' s]. cbn [workflow view] in Hl.
  change (handle GenerateNew (mkApp w' s))
    with (effects (mkApp (Dashboard.handleLetterGeneration EmptyString w')
                     (fst (generateNew s)))).
  rewrite effects_of_sync by reflexivity. cbn [workflow view].
  split; [reflexivity |]. split; [reflexivity |].
  split.
  - cbn. intros Hstep He Hu. unfold Dashboard.canProceedToNext. cbn.
    rewrite Hstep, He, Hu. reflexivity.
  - unfold FinalResults.handleSaveGeneration. cbn [FinalResults.workflow].
    rewrite run_keeps_empty_letter by (exact Hlater || reflexivity).
    cbn [String.eqb]. rewrite orb_true_r. reflexivity.
Qed.

End Save.

(** X16. [generateCoverLetter] hands a letter to the component and the
    controller exactly when the resume and the job data are there, the
    service answers with a 2xx status and its body is JSON other than
    [null]; the letter is then the first truthy one of [letter_text],
    [cover_letter] and [letter] of the body and, when none is, the
    placeholder text: an answer without a letter completes the step with the
    placeholder as the letter. In every other case an error is shown and
    nothing is handed on. *)
Theorem generateCoverLetter_letter
    (fetch : value -> Http.fetched) (resumeData jobData : value)
    (userId : string) (s : State) (letter : value) :
  generateCoverLetter fetch resumeData jobData userId s = Letter letter
  <-> truthy resumeData = true /\ truthy jobData = true
      /\ exists response data,
           fetch (requestPayload resumeData jobData userId s) = Ok response
           /\ Http.ok response = true
           /\ Http.json response = Ok data
           /\ nullish data = false
           /\ find truthy [ field data "letter_text"; field data "cover_letter";
                            field data "letter"; VStr placeholder ]
              = Some letter.
Proof.
  unfold generateCoverLetter, generateCoverLetter_try.
  destruct (truthy resumeData); cbn [negb orb].
  2:{ split; [intros H; discriminate H | intros (H & _); discriminate H]. }
  destruct (truthy jobData); cbn [negb orb].
  2:{ split; [intros H; discriminate H | intros (_ & H & _); discriminate H]. }
  destruct (fetch (requestPayload resumeData jobData userId s))
    as [response | e]; cbn [bind].
  2:{ split; [intros H; discriminate H
             | intros (_ & _ & r & d & H & _); discriminate H]. }
  destruct (Http.ok response) eqn:Hok; cbn [negb bind].
  2:{ split; [intros H; discriminate H
             | intros (_ & _ & r & d & H & H' & _); injection H as <-;
               congruence]. }
  destruct (Http.json response) as [data | e] eqn:Hjson; cbn [bind].
  2:{ split; [intros H; discriminate H
             | intros (_ & _ & r & d & H & _ & H' & _); injection H as <-;
               congruence]. }
  assert (Hletter :
            forall x, letterOf data = x ->
            (nullish data = true /\ exists e, x = Throw e)
            \/ (nullish data = false
                /\ exists v, x = Ok v
                  /\ find truthy [ field data "letter_text";
                                   field data "cover_letter";
                                   field data "letter"; VStr placeholder ]
                     = Some v)).
  { intros x <-. destruct (nullish data) eqn:Hn.
    - left. split; [reflexivity |].
      destruct data; try discriminate Hn; cbn; eauto.
    - right. split; [reflexivity |].
      unfold letterOf, or_else. rewrite !(get_field _ _ Hn). cbn [bind find].
      destruct (truthy (field data "letter_text")); [eauto |].
      destruct (truthy (field data "cover_letter")); [eauto |].
      destruct (truthy (field data "letter")); eauto. }
  destruct (Hletter _ eq_refl) as [(Hn & e & He) | (Hn & v & Hv & Hfind)].
  - rewrite He. split; [intros H; discriminate H |].
    intros (_ & _ & r & d & H & _ & H' & H'' & _). injection H as <-.
    rewrite Hjson in H'. injection H' as <-. congruence.
  - rewrite Hv. split.
    + intros H. injection H as <-. repeat split. exists response, data. auto.
    + intros (_ & _ & r & d & H & _ & H' & _ & H''). injection H as <-.
      rewrite Hjson in H'. injection H' as <-. congruence.
Qed.

End LetterEditorProperties.

Section LetterScenario.
Import Js CoverLetterGenerator.

Lemma empty_letter_passes_guard_but_cannot_be_saved_witness :
  FinalResults.saveError
    (FinalResults.view
       (FinalResults.handleSaveGeneration integral_toString
          (Ok (FinalResults.mkSessionResult (Some "token") false))
          Scenario.refusing_endpoint (Some (FinalResults.mkUser "user-1"))
          (FinalResults.mkApp
             (Dashboard.run
                [ Dashboard.ClickNext;
                  Dashboard.OnScoringComplete Scenario.response_105;
                  Dashboard.ClickNext ]
                (workflow
                   (handle GenerateNew
                      (handle_all []
                         (mount
                            (Dashboard.setCurrentStep Dashboard.generate
                               Scenario.complete_workflow))))))
             (FinalResults.mkState false None false) false)))
  = Some "Отсутствуют необходимые данные для сохранения".
Proof.
  destruct (empty_letter_passes_guard_but_cannot_be_saved integral_toString
              (Ok (FinalResults.mkSessionResult (Some "token") false))
              Scenario.refusing_endpoint (Some (FinalResults.mkUser "user-1"))
              (Dashboard.setCurrentStep Dashboard.generate
                 Scenario.complete_workflow)
              []
              [ Dashboard.ClickNext;
                Dashboard.OnScoringComplete Scenario.response_105;
                Dashboard.ClickNext ]
              (FinalResults.mkState false None false) false eq_refl)
    as (_ & _ & _ & H).
  rewrite H. reflexivity.
Defined.

End LetterScenario.

(* ================================================================== *)
(** * The job step: [handleAnalyze] and the editor of the job data *)
(* ================================================================== *)

Section JobEditorProperties.
Import Js JobAnalysis.

Lemma edit_keeps_analysisResult (e : Edit) (s s' : State) :
  edit e s = Ok s' ->
  analysisResult s' = analysisResult s.
Proof.
  destruct e as [v | c v | c i |]; cbn [edit].
  - intros H. injection H as <-. reflexivity.
  - unfold addSkill. destruct (negb _).
    + destruct (spread _); cbn [bind]; intros H; [| discriminate H].
      injection H as <-. reflexivity.
    + intros H. injection H as <-. reflexivity.
  - unfold removeSkill. destruct (category_of c (editableData s));
      intros H; try discriminate H. injection H as <-. reflexivity.
  - intros H. injection H as <-. reflexivity.
Qed.

Lemma edit_all_keeps_analysisResult (l : list Edit) :
  forall s s', edit_all l s = Ok s' -> analysisResult s' = analysisResult s.
Proof.
  induction l as [| e l IH]; intros s s' H.
  - injection H as <-. reflexivity.
  - cbn in H. destruct (edit e s) as [s1 |] eqn:E; [| discriminate H].
    cbn [bind] in H. rewrite (IH _ _ H). eapply edit_keeps_analysisResult, E.
Qed.

(** What [handleSaveEdits] hands to the controller: the four entries it
    writes, and every other entry as the analysis result has it. *)
Lemma handleSaveEdits_fields (s : State) :
  let u := snd (handleSaveEdits s) in
  let d := editableData s in
  field u "job_title" = title d
  /\ field u "title" = title d
  /\ field u "skills"
     = VObj [ ("hard_skills", hard_skills d); ("soft_skills", soft_skills d);
              ("languages", languages d) ]
  /\ field u "required_skills" = hard_skills d
  /\ forall k,
       existsb (String.eqb k) ["job_title"; "title"; "skills"; "required_skills"]
       = false ->
       field u k = lookup k (own_properties (analysisResult s)).
Proof.
  cbn zeta. unfold handleSaveEdits. cbn [snd field get].
  set (f := own_properties (analysisResult s)).
  unfold assign. cbn [fold_left fst snd].
  repeat split.
  - rewrite !lookup_set_field_other by reflexivity.
    apply lookup_set_field_same.
  - rewrite !lookup_set_field_other by reflexivity.
    apply lookup_set_field_same.
  - rewrite !lookup_set_field_other by reflexivity.
    apply lookup_set_field_same.
  - apply lookup_set_field_same.
  - intros k Hk. cbn in Hk.
    repeat (apply orb_false_iff in Hk; destruct Hk as [? Hk]).
    rewrite !lookup_set_field_other by assumption. reflexivity.
Qed.

Lemma remove_index_last (x : value) (l : list value) :
  forall start, remove_index (start + List.length l) start (l ++ [x]) = l.
Proof.
  induction l as [| y r IH]; intros start; cbn.
  - rewrite Nat.add_0_r, Nat.eqb_refl. reflexivity.
  - destruct (Nat.eqb start (start + S (List.length r))) eqn:E;
      [apply Nat.eqb_eq in E; exfalso; lia |].
    replace (start + S (List.length r)) with (S start + List.length r) by lia.
    rewrite IH. reflexivity.
Qed.

Lemma remove_index_out_of_range (index : nat) (l : list value) :
  forall start, start + List.length l <= index -> remove_index index start l = l.
Proof.
  induction l as [| y r IH]; intros start H; [reflexivity |].
  cbn in H |- *. destruct (Nat.eqb start index) eqn:E;
    [apply Nat.eqb_eq in E; exfalso; lia |].
  f_equal. apply IH. lia.
Qed.

Lemma with_category_same (category : Category) (d : EditableData) (x : value) :
  with_category category (category_of category d) (with_category category x d) = d.
Proof. destruct category, d; reflexivity. Qed.

Lemma category_of_with (category : Category) (d : EditableData) (x : value) :
  category_of category (with_category category x d) = x.
Proof. destruct category; reflexivity. Qed.

End JobEditorProperties.

Section VacancyWithoutCompany.
Import Js MatchingResults.

Lemma validateJob_company (jobData : value) (errors errors' : list string) :
  Console.outcome (validateJob jobData errors) = Ok errors' ->
  blank (field jobData "company_name") = Ok true ->
  In "В вакансии не указана компания" errors'.
Proof.
  unfold validateJob. intros H Hblank.
  apply bind_outcome_inv in H. destruct H as [jt [Hjt H]].
  cbn [Console.outcome Console.lift snd] in Hjt.
  pose proof (get_ok_not_nullish _ _ _ Hjt) as Hn.
  apply bind_outcome_inv in H. destruct H as [no_title [_ H]].
  cbv beta zeta in H.
  apply bind_outcome_inv in H. destruct H as [cn [Hcn H]].
  cbn [Console.outcome Console.lift snd] in Hcn.
  rewrite (get_field _ _ Hn) in Hcn. injection Hcn as <-.
  apply bind_outcome_inv in H. destruct H as [no_company [Hnc H]].
  cbn [Console.outcome Console.lift snd] in Hnc.
  rewrite Hblank in Hnc. injection Hnc as <-.
  cbv beta zeta in H.
  repeat (apply bind_outcome_inv in H; destruct H as [? [_ H]];
          cbv beta zeta in H).
  cbn [Console.outcome Console.ret snd] in H. injection H as <-.
  cbn [push_if]. apply in_or_app. right. left. reflexivity.
Qed.

Lemma vacancy_without_company_is_invalid
    (resumeData jobData : value) (userId : string) (v : Validation) :
  truthy jobData = true ->
  blank (field jobData "company_name") = Ok true ->
  Console.outcome (validateScoringData resumeData jobData userId) = Ok v ->
  isValid v = false /\ In "В вакансии не указана компания" (errors v).
Proof.
  intros Hj Hblank H. unfold validateScoringData in H.
  apply bind_outcome_inv in H. destruct H as [e1 [_ H]].
  apply bind_outcome_inv in H. destruct H as [e2 [H2 H]].
  rewrite Hj in H2. cbn [negb] in H2.
  pose proof (validateJob_company _ _ _ H2 Hblank) as Hin.
  cbn [Console.outcome Console.ret snd] in H. injection H as <-.
  cbn [isValid errors].
  match goal with
  | |- _ /\ In _ ?l => assert (Hl : In "В вакансии не указана компания" l)
  end.
  { destruct (orb _ _); [apply in_or_app; left; exact Hin |].
    unfold push_if. destruct (Nat.ltb _ _); [apply in_or_app; left |]; exact Hin. }
  split; [| exact Hl].
  match goal with
  | |- Nat.eqb (List.length ?l) 0 = false => destruct l; [destruct Hl | reflexivity]
  end.
Qed.

End VacancyWithoutCompany.

Section JobEditorSafety.
Import Js JobAnalysis Spec.

Lemma array_at_path (v x : value) (k1 k2 : string) :
  opt_path v [k1; k2] = Ok x -> isArray x = true ->
  (sk <- get v k1 ;; get sk k2) = Ok x.
Proof.
  cbn [opt_path]. unfold opt. intros H Hx.
  destruct (nullish v) eqn:Hv.
  { cbn in H. injection H as <-. discriminate Hx. }
  rewrite (get_field _ _ Hv) in H |- *. cbn [bind] in H |- *.
  destruct (nullish (field v k1)) eqn:Hk.
  { cbn in H. injection H as <-. discriminate Hx. }
  rewrite (get_field _ _ Hk) in H |- *. cbn [bind] in H. exact H.
Qed.

Lemma array_at_key (v x : value) (k : string) :
  opt v k = Ok x -> isArray x = true -> get v k = Ok x.
Proof.
  unfold opt. destruct (nullish v); [| auto].
  intros H Hx. injection H as <-. discriminate Hx.
Qed.

(** The skill list [parseJobDataFlexibly] keeps: the value at the path when
    it is an array, otherwise the fallback. *)
Lemma skills_list_is_array (v : value) (k : string) (fallback : result value) :
  (exists y, fallback = Ok y /\ isArray y = true) ->
  exists x,
    (hs <- opt_path v ["skills"; k] ;;
     if isArray hs then (sk <- get v "skills" ;; get sk k) else fallback) = Ok x
    /\ isArray x = true.
Proof.
  intros (y & -> & Hy).
  destruct (opt_path_returns ["skills"; k] v) as [hs Hhs].
  rewrite Hhs. cbn [bind]. destruct (isArray hs) eqn:E; [| eauto].
  exists hs. split; [apply array_at_path; assumption | exact E].
Qed.

Lemma parseJobDataFlexibly_returns (rawData : value) :
  exists job_title h so l rest,
    parseJobDataFlexibly rawData
    = Ok (VObj (("job_title", job_title) :: ("title", job_title)
                :: ("skills", VObj [ ("hard_skills", h); ("soft_skills", so);
                                     ("languages", l) ]) :: rest))
    /\ isArray h = true /\ isArray so = true /\ isArray l = true.
Proof.
  unfold parseJobDataFlexibly.
  assert (H0 : exists a, (opt rawData "job_data" <||> Ok rawData) = Ok a)
    by (apply or_else_returns; [apply opt_returns | eauto]).
  destruct H0 as [a ->]. cbn [bind].
  assert (H1 : exists t, (opt a "job_title" <||> opt a "title" <||> Ok (VStr ""))
                         = Ok t)
    by (repeat first [apply or_else_returns | apply opt_returns | eauto]).
  destruct H1 as [t ->]. cbn [bind].
  assert (Hh : exists h,
             (hs <- opt_path a ["skills"; "hard_skills"] ;;
              if isArray hs then (sk <- get a "skills" ;; get sk "hard_skills")
              else
                rs <- opt a "required_skills" ;;
                if isArray rs then get a "required_skills" else Ok (VArr []))
             = Ok h /\ isArray h = true).
  { apply skills_list_is_array.
    destruct (opt_returns a "required_skills") as [rs Hrs]. rewrite Hrs.
    cbn [bind]. destruct (isArray rs) eqn:E; [| eauto].
    exists rs. split; [apply array_at_key; assumption | exact E]. }
  destruct (opt_path_returns ["skills"; "hard_skills"] a) as [hs Hhs].
  rewrite Hhs in Hh |- *. cbn [bind] in Hh |- *.
  destruct Hh as (h & -> & Hharr). cbn [bind].
  destruct (skills_list_is_array a "soft_skills" (Ok (VArr [])))
    as (so & Hso & Hsoarr); [eauto |].
  destruct (opt_path_returns ["skills"; "soft_skills"] a) as [ss Hss].
  rewrite Hss in Hso |- *. cbn [bind] in Hso |- *. rewrite Hso. cbn [bind].
  destruct (skills_list_is_array a "languages" (Ok (VArr [])))
    as (l & Hl & Hlarr); [eauto |].
  destruct (opt_path_returns ["skills"; "languages"] a) as [ls Hls].
  rewrite Hls in Hl |- *. cbn [bind] in Hl |- *. rewrite Hl. cbn [bind].
  repeat match goal with
         | |- context [bind (?x <||> ?y) _] =>
             let H := fresh "H" in
             let z := fresh "z" in
             assert (H : exists z, (x <||> y) = Ok z)
               by (repeat first [apply or_else_returns | apply opt_returns | eauto]);
             destruct H as [z ->]; cbn [bind]
         end.
  do 5 eexists. split; [reflexivity | auto].
Qed.

Lemma edit_keeps_arrays (e : Edit) (s : State) :
  lists_are_arrays (editableData s) ->
  exists s', edit e s = Ok s' /\ lists_are_arrays (editableData s').
Proof.
  intros (Hh & Hs & Hl). destruct e as [v | c v | c i |]; cbn [edit].
  - eexists. split; [reflexivity |]. repeat split; assumption.
  - unfold addSkill.
    assert (Hc : isArray (category_of c (editableData s)) = true)
      by (destruct c; assumption).
    destruct (category_of c (editableData s)) eqn:E; try discriminate Hc.
    destruct (negb _); cbn [spread bind].
    + eexists. split; [reflexivity |].
      destruct c; repeat split; cbn; assumption || reflexivity.
    + eexists. split; [reflexivity |]. repeat split; assumption.
  - unfold removeSkill.
    assert (Hc : isArray (category_of c (editableData s)) = true)
      by (destruct c; assumption).
    destruct (category_of c (editableData s)) eqn:E; try discriminate Hc.
    eexists. split; [reflexivity |].
    destruct c; repeat split; cbn; assumption || reflexivity.
  - eexists. split; [reflexivity |]. repeat split; assumption.
Qed.

Lemma edit_all_keeps_arrays (l : list Edit) :
  forall s,
    lists_are_arrays (editableData s) ->
    exists s', edit_all l s = Ok s' /\ lists_are_arrays (editableData s').
Proof.
  induction l as [| e l IH]; intros s H;
    [exists s; split; [reflexivity | exact H] |].
  destruct (edit_keeps_arrays e s H) as (s1 & He & H1).
  cbn [edit_all]. rewrite He. cbn [bind]. apply IH, H1.
Qed.

(** X17. [analyzeJobVacancy] always returns, whatever the service answers,
    and leaves three arrays as the skill lists of the editor; from there no
    sequence of title changes, added and removed skills and toggles of the
    editor throws, and the lists stay arrays. *)
Theorem edits_never_throw_after_analysis
    (fetch : value -> Http.fetched) (url userId : string) (s0 : State)
    (edits : list Edit) :
  exists s1 notified s2,
    analyzeJobVacancy fetch url userId s0 = Ok (s1, notified)
    /\ lists_are_arrays (editableData s1)
    /\ edit_all edits s1 = Ok s2
    /\ lists_are_arrays (editableData s2).
Proof.
  assert (H : exists s1 notified,
             analyzeJobVacancy fetch url userId s0 = Ok (s1, notified)
             /\ lists_are_arrays (editableData s1)).
  { unfold analyzeJobVacancy, analyzeJobVacancy_try.
    destruct (fetch (requestBody url userId)) as [response |]; cbn [bind try_catch].
    2:{ do 2 eexists. split; [reflexivity |]. repeat split. }
    match goal with
    | |- context [bind ?m _] => destruct m; cbn [bind try_catch]
    end.
    2:{ do 2 eexists. split; [reflexivity |]. repeat split. }
    destruct (Http.json response) as [data |]; cbn [bind try_catch].
    2:{ do 2 eexists. split; [reflexivity |]. repeat split. }
    destruct (parseJobDataFlexibly_returns data)
      as (t & h & so & l & rest & -> & Hh & Hso & Hl).
    cbn [bind get lookup String.eqb Ascii.eqb Bool.eqb opt nullish].
    destruct h; try discriminate Hh. destruct so; try discriminate Hso.
    destruct l; try discriminate Hl.
    unfold or_else. cbn [bind truthy].
    destruct (truthy t); cbn [bind try_catch];
      (do 2 eexists; split; [reflexivity |]; repeat split). }
  destruct H as (s1 & notified & Hrun & Harr).
  destruct (edit_all_keeps_arrays edits s1 Harr) as (s2 & Hedit & Harr2).
  exists s1, notified, s2. auto.
Qed.

End JobEditorSafety.

Section JobComponentProperties.
Import Js JobAnalysis.

(** X18. [handleAnalyze] asks the extraction service only for an address
    that [validateJobUrl] accepts. For any other text no request is made,
    whatever the service would answer the controller is not notified, and the
    analysis result, the editor and its data are left as they were; for an
    accepted address the call is [analyzeJobVacancy] on the trimmed text. *)
Theorem handleAnalyze_requests_valid_urls_only
    (URL_parse : string -> option URL) (fetch : value -> Http.fetched)
    (jobUrl currentUserId : string) (s : State) :
  (isValid (validateJobUrl URL_parse jobUrl) = false ->
   exists s',
     (forall fetch' : value -> Http.fetched,
        handleAnalyze URL_parse fetch' jobUrl currentUserId s = Ok (s', None))
     /\ isAnalyzing s' = isAnalyzing s
     /\ analysisResult s' = analysisResult s
     /\ isEditing s' = isEditing s
     /\ editableData s' = editableData s)
  /\ (isValid (validateJobUrl URL_parse jobUrl) = true ->
      handleAnalyze URL_parse fetch jobUrl currentUserId s
      = analyzeJobVacancy fetch (trim jobUrl) currentUserId s).
Proof.
  unfold handleAnalyze. split; intros H.
  - destruct (String.eqb (trim jobUrl) EmptyString).
    + exists s. repeat split.
    + rewrite H. cbn [negb]. eexists. repeat split.
  - rewrite H. cbn [negb].
    destruct (String.eqb (trim jobUrl) EmptyString) eqn:E; [| reflexivity].
    exfalso. apply String.eqb_eq in E. unfold validateJobUrl in H.
    rewrite E in H. cbn in H. rewrite orb_true_r in H. discriminate H.
Qed.

(** X19. A job entered by hand after a failed extraction cannot be scored.
    When the extraction fails the controller is not notified; whatever is
    then edited, [handleSaveEdits] hands the controller an object with the
    title and the skills of the editor and the empty [company_name] of the
    manual-entry object, for which the form has no field. The controller
    marks the job as analysed, but [validateScoringData] finds every such
    job invalid, naming the missing company, and [startAnalysis] hands no
    scoring result to the controller for it, whatever the scoring service
    would answer. *)
Theorem manual_entry_cannot_be_scored
    (fetch : value -> Http.fetched) (url userId : string) (s0 s1 s2 : State)
    (notified : option value) (edits : list Edit) :
  Spec.extraction_failed (fetch (requestBody url userId)) ->
  analyzeJobVacancy fetch url userId s0 = Ok (s1, notified) ->
  edit_all edits s1 = Ok s2 ->
  let updatedData := snd (handleSaveEdits s2) in
  notified = None
  /\ field updatedData "job_title" = title (editableData s2)
  /\ field updatedData "required_skills" = hard_skills (editableData s2)
  /\ field updatedData "company_name" = VStr EmptyString
  /\ (forall w,
        Dashboard.jobAnalyzed (Dashboard.handleJobAnalysis updatedData w) = true)
  /\ (forall resumeData uid v,
        Console.outcome
          (MatchingResults.validateScoringData resumeData updatedData uid) = Ok v ->
        MatchingResults.isValid v = false
        /\ In "В вакансии не указана компания" (MatchingResults.errors v))
  /\ (forall Number_toString scoring resumeData uid st,
        snd (MatchingResults.startAnalysis Number_toString scoring resumeData
               updatedData uid st) = None).
Proof.
  intros Hfail Hrun Hedits. cbn zeta.
  unfold analyzeJobVacancy in Hrun.
  destruct (analyzeJobVacancy_try_throws fetch url userId
              (setIsAnalyzing true (setError None s0)) Hfail) as [e He].
  rewrite He in Hrun. cbn [try_catch] in Hrun. injection Hrun as <- <-.
  pose proof (edit_all_keeps_analysisResult _ _ _ Hedits) as Hres.
  cbn [analysisResult setIsEditing setEditableData setAnalysisResult
       setIsAnalyzing setError] in Hres.
  destruct (handleSaveEdits_fields s2) as (Hjt & _ & _ & Hrs & Hother).
  cbn zeta in Hjt, Hrs, Hother.
  assert (Hcompany : field (snd (handleSaveEdits s2)) "company_name"
                     = VStr EmptyString).
  { rewrite Hother by reflexivity. rewrite Hres. reflexivity. }
  assert (Hinvalid : forall resumeData uid v,
        Console.outcome
          (MatchingResults.validateScoringData resumeData
             (snd (handleSaveEdits s2)) uid) = Ok v ->
        MatchingResults.isValid v = false
        /\ In "В вакансии не указана компания" (MatchingResults.errors v)).
  { intros resumeData uid v Hv.
    apply (vacancy_without_company_is_invalid resumeData
             (snd (handleSaveEdits s2)) uid v);
      [reflexivity | rewrite Hcompany; reflexivity | exact Hv]. }
  split; [reflexivity |]. split; [exact Hjt |]. split; [exact Hrs |].
  split; [exact Hcompany |]. split; [reflexivity |]. split; [exact Hinvalid |].
  intros Number_toString scoring resumeData uid st.
  unfold MatchingResults.startAnalysis.
  destruct (orb _ _); [reflexivity |].
  unfold MatchingResults.performScoringAnalysis.
  destruct (MatchingResults.validateScoringData resumeData
              (snd (handleSaveEdits s2)) uid) as [w [v | err]] eqn:Hv;
    [| reflexivity].
  destruct (Hinvalid resumeData uid v) as [Hi _]; [rewrite Hv; reflexivity |].
  cbn [Console.bind]. rewrite Hi. reflexivity.
Qed.

(** X20. Adding and removing a skill in a list of the editor that is an
    array: a skill that is blank after trimming changes nothing; any other
    is appended, trimmed, at the end of its list, and removing the last
    index of the new list gives back the state before; removing at an index
    past the end changes nothing. *)
Theorem skill_edits_round_trip
    (category : Category) (skill : string) (l : list value) (s : State) :
  category_of category (editableData s) = VArr l ->
  (trim skill = EmptyString -> addSkill category skill s = Ok s)
  /\ (trim skill <> EmptyString ->
      exists s',
        addSkill category skill s = Ok s'
        /\ category_of category (editableData s')
           = VArr (l ++ [VStr (trim skill)])
        /\ removeSkill category (List.length l) s' = Ok s)
  /\ (forall index, List.length l <= index -> removeSkill category index s = Ok s).
Proof.
  intros Hl. split; [| split].
  - intros H. unfold addSkill. rewrite H. reflexivity.
  - intros H. apply String.eqb_neq in H. unfold addSkill. rewrite H, Hl.
    cbn [negb spread bind]. eexists. split; [reflexivity |].
    cbn [editableData setEditableData]. rewrite category_of_with.
    split; [reflexivity |].
    unfold removeSkill. cbn [editableData setEditableData].
    rewrite category_of_with.
    rewrite (remove_index_last _ l 0). rewrite <- Hl.
    rewrite with_category_same. destruct s; reflexivity.
  - intros index H. unfold removeSkill. rewrite Hl.
    rewrite remove_index_out_of_range by exact H. rewrite <- Hl.
    assert (E : with_category category (category_of category (editableData s))
                  (editableData s) = editableData s).
    { destruct category, (editableData s); reflexivity. }
    rewrite E. destruct s; reflexivity.
Qed.

(** X21. A job component that is mounted again starts with an empty form,
    whatever analysis the controller saved: the effect that would fill the
    form from the saved analysis does not fire, because the analysis result
    starts as that saved analysis. Opening the editor and saving at once
    hands the controller the saved analysis with its title and its skill
    lists emptied, and the controller stores that object. *)
Theorem remounted_editor_starts_empty (savedAnalysis : value) :
  restoreSavedAnalysis savedAnalysis (initialState savedAnalysis)
  = Ok (initialState savedAnalysis)
  /\ let s := toggleEditing (initialState savedAnalysis) in
     let updatedData := snd (handleSaveEdits s) in
     isEditing s = true
     /\ field updatedData "job_title" = VStr EmptyString
     /\ field updatedData "title" = VStr EmptyString
     /\ field updatedData "required_skills" = VArr []
     /\ field updatedData "skills"
        = VObj [ ("hard_skills", VArr []); ("soft_skills", VArr []);
                 ("languages", VArr []) ]
     /\ (forall k,
           existsb (String.eqb k)
             ["job_title"; "title"; "skills"; "required_skills"] = false ->
           field updatedData k = lookup k (own_properties savedAnalysis))
     /\ forall w,
          Dashboard.jobAnalysis
            (Dashboard.savedData (Dashboard.handleJobAnalysis updatedData w))
          = updatedData.
Proof.
  split.
  - unfold restoreSavedAnalysis, initialState. cbn [analysisResult].
    destruct (truthy savedAnalysis); reflexivity.
  - cbn zeta.
    destruct (handleSaveEdits_fields (toggleEditing (initialState savedAnalysis)))
      as (Hjt & Ht & Hs & Hr & Hk).
    repeat split; assumption.
Qed.

End JobComponentProperties.

Section JobScenario.
Import Js JobAnalysis.

Lemma manual_entry_cannot_be_scored_witness :
  let updatedData := snd (handleSaveEdits Scenario.manual_entry) in
  field updatedData "job_title" = VStr "Developer"
  /\ field updatedData "required_skills" = VArr [VStr "Go"]
  /\ field updatedData "company_name" = VStr EmptyString
  /\ snd (MatchingResults.startAnalysis integral_toString
            (Scenario.service Scenario.response_105) Scenario.resume_anna
            updatedData "user-1"
            (MatchingResults.mkState false false VNull None))
     = None.
Proof.
  cbv zeta.
  destruct (manual_entry_cannot_be_scored (fun _ => Ok Scenario.bad_gateway)
              "https://hh.ru/vacancy/1" "251224_1430"
              Scenario.no_analysis Scenario.failed_analysis
              Scenario.manual_entry None Scenario.manual_edits
              (Spec.bad_status Scenario.bad_gateway eq_refl) eq_refl eq_refl)
    as (_ & Ht & Hs & Hc & _ & _ & Hstart).
  split; [exact Ht |]. split; [exact Hs |]. split; [exact Hc | apply Hstart].
Defined.

Lemma skill_edits_round_trip_witness :
  exists s',
    addSkill HardSkills " Go " Scenario.no_analysis = Ok s'
    /\ category_of HardSkills (editableData s') = VArr [VStr "Go"]
    /\ removeSkill HardSkills 0 s' = Ok Scenario.no_analysis.
Proof.
  destruct (skill_edits_round_trip HardSkills " Go " [] Scenario.no_analysis
              eq_refl) as (_ & H & _).
  apply H. discriminate.
Defined.

End JobScenario.

(* ================================================================== *)
(** * The upload step: [handleFileUpload], [removeFile] and the editor of
      the resume *)
(* ================================================================== *)

Section UploadProperties.
Import Js ResumeUploadComponent.

Lemma extractDisplayData_returns (rawData : value) :
  exists d, ResumeUpload.extractDisplayData rawData = Ok d.
Proof.
  unfold ResumeUpload.extractDisplayData.
  repeat match goal with
         | |- exists d, bind ?m _ = Ok d =>
             let H := fresh "H" in
             let x := fresh "x" in
             assert (H : exists x, m = Ok x)
               by (repeat first [ apply or_else_returns
                                | apply opt_returns
                                | apply opt_path_returns
                                | eexists; reflexivity ]);
             destruct H as [x ->]; cbn [bind]
         end.
  eexists. reflexivity.
Qed.

Variable Number_toString : Q -> string.

(** The [catch] block of [parseResumeAPI] throws in each of its branches. *)
Lemma rethrown (e : exn) (v : value) :
  (if String.eqb (name e) "AbortError" then
     Throw (Error "Время ожидания парсинга истекло (120 секунд). Файл слишком большой или сложный для обработки.")
   else if String.eqb (name e) "TypeError" && includes (message e) "fetch" then
     Throw (Error "Ошибка сети: не удается подключиться к серверу парсинга резюме")
   else if String.eqb (name e) "SyntaxError" then
     Throw (Error "Сервер вернул некорректный ответ. Возможно, файл поврежден или имеет неподдерживаемый формат.")
   else Throw e) = Ok v -> False.
Proof.
  destruct (String.eqb (name e) "AbortError"); [intros H; discriminate H |].
  destruct (String.eqb (name e) "TypeError" && includes (message e) "fetch");
    [intros H; discriminate H |].
  destruct (String.eqb (name e) "SyntaxError"); intros H; discriminate H.
Qed.

Lemma parseResumeAPI_returns
    (fetch : File -> string -> Http.fetched) (file : File) (userId : string)
    (v : value) :
  parseResumeAPI Number_toString fetch file userId = Ok v
  <-> exists response,
        fetch file userId = Ok response
        /\ Http.ok response = true /\ Http.json response = Ok v.
Proof.
  unfold parseResumeAPI, parseResumeAPI_try.
  destruct (fetch file userId) as [response | e]; cbn [bind try_catch].
  2:{ split.
      - intros H. destruct (rethrown _ _ H).
      - intros (r & H & _). discriminate H. }
  destruct (Http.ok response) eqn:Hok; cbn [negb].
  - destruct (Http.json response) as [d | e] eqn:Hjson; cbn [try_catch].
    + split.
      * intros H. injection H as <-. exists response. auto.
      * intros (r & H & _ & H'). injection H as <-. congruence.
    + split.
      * intros H. destruct (rethrown _ _ H).
      * intros (r & H & _ & H'). injection H as <-. congruence.
  - split.
    + intros H. exfalso.
      match type of H with
      | try_catch (bind ?m _) _ = _ => destruct m as [errorMessage |]
      end; cbn [bind try_catch] in H;
      [destruct (ToString Number_toString errorMessage);
       cbn [bind try_catch] in H |];
      match type of H with
      | (if String.eqb (name ?e) _ then _ else _) = _ => exact (rethrown e v H)
      end.
    + intros (r & H & H' & _). injection H as <-. congruence.
Qed.

Lemma handleFileUpload_notified
    (fetch : File -> string -> Http.fetched) (file : File)
    (currentUserId : string) (s : State) (f : File) (data : value) :
  snd (handleFileUpload Number_toString fetch file currentUserId s)
  = Some (f, data)
  <-> f = file
      /\ ResumeUpload.isValid (ResumeUpload.validateFile file) = true
      /\ exists response,
           fetch file currentUserId = Ok response
           /\ Http.ok response = true /\ Http.json response = Ok data.
Proof.
  unfold handleFileUpload.
  destruct (ResumeUpload.isValid (ResumeUpload.validateFile file)); cbn [negb].
  2:{ split; [intros H; discriminate H | intros (_ & H & _); discriminate H]. }
  destruct (parseResumeAPI Number_toString fetch file currentUserId)
    as [parsed | e] eqn:Hparse; cbn [bind].
  - destruct (extractDisplayData_returns parsed) as [d ->]. cbn [bind snd].
    apply parseResumeAPI_returns in Hparse.
    split.
    + intros H. injection H as <- <-. auto.
    + intros (-> & _ & response & Hf & Hok & Hjson).
      destruct Hparse as (r & Hr & _ & Hj). rewrite Hf in Hr.
      injection Hr as <-. congruence.
  - cbn [snd]. split; [intros H; discriminate H |].
    intros (_ & _ & response & Hf & Hok & Hjson).
    assert (Hok' : parseResumeAPI Number_toString fetch file currentUserId
                   = Ok data) by (apply parseResumeAPI_returns; eauto).
    congruence.
Qed.

(** X22. A file that [validateFile] refuses is never sent to the parsing
    service: whatever the service would answer, [handleFileUpload] only
    shows the message of the validation, or the default one when there is
    none, leaves every other cell of the component as it was and does not
    notify the controller. *)
Theorem handleFileUpload_rejects_without_request
    (fetch : File -> string -> Http.fetched) (file : File)
    (currentUserId : string) (s : State) :
  ResumeUpload.isValid (ResumeUpload.validateFile file) = false ->
  exists msg,
    (forall fetch' : File -> string -> Http.fetched,
       handleFileUpload Number_toString fetch' file currentUserId s
       = (setError (Some msg) s, None))
    /\ (ResumeUpload.error (ResumeUpload.validateFile file) = Some msg
        \/ msg = "Ошибка валидации файла").
Proof.
  intros H. unfold handleFileUpload. rewrite H. cbn [negb].
  eexists. split; [intros fetch'; reflexivity |].
  destruct (ResumeUpload.error (ResumeUpload.validateFile file)) as [e |];
    [| right; reflexivity].
  destruct (String.eqb e EmptyString); [right | left]; reflexivity.
Qed.

(** X23. [handleFileUpload] notifies the controller exactly when the file
    passes [validateFile], the parsing service answers with a 2xx status
    and its body is JSON; what it hands over is the file itself and that
    JSON as it is, unchecked. *)
Theorem handleFileUpload_notifies_parsed_json
    (fetch : File -> string -> Http.fetched) (file : File)
    (currentUserId : string) (s : State) (f : File) (data : value) :
  snd (handleFileUpload Number_toString fetch file currentUserId s)
  = Some (f, data)
  <-> f = file
      /\ ResumeUpload.isValid (ResumeUpload.validateFile file) = true
      /\ exists response,
           fetch file currentUserId = Ok response
           /\ Http.ok response = true /\ Http.json response = Ok data.
Proof. apply handleFileUpload_notified. Qed.

(** X24. When the parsing service answers a valid file with JSON that is
    falsy, such as [null], the upload still completes: the controller is
    notified, marks the resume as uploaded and enables Next on the upload
    step. The resume data it stores are that falsy value, with which
    [generateCoverLetter] fails at once with the message that data are
    missing and [startAnalysis] hands over no scoring result, whatever the
    two services would answer. *)
Theorem falsy_resume_completes_upload_only
    (fetch : File -> string -> Http.fetched) (file : File)
    (currentUserId : string) (s : State) (response : Http.Response)
    (data : value) (w : Dashboard.State) :
  ResumeUpload.isValid (ResumeUpload.validateFile file) = true ->
  fetch file currentUserId = Ok response ->
  Http.ok response = true -> Http.json response = Ok data ->
  truthy data = false ->
  snd (handleFileUpload Number_toString fetch file currentUserId s)
  = Some (file, data)
  /\ let w' := Dashboard.handleResumeUpload file data w in
     Dashboard.resumeUploaded w' = true
     /\ (Dashboard.currentStep w = Dashboard.upload ->
         Dashboard.canProceedToNext w' = true)
     /\ (forall letters jobData userId g,
           CoverLetterGenerator.generateCoverLetter letters
             (Dashboard.resumeData (Dashboard.savedData w')) jobData userId g
           = CoverLetterGenerator.Failed "Отсутствуют данные резюме или вакансии")
     /\ (forall scoring jobData userId st,
           snd (MatchingResults.startAnalysis Number_toString scoring
                  (Dashboard.resumeData (Dashboard.savedData w')) jobData userId st)
           = None).
Proof.
  intros Hvalid Hfetch Hok Hjson Hfalsy. split.
  - apply handleFileUpload_notified. eauto 6.
  - cbn zeta. cbn [Dashboard.handleResumeUpload Dashboard.setSavedData
                   Dashboard.setResumeUploaded Dashboard.resumeUploaded
                   Dashboard.savedData Dashboard.resumeData].
    split; [reflexivity |]. split.
    + intros Hstep. unfold Dashboard.canProceedToNext. cbn.
      rewrite Hstep. reflexivity.
    + split.
      * intros letters jobData userId g.
        unfold CoverLetterGenerator.generateCoverLetter. rewrite Hfalsy.
        reflexivity.
      * intros scoring jobData userId st.
        unfold MatchingResults.startAnalysis. rewrite Hfalsy. reflexivity.
Qed.

End UploadProperties.

Section RemoveFileProperties.
Import Js ResumeUploadComponent.

(** X25. [removeFile] clears the component only: the controller is not
    notified and keeps the file and the resume data of the upload. With
    these as its props, the effect of the component that restores saved
    data puts the file back, and the resume data too when they are truthy;
    the display data and the data of the editor stay cleared. *)
Theorem removeFile_is_undone_by_restore
    (f : File) (data : value) (w : Dashboard.State) (s : State) :
  let w' := Dashboard.handleResumeUpload f data w in
  let removed := removeFile s in
  let restored :=
    restoreSaved (Dashboard.resume (Dashboard.savedData w'))
      (Dashboard.resumeData (Dashboard.savedData w')) removed in
  uploadedFile removed = None
  /\ resumeData removed = VNull
  /\ uploadedFile restored = Some f
  /\ (truthy data = true -> resumeData restored = data)
  /\ displayData restored = None
  /\ editableData restored = VNull.
Proof.
  cbn zeta. unfold removeFile, restoreSaved. cbn.
  split; [reflexivity |]. split; [reflexivity |].
  split; [destruct (truthy data); reflexivity |].
  split; [intros H; rewrite H; reflexivity |].
  split; destruct (truthy data); reflexivity.
Qed.

End RemoveFileProperties.

Section EmailPattern.
Import Js ResumeUploadComponent Spec.

Lemma full_match_nil (subject : list string) :
  full_match [] subject = true <-> subject = [].
Proof.
  destruct subject; cbn; split; intros H; try reflexivity; discriminate H.
Qed.

Lemma full_match_exactly (c : string) (p : list token) (subject : list string) :
  full_match (Exactly c :: p) subject = true
  <-> exists r, subject = c :: r /\ full_match p r = true.
Proof.
  destruct subject as [| a r]; cbn.
  - split; [intros H; discriminate H | intros (r & H & _); discriminate H].
  - split.
    + intros H. apply andb_true_iff in H. destruct H as [Ha Hr].
      apply String.eqb_eq in Ha. subst a. eauto.
    + intros (r' & H & Hr). injection H as -> ->.
      rewrite String.eqb_refl. exact Hr.
Qed.

Lemma full_match_one_or_more (class : string -> bool) (p : list token)
    (subject : list string) :
  full_match (OneOrMore class :: p) subject = true
  <-> exists a r,
        subject = (a ++ r)%list /\ a <> [] /\ forallb class a = true
        /\ full_match p r = true.
Proof.
  induction subject as [| x s IH].
  - cbn. split; [intros H; discriminate H |].
    intros (a & r & H & Ha & _). destruct a; [contradiction | discriminate H].
  - cbn [full_match]. split.
    + intros H. apply andb_true_iff in H. destruct H as [Hx H].
      apply orb_true_iff in H. destruct H as [H | H].
      * exists [x], s.
        repeat split; [discriminate | cbn; rewrite Hx; reflexivity | exact H].
      * apply IH in H. destruct H as (a & r & -> & Ha & Hf & Hr).
        exists (x :: a), r.
        repeat split; [discriminate | cbn; rewrite Hx; exact Hf | exact Hr].
    + intros (a & r & H & Ha & Hf & Hr).
      destruct a as [| y a]; [contradiction |].
      cbn in H. injection H as <- ->. cbn in Hf.
      apply andb_true_iff in Hf. destruct Hf as [Hx Hf]. rewrite Hx. cbn [andb].
      apply orb_true_iff. destruct a as [| z a].
      * left. exact Hr.
      * right. apply IH. exists (z :: a), r.
        repeat split; [discriminate | exact Hf | exact Hr].
Qed.

Lemma full_match_emailRegex (chars : list string) :
  full_match emailRegex chars = true <-> well_formed_email chars.
Proof.
  unfold emailRegex, well_formed_email.
  rewrite full_match_one_or_more. split.
  - intros (a & r1 & -> & Ha & Hfa & H).
    apply full_match_exactly in H. destruct H as (r2 & -> & H).
    apply full_match_one_or_more in H. destruct H as (b & r3 & -> & Hb & Hfb & H).
    apply full_match_exactly in H. destruct H as (r4 & -> & H).
    apply full_match_one_or_more in H. destruct H as (c & r5 & -> & Hc & Hfc & H).
    apply full_match_nil in H. subst r5. rewrite app_nil_r.
    exists a, b, c. repeat split; try assumption.
    rewrite !forallb_app, Hfa, Hfb, Hfc. reflexivity.
  - intros (a & b & c & -> & Ha & Hb & Hc & Hf).
    rewrite !forallb_app in Hf. apply andb_true_iff in Hf. destruct Hf as [Hfa Hf].
    apply andb_true_iff in Hf. destruct Hf as [Hfb Hfc].
    exists a, ("@" :: b ++ "." :: c)%list. repeat split; try assumption.
    apply full_match_exactly. eexists. split; [reflexivity |].
    apply full_match_one_or_more. exists b, ("." :: c)%list.
    repeat split; try assumption.
    apply full_match_exactly. eexists. split; [reflexivity |].
    apply full_match_one_or_more. exists c, []. rewrite app_nil_r.
    repeat split; try assumption.
Qed.

(** X26. The pattern of the resume editor accepts a string exactly when it
    is an at sign between two parts, the second part holding a dot with
    something on both sides, with no white space and no further at sign
    anywhere. Nothing else is asked of an address: the dot may be any dot
    after the at sign, and the parts may hold any other character. *)
Theorem emailRegex_test_well_formed (s : string) :
  emailRegex_test s = true <-> well_formed_email (code_points s).
Proof. unfold emailRegex_test. apply full_match_emailRegex. Qed.

End EmailPattern.

Section ResumeEditorProperties.
Import Js ResumeUploadComponent Spec.

Lemma blank_false (v : value) :
  blank v = Ok false ->
  exists t, v = VStr t /\ Nat.ltb 0 (length (trim t)) = true.
Proof.
  unfold blank. destruct (truthy v) eqn:Ht; cbn [negb]; [| intros H; discriminate H].
  destruct v; cbn [call_trim bind]; intros H; try discriminate H.
  injection H as H. exists s. split; [reflexivity |].
  destruct (length (trim s)); [discriminate H | reflexivity].
Qed.

Lemma blank_info_false (data : value) (k : string) :
  blank_info data k = Ok false ->
  get_path data ["personal_info"; k] = Ok (field (field data "personal_info") k)
  /\ exists t,
       field (field data "personal_info") k = VStr t
       /\ Nat.ltb 0 (length (trim t)) = true.
Proof.
  unfold blank_info. intros H.
  destruct (get data "personal_info") as [pi |] eqn:Hpi; [| discriminate H].
  cbn [bind] in H.
  pose proof (get_ok_not_nullish _ _ _ Hpi) as Hn.
  rewrite (get_field _ _ Hn) in Hpi. injection Hpi as <-.
  unfold opt in H.
  destruct (nullish (field data "personal_info")) eqn:Hn'.
  { cbn in H. discriminate H. }
  rewrite (get_field _ _ Hn') in H. cbn [bind] in H.
  destruct (truthy (field (field data "personal_info") k)) eqn:Ht;
    cbn [negb] in H; [| discriminate H].
  assert (Hpath : get_path data ["personal_info"; k]
                  = Ok (field (field data "personal_info") k)).
  { cbn [get_path]. rewrite (get_field _ _ Hn). cbn [bind].
    rewrite (get_field _ _ Hn'). reflexivity. }
  rewrite Hpath in H. cbn [bind] in H. split; [exact Hpath |].
  apply blank_false. unfold blank. rewrite Ht. exact H.
Qed.

Ltac nothing_pushed H :=
  repeat match type of H with
         | push_if _ _ _ = [] =>
             let Hc := fresh "Hc" in
             apply push_if_nil in H; destruct H as [Hc H]
         end.

Lemma validateResumeEditData_valid (data : value) (v : Validation) :
  validateResumeEditData data = Ok v -> isValid v = true ->
  blank_info data "first_name" = Ok false
  /\ blank_info data "last_name" = Ok false
  /\ blank_info data "email" = Ok false
  /\ blank_info data "phone" = Ok false
  /\ (exists email,
        field (field data "personal_info") "email" = VStr email
        /\ emailRegex_test (trim email) = true)
  /\ blank (field data "desired_position") = Ok false
  /\ blank (field data "summary") = Ok false.
Proof.
  unfold validateResumeEditData. intros H Hvalid.
  destruct (blank_info data "first_name") as [b1 |] eqn:H1; [| discriminate H].
  cbn [bind] in H.
  destruct (blank_info data "last_name") as [b2 |] eqn:H2; [| discriminate H].
  cbn [bind] in H.
  destruct (blank_info data "email") as [b3 |] eqn:H3; [| discriminate H].
  cbn [bind] in H.
  match type of H with
  | bind ?m _ = _ => destruct m as [errors3 |] eqn:He; [| discriminate H]
  end.
  cbn [bind] in H.
  destruct (blank_info data "phone") as [b4 |] eqn:H4; [| discriminate H].
  cbn [bind] in H.
  destruct (get data "desired_position") as [dp |] eqn:Hdp; [| discriminate H].
  cbn [bind] in H.
  pose proof (get_ok_not_nullish _ _ _ Hdp) as Hn.
  rewrite (get_field _ _ Hn) in Hdp. injection Hdp as <-.
  destruct (blank (field data "desired_position")) as [b5 |] eqn:H5;
    [| discriminate H].
  cbn [bind] in H. rewrite (get_field _ _ Hn) in H. cbn [bind] in H.
  destruct (blank (field data "summary")) as [b6 |] eqn:H6; [| discriminate H].
  cbn [bind] in H. injection H as <-. cbn [isValid errors] in Hvalid.
  apply length_zero_nil in Hvalid. nothing_pushed Hvalid. subst.
  destruct b3.
  { injection He as He. destruct (push_if b2 _ _); discriminate He. }
  destruct (blank_info_false _ _ H3) as (Hpath & email & Hemail & _).
  rewrite Hpath, Hemail in He. cbn [call_trim bind] in He.
  injection He as He. nothing_pushed He. subst.
  match goal with
  | Hc : negb (emailRegex_test _) = false |- _ => apply negb_false_iff in Hc
  end.
  repeat split; try reflexivity. exists email. auto.
Qed.

(** X27. [handleSaveResumeEdits] hands edited resume data to the controller
    only when they pass [validateResumeEditData]: the data handed over are
    those of the editor, with the uploaded file; first name, last name,
    e-mail and phone of [personal_info], the desired position and the
    summary are strings that are not blank after trimming, and the trimmed
    e-mail is well formed. The component then holds these data as its
    resume data, shows no error and has left the editor with nothing
    unsaved. *)
Theorem handleSaveResumeEdits_notifies_valid_data_only
    (s s' : State) (f : File) (data : value) :
  handleSaveResumeEdits s = Ok (s', Some (f, data)) ->
  data = editableData s
  /\ uploadedFile s = Some f
  /\ resumeData s' = data
  /\ error s' = None /\ isEditing s' = false /\ hasUnsavedChanges s' = false
  /\ (forall k, In k ["first_name"; "last_name"; "email"; "phone"] ->
      exists t,
        field (field data "personal_info") k = VStr t
        /\ Nat.ltb 0 (length (trim t)) = true)
  /\ (exists email,
        field (field data "personal_info") "email" = VStr email
        /\ well_formed_email (code_points (trim email)))
  /\ (forall k, In k ["desired_position"; "summary"] ->
      exists t, field data k = VStr t /\ Nat.ltb 0 (length (trim t)) = true).
Proof.
  unfold handleSaveResumeEdits. intros H.
  destruct (truthy (editableData s)); cbn [negb] in H; [| discriminate H].
  destruct (validateResumeEditData (editableData s)) as [v |] eqn:Hv;
    [| discriminate H].
  cbn [bind] in H.
  destruct (isValid v) eqn:Hvalid; cbn [negb] in H; [| discriminate H].
  destruct (extractDisplayData_returns (editableData s)) as [d Hd].
  rewrite Hd in H. cbn [bind] in H.
  destruct (uploadedFile s) as [file |] eqn:Hfile; [| discriminate H].
  injection H as <- <- <-.
  destruct (validateResumeEditData_valid _ _ Hv Hvalid)
    as (H1 & H2 & H3 & H4 & (email & Hemail & Htest) & H5 & H6).
  repeat split.
  - intros k [<- | [<- | [<- | [<- | []]]]];
      eapply blank_info_false; eassumption.
  - exists email. split; [exact Hemail |].
    apply full_match_emailRegex. exact Htest.
  - intros k [<- | [<- | []]]; apply blank_false; assumption.
Qed.

End ResumeEditorProperties.

Section UploadScenario.
Import Js ResumeUploadComponent.

Lemma handleFileUpload_rejects_without_request_witness :
  exists msg,
    (forall fetch' : File -> string -> Http.fetched,
       handleFileUpload integral_toString fetch'
         (mkFile "cv.pdf" 20000000 "application/pdf") "251224_1430"
         (initialState None VNull)
       = (setError (Some msg) (initialState None VNull), None))
    /\ (ResumeUpload.error
          (ResumeUpload.validateFile (mkFile "cv.pdf" 20000000 "application/pdf"))
        = Some msg
        \/ msg = "Ошибка валидации файла").
Proof.
  exact (handleFileUpload_rejects_without_request integral_toString
           Scenario.null_parser (mkFile "cv.pdf" 20000000 "application/pdf")
           "251224_1430" (initialState None VNull) eq_refl).
Defined.

Lemma falsy_resume_completes_upload_only_witness :
  snd (handleFileUpload integral_toString Scenario.null_parser Scenario.cv
         "251224_1430" (initialState None VNull))
  = Some (Scenario.cv, VNull)
  /\ Dashboard.canProceedToNext
       (Dashboard.handleResumeUpload Scenario.cv VNull
          (Dashboard.startNewGeneration Dashboard.initialState))
     = true.
Proof.
  destruct (falsy_resume_completes_upload_only integral_toString
              Scenario.null_parser Scenario.cv "251224_1430"
              (initialState None VNull)
              (Http.mkResponse 200 "OK" (Ok "null") (Ok VNull)) VNull
              (Dashboard.startNewGeneration Dashboard.initialState)
              eq_refl eq_refl eq_refl eq_refl eq_refl)
    as (Hnotified & _ & Hnext & _).
  split; [exact Hnotified | exact (Hnext eq_refl)].
Defined.

Lemma handleSaveResumeEdits_notifies_valid_data_only_witness :
  exists email,
    field (field Scenario.edited_resume "personal_info") "email" = VStr email
    /\ Spec.well_formed_email (code_points (trim email)).
Proof.
  assert (H : exists s',
             handleSaveResumeEdits Scenario.resume_editor
             = Ok (s', Some (Scenario.cv, Scenario.edited_resume)))
    by (eexists; vm_compute; reflexivity).
  destruct H as [s' H].
  destruct (handleSaveResumeEdits_notifies_valid_data_only _ _ _ _ H)
    as (_ & _ & _ & _ & _ & _ & _ & Hemail & _).
  exact Hemail.
Defined.

End UploadScenario.

(* ================================================================== *)
(** * The two checks of an uploaded file *)
(* ================================================================== *)

Section FileChecksProperties.
Import Js ResumeUpload.

Lemma dangerousChars_test_iff (s : string) :
  UploadResume.dangerousChars_test s = true
  <-> exists c, In c (list_ascii_of_string s) /\ UploadResume.dangerous c = true.
Proof.
  induction s as [| a r IH]; cbn.
  - split; [intros H; discriminate H | intros (c & [] & _)].
  - rewrite orb_true_iff, IH. split.
    + intros [H | (c & Hc & H)]; [exists a; auto | exists c; auto].
    + intros (c & [<- | Hc] & H); [left; exact H | right; exists c; auto].
Qed.

Lemma validateFileMetadata_accepts (file : File) :
  isValid
    (UploadResume.validateFileMetadata (file_name file) (file_size file)
       (file_type file)) = true
  <-> isValid (validateFile file) = true
      /\ forall c, In c (list_ascii_of_string (file_name file)) ->
                   UploadResume.dangerous c = false.
Proof.
  assert (Hd : UploadResume.dangerousChars_test (file_name file) = false
               <-> forall c, In c (list_ascii_of_string (file_name file)) ->
                             UploadResume.dangerous c = false).
  { split.
    - intros H c Hc. destruct (UploadResume.dangerous c) eqn:E; [| reflexivity].
      assert (Ht : UploadResume.dangerousChars_test (file_name file) = true)
        by (apply dangerousChars_test_iff; exists c; auto).
      congruence.
    - intros H.
      destruct (UploadResume.dangerousChars_test (file_name file)) eqn:E;
        [| reflexivity].
      apply dangerousChars_test_iff in E. destruct E as (c & Hc & E).
      rewrite (H c Hc) in E. discriminate E. }
  rewrite <- Hd.
  unfold UploadResume.validateFileMetadata, validateFile,
    UploadResume.MAX_FILE_SIZE, MAX_FILE_SIZE,
    UploadResume.ALLOWED_MIME_TYPES, ALLOWED_TYPES,
    UploadResume.ALLOWED_EXTENSIONS, ALLOWED_EXTENSIONS.
  destruct (file_size file >? 10 * 1024 * 1024)%Z;
    [cbn; split; [intros H | intros [H _]]; discriminate H |].
  destruct (negb (array_includes _ (file_type file)));
    [cbn; split; [intros H | intros [H _]]; discriminate H |].
  destruct (negb (array_includes _ (fileExtension (file_name file))));
    [cbn; split; [intros H | intros [H _]]; discriminate H |].
  destruct (UploadResume.dangerousChars_test (file_name file)); cbn.
  - split; [intros H | intros [_ H]]; discriminate H.
  - split; auto.
Qed.

(** A number of the request is falsy exactly when it is 0. *)
Lemma truthy_size (z : Z) : truthy (VNum (inject_Z z)) = true <-> z <> 0%Z.
Proof.
  cbn [truthy]. rewrite negb_true_iff.
  destruct (Qeq_bool (inject_Z z) 0) eqn:E.
  - apply Qeq_bool_iff in E. unfold Qeq in E. cbn in E.
    split; [intros H; discriminate H | intros H; exfalso; apply H; lia].
  - split; [| reflexivity]. intros _ Hz. subst z. discriminate E.
Qed.

(** What [validateFile] accepts has a name and a type that are not empty. *)
Lemma validateFile_named (file : File) :
  isValid (validateFile file) = true ->
  truthy (VStr (file_name file)) = true /\ truthy (VStr (file_type file)) = true.
Proof.
  unfold validateFile.
  destruct (file_size file >? MAX_FILE_SIZE)%Z; [intros H; discriminate H |].
  destruct (array_includes ALLOWED_TYPES (file_type file)) eqn:Htype;
    cbn [negb]; [| intros H; discriminate H].
  destruct (array_includes ALLOWED_EXTENSIONS (fileExtension (file_name file)))
    eqn:Hext; cbn [negb]; [| intros H; discriminate H].
  intros _. cbn [truthy]. split.
  - destruct (String.eqb (file_name file) EmptyString) eqn:E; [| reflexivity].
    apply String.eqb_eq in E. rewrite E in Hext. discriminate Hext.
  - destruct (String.eqb (file_type file) EmptyString) eqn:E; [| reflexivity].
    apply String.eqb_eq in E. rewrite E in Htype. discriminate Htype.
Qed.

(** X28. The checks of the upload function against the check of the
    component, for the name, the size and the type of a file. The helper
    [validateFileMetadata] accepts them exactly when [validateFile] accepts
    the file and, besides, the name holds no control character and none of
    the nine characters of [dangerousChars]. The handler first refuses a
    request with a falsy parameter and then asks the helper: its two checks
    accept exactly when, besides, the size is not 0. So an empty file with a
    good name and type passes the component and is refused by the upload
    function, as lacking parameters. *)
Theorem upload_function_checks_against_validateFile (file : File) :
  (isValid
     (UploadResume.validateFileMetadata (file_name file) (file_size file)
        (file_type file)) = true
   <-> isValid (validateFile file) = true
       /\ forall c, In c (list_ascii_of_string (file_name file)) ->
                    UploadResume.dangerous c = false)
  /\ (isValid
        (UploadResume.checkParameters (file_name file) (file_size file)
           (file_type file)) = true
      <-> isValid (validateFile file) = true
          /\ (forall c, In c (list_ascii_of_string (file_name file)) ->
                        UploadResume.dangerous c = false)
          /\ file_size file <> 0%Z)
  /\ (file_size file = 0%Z ->
      UploadResume.checkParameters (file_name file) (file_size file)
        (file_type file)
      = mkFileValidation false
          (Some "Отсутствуют обязательные параметры: fileName, fileSize, contentType")).
Proof.
  split; [apply validateFileMetadata_accepts |]. split.
  - unfold UploadResume.checkParameters, UploadResume.missingParameters.
    split.
    + intros H.
      destruct (truthy (VStr (file_name file))); [| discriminate H].
      destruct (truthy (VNum (inject_Z (file_size file)))) eqn:Hsize;
        [| discriminate H].
      destruct (truthy (VStr (file_type file))); [| discriminate H].
      cbn [negb orb] in H. apply validateFileMetadata_accepts in H.
      destruct H as [Hvalid Hname]. apply truthy_size in Hsize. auto.
    + intros (Hvalid & Hname & Hsize).
      destruct (validateFile_named _ Hvalid) as [Hn Ht].
      apply truthy_size in Hsize. rewrite Hn, Hsize, Ht. cbn [negb orb].
      apply validateFileMetadata_accepts. auto.
  - intros Hsize. unfold UploadResume.checkParameters,
      UploadResume.missingParameters. rewrite Hsize.
    destruct (truthy (VStr (file_name file))); reflexivity.
Qed.

End FileChecksProperties.
